(** * Ray, cone and box intersection kernel of yocto_geometry.h

    A shallow embedding of the intersection routines of
    [src/libs/yocto/yocto_geometry.h] and the properties proved about them.

    The C++ code computes in [float], IEEE-754 binary32 with rounding to
    nearest even.  The embedding keeps that arithmetic: a [float] is a
    [spec_float] of the Standard Library and every operation is the
    library's correctly rounded one at precision 24 and maximal exponent 128,
    so infinities, NaN and the two zeros behave as they do in the program.
    Fused multiply-add contraction is not modelled: each C operator is one
    rounded operation, in the order the C grammar gives.

    The statements quantify over every [spec_float]; the values a [float]
    variable can hold are the well-formed ones among them ([F32.valid]), and
    every concrete input used below is well formed
    ([InputFacts.inputs_valid]). *)

From Stdlib Require Import ZArith Bool List Lia.
From Stdlib Require Import Floats.SpecFloat.
Import ListNotations.

Local Open Scope Z_scope.

(* ------------------------------------------------------------------------- *)
(** ** Single-precision arithmetic *)
(* ------------------------------------------------------------------------- *)

Module F32.

Definition prec : Z := 24.
Definition emax : Z := 128.

Definition float : Type := spec_float.

Definition add : float -> float -> float := SFadd prec emax.
Definition sub : float -> float -> float := SFsub prec emax.
Definition mul : float -> float -> float := SFmul prec emax.
Definition div : float -> float -> float := SFdiv prec emax.
Definition neg : float -> float := SFopp.
Definition sqrtf : float -> float := SFsqrt prec emax.

(** C comparisons: every one of them is false when an operand is NaN, except
    [!=], which is then true. *)
Definition ltb (a b : float) : bool := SFltb a b.
Definition leb (a b : float) : bool := SFleb a b.
Definition gtb (a b : float) : bool := SFltb b a.
Definition geb (a b : float) : bool := SFleb b a.
Definition eqb (a b : float) : bool := SFeqb a b.
Definition neqb (a b : float) : bool := negb (SFeqb a b).

(** The value [m * 2^e] rounded to single precision; the decimal literals of
    the source are written through it, with their bit pattern alongside. *)
Definition lit (m e : Z) : float := binary_normalize prec emax m e false.

(** Conversion of an [int] to [float]. *)
Definition of_int (n : Z) : float := binary_normalize prec emax n 0 false.

Definition zero : float := S754_zero false.
Definition one : float := of_int 1.
Definition two : float := of_int 2.
Definition half : float := lit 1 (-1).
Definition nan : float := S754_nan.
Definition infinity : float := S754_infinity false.

Definition is_nan (a : float) : bool :=
  match a with S754_nan => true | _ => false end.

(** The well-formed single-precision values: a finite one has its mantissa
    and exponent in canonical form. *)
Definition valid (a : float) : bool := valid_binary prec emax a.

Definition is_zero (a : float) : bool :=
  match a with S754_zero _ => true | _ => false end.
Definition is_inf (a : float) : bool :=
  match a with S754_infinity _ => true | _ => false end.

(** Neither NaN nor an infinity. *)
Definition is_finite (a : float) : bool :=
  match a with S754_zero _ | S754_finite _ _ _ => true | _ => false end.

(** Equality as [==] sees it, as a proposition: the two zeros are equal and
    NaN equals nothing. *)
Definition feq (a b : float) : Prop := SFcompare a b = Some Eq.

End F32.

#[global] Arguments F32.add : simpl never.
#[global] Arguments F32.sub : simpl never.
#[global] Arguments F32.mul : simpl never.
#[global] Arguments F32.div : simpl never.
#[global] Arguments F32.neg : simpl never.
#[global] Arguments F32.sqrtf : simpl never.
#[global] Arguments F32.ltb : simpl never.
#[global] Arguments F32.leb : simpl never.
#[global] Arguments F32.gtb : simpl never.
#[global] Arguments F32.geb : simpl never.
#[global] Arguments F32.eqb : simpl never.
#[global] Arguments F32.neqb : simpl never.
#[global] Arguments F32.lit : simpl never.
#[global] Arguments F32.of_int : simpl never.

Abbreviation float := F32.float.

Declare Scope f32_scope.
Delimit Scope f32_scope with f32.
Bind Scope f32_scope with F32.float.

Infix "+" := F32.add : f32_scope.
Infix "-" := F32.sub : f32_scope.
Infix "*" := F32.mul : f32_scope.
Infix "/" := F32.div : f32_scope.
Notation "- a" := (F32.neg a) : f32_scope.
Infix "<?" := F32.ltb : f32_scope.
Infix "<=?" := F32.leb : f32_scope.
Infix ">?" := F32.gtb : f32_scope.
Infix ">=?" := F32.geb : f32_scope.
Infix "=?" := F32.eqb : f32_scope.
Infix "!=?" := F32.neqb (at level 70, no associativity) : f32_scope.

(* ------------------------------------------------------------------------- *)
(** ** The part of yocto_math.h the kernel uses *)
(* ------------------------------------------------------------------------- *)

(** Modelled from the spec: [yocto_math.h] (the vector library, the constants
    [flt_max], [flt_min] and [pif], and the scalar helpers [min], [max],
    [clamp], [abs]) is included by the source file but is not among the
    sources.  The spec names it as the consumed collaborator providing
    "dot/cross/normalize/clamp/min/max over 2-/3-component float vectors";
    the definitions below are the componentwise ones, with [min] and [max]
    written with one comparison each. *)
Module Math.

Local Open Scope f32_scope.

Record vec2f : Type := mkvec2f { u_ : float; v_ : float }.
Record vec3f : Type := mkvec3f { x : float; y : float; z : float }.

(** [std::numeric_limits<float>::max()] and [lowest()]. *)
Definition flt_max : float := SFmax_float F32.prec F32.emax.
Definition flt_min : float := - flt_max.

(** [(float)3.14159265358979323846], bit pattern 0x40490fdb. *)
Definition pif : float := F32.lit 13176795 (-22).

Definition abs (a : float) : float := if a <? F32.zero then - a else a.
Definition min (a b : float) : float := if a <? b then a else b.
Definition max (a b : float) : float := if a >? b then a else b.
Definition clamp (a lo hi : float) : float := min (max a lo) hi.

Definition vadd (a b : vec3f) : vec3f := mkvec3f (x a + x b) (y a + y b) (z a + z b).
Definition vsub (a b : vec3f) : vec3f := mkvec3f (x a - x b) (y a - y b) (z a - z b).
Definition vmul (a b : vec3f) : vec3f := mkvec3f (x a * x b) (y a * y b) (z a * z b).
Definition vneg (a : vec3f) : vec3f := mkvec3f (- x a) (- y a) (- z a).
(** vector op scalar, scalar op vector *)
Definition vadds (a : vec3f) (s : float) : vec3f := mkvec3f (x a + s) (y a + s) (z a + s).
Definition vscale (a : vec3f) (s : float) : vec3f := mkvec3f (x a * s) (y a * s) (z a * s).
Definition scalev (s : float) (a : vec3f) : vec3f := mkvec3f (s * x a) (s * y a) (s * z a).
Definition vdivs (a : vec3f) (s : float) : vec3f := mkvec3f (x a / s) (y a / s) (z a / s).
Definition sdivv (s : float) (a : vec3f) : vec3f := mkvec3f (s / x a) (s / y a) (s / z a).

Definition veqb (a b : vec3f) : bool :=
  (x a =? x b) && (y a =? y b) && (z a =? z b).

Definition dot (a b : vec3f) : float := x a * x b + y a * y b + z a * z b.
Definition cross (a b : vec3f) : vec3f :=
  mkvec3f (y a * z b - z a * y b) (z a * x b - x a * z b) (x a * y b - y a * x b).
Definition length (a : vec3f) : float := F32.sqrtf (dot a a).
Definition normalize (a : vec3f) : vec3f :=
  let l := length a in if l !=? F32.zero then vdivs a l else a.

Definition vabs (a : vec3f) : vec3f := mkvec3f (abs (x a)) (abs (y a)) (abs (z a)).
Definition vmin (a b : vec3f) : vec3f := mkvec3f (min (x a) (x b)) (min (y a) (y b)) (min (z a) (z b)).
Definition vmax (a b : vec3f) : vec3f := mkvec3f (max (x a) (x b)) (max (y a) (y b)) (max (z a) (z b)).
(** largest and smallest component *)
Definition max_elem (a : vec3f) : float := max (max (x a) (y a)) (z a).
Definition min_elem (a : vec3f) : float := min (min (x a) (y a)) (z a).

(** [1 - uv] on a [vec2f]. *)
Definition one_minus2 (a : vec2f) : vec2f := mkvec2f (F32.one - u_ a) (F32.one - v_ a).

(** vector minus scalar *)
Definition vsubs (a : vec3f) (s : float) : vec3f := mkvec3f (x a - s) (y a - s) (z a - s).

End Math.
Export Math.

Declare Scope vec_scope.
Delimit Scope vec_scope with vec.
Bind Scope vec_scope with Math.vec3f.
Infix "+" := Math.vadd : vec_scope.
Infix "-" := Math.vsub : vec_scope.
Infix "*" := Math.vmul : vec_scope.
Notation "- a" := (Math.vneg a) : vec_scope.
Infix "+:" := Math.vadds (at level 50, left associativity) : vec_scope.
Infix "*:" := Math.vscale (at level 40, left associativity) : vec_scope.
Infix ":*" := Math.scalev (at level 40, left associativity) : vec_scope.
Infix "/:" := Math.vdivs (at level 40, left associativity) : vec_scope.

(* ------------------------------------------------------------------------- *)
(** ** Boxes, rays and cones *)
(* ------------------------------------------------------------------------- *)

(** Axis aligned bounding box represented as a min/max vector pair.  The
    default-constructed box, [invalidb3f], has [min = flt_max] and
    [max = flt_min]. *)
Record bbox3f : Type := mkbbox3f { bmin : vec3f; bmax : vec3f }.

Definition invalidb3f : bbox3f :=
  mkbbox3f (mkvec3f flt_max flt_max flt_max) (mkvec3f flt_min flt_min flt_min).

(** [ray_eps = 1e-4f], bit pattern 0x38d1b717. *)
Definition ray_eps : float := F32.lit 13743895 (-37).

Record ray3f : Type := mkray3f { o : vec3f; d : vec3f; tmin : float; tmax : float }.

(** [ray3f{o, d}]: the remaining members take their default initialisers. *)
Definition ray3f_od (o d : vec3f) : ray3f := mkray3f o d ray_eps flt_max.

Definition set_tmin (r : ray3f) (t : float) : ray3f := mkray3f (o r) (d r) t (tmax r).
Definition set_tmax (r : ray3f) (t : float) : ray3f := mkray3f (o r) (d r) (tmin r) t.

Record cone_data : Type := mkcone
  { origin : vec3f; dir : vec3f; spread : float; cone_tmin : float; cone_tmax : float }.

Definition vec3f_valid (a : vec3f) : bool :=
  F32.valid (x a) && F32.valid (y a) && F32.valid (z a).
Definition bbox3f_valid (b : bbox3f) : bool :=
  vec3f_valid (bmin b) && vec3f_valid (bmax b).
Definition ray3f_valid (r : ray3f) : bool :=
  vec3f_valid (o r) && vec3f_valid (d r) && F32.valid (tmin r) && F32.valid (tmax r).
Definition cone_valid (c : cone_data) : bool :=
  vec3f_valid (origin c) && vec3f_valid (dir c) && F32.valid (spread c)
  && F32.valid (cone_tmin c) && F32.valid (cone_tmax c).

(** What a solver leaves in its output slots: the C++ routines return [bool]
    and write [uv] and [dist] through references, and the ray solvers write
    them on the successful path only.  [Some (uv, dist)] is "returned true
    and wrote [uv], [dist]"; [None] is "returned false, wrote nothing". *)
Definition hit : Type := option (vec2f * float).

Definition is_hit {A : Type} (h : option A) : bool :=
  match h with Some _ => true | None => false end.

(* ------------------------------------------------------------------------- *)
(** ** Ray-primitive intersection *)
(* ------------------------------------------------------------------------- *)

Module Ray.

Local Open Scope f32_scope.

(** The bounds check of the solvers, [!(t < ray.tmin || t > ray.tmax)]; a
    NaN passes it. *)
Definition in_bounds (ray : ray3f) (t : float) : bool :=
  negb ((t <? tmin ray) || (t >? tmax ray)).

(** Intersect a ray with a point (approximate). *)
Definition intersect_point (ray : ray3f) (p : vec3f) (r : float) : hit :=
  let w := (p - o ray)%vec in
  let t := dot w (d ray) / dot (d ray) (d ray) in
  if (t <? tmin ray) || (t >? tmax ray) then None else
  let rp := (o ray + d ray *: t)%vec in
  let prp := (p - rp)%vec in
  if dot prp prp >? r * r then None else
  Some (mkvec2f F32.zero F32.zero, t).

(** Intersect a ray with a line. *)
Definition intersect_line (ray : ray3f) (p0 p1 : vec3f) (r0 r1 : float) : hit :=
  let u := d ray in
  let v := (p1 - p0)%vec in
  let w := (o ray - p0)%vec in
  let a := dot u u in
  let b := dot u v in
  let c := dot v v in
  let d_ := dot u w in
  let e := dot v w in
  let det := a * c - b * b in
  if det =? F32.zero then None else
  let t := (b * e - c * d_) / det in
  let s := (a * e - b * d_) / det in
  if (t <? tmin ray) || (t >? tmax ray) then None else
  let s := clamp s F32.zero F32.one in
  let pr := (o ray + d ray *: t)%vec in
  let pl := (p0 + (p1 - p0) *: s)%vec in
  let prl := (pr - pl)%vec in
  let d2 := dot prl prl in
  let r := r0 * (F32.one - s) + r1 * s in
  if d2 >? r * r then None else
  Some (mkvec2f s F32.zero, t).

(** Intersect a ray with a triangle. *)
Definition intersect_triangle (ray : ray3f) (p0 p1 p2 : vec3f) : hit :=
  let edge1 := (p1 - p0)%vec in
  let edge2 := (p2 - p0)%vec in
  let pvec := cross (d ray) edge2 in
  let det := dot edge1 pvec in
  if det =? F32.zero then None else
  let inv_det := F32.one / det in
  let tvec := (o ray - p0)%vec in
  let u := dot tvec pvec * inv_det in
  if (u <? F32.zero) || (u >? F32.one) then None else
  let qvec := cross tvec edge1 in
  let v := dot (d ray) qvec * inv_det in
  if (v <? F32.zero) || (u + v >? F32.one) then None else
  let t := dot edge2 qvec * inv_det in
  if (t <? tmin ray) || (t >? tmax ray) then None else
  Some (mkvec2f u v, t).

(** Intersect a ray with a quad.  [tray] is the copy of the ray whose [tmax]
    the first hit narrows; after the second test the later assignment to
    [tray.tmax] is never read. *)
Definition intersect_quad (ray : ray3f) (p0 p1 p2 p3 : vec3f) : hit :=
  if veqb p2 p3 then intersect_triangle ray p0 p1 p3 else
  let first := intersect_triangle ray p0 p1 p3 in
  let tray := match first with Some (_, dist) => set_tmax ray dist | None => ray end in
  match intersect_triangle tray p2 p3 p1 with
  | Some (uv, dist) => Some (one_minus2 uv, dist)
  | None => first
  end.

(** Intersect a ray with an axis-aligned bounding box.
    [1.00000024f] has bit pattern 0x3f800002. *)
Definition slab_slack : float := F32.lit 8388610 (-23).

Definition intersect_bbox (ray : ray3f) (bbox : bbox3f) : bool :=
  let invd := sdivv F32.one (d ray) in
  let t0 := ((bmin bbox - o ray) * invd)%vec in
  let t1 := ((bmax bbox - o ray) * invd)%vec in
  let '(t0x, t1x) := if x invd <? F32.zero then (x t1, x t0) else (x t0, x t1) in
  let '(t0y, t1y) := if y invd <? F32.zero then (y t1, y t0) else (y t0, y t1) in
  let '(t0z, t1z) := if z invd <? F32.zero then (z t1, z t0) else (z t0, z t1) in
  let tmin_ := max t0z (max t0y (max t0x (tmin ray))) in
  let tmax_ := min t1z (min t1y (min t1x (tmax ray))) in
  let tmax_ := tmax_ * slab_slack in
  tmin_ <=? tmax_.

(** The per-axis entry and exit values the function above ends with, after
    its three conditional swaps. *)
Definition slab_entry_exit (ray : ray3f) (bbox : bbox3f) (axis : vec3f -> float)
  : float * float :=
  let invd := sdivv F32.one (d ray) in
  let t0 := ((bmin bbox - o ray) * invd)%vec in
  let t1 := ((bmax bbox - o ray) * invd)%vec in
  if axis invd <? F32.zero then (axis t1, axis t0) else (axis t0, axis t1).

(** Entry is at most exit on each axis (so neither is NaN). *)
Definition slabs_ordered (ray : ray3f) (bbox : bbox3f) : bool :=
  (fst (slab_entry_exit ray bbox x) <=? snd (slab_entry_exit ray bbox x))
  && (fst (slab_entry_exit ray bbox y) <=? snd (slab_entry_exit ray bbox y))
  && (fst (slab_entry_exit ray bbox z) <=? snd (slab_entry_exit ray bbox z)).

(** The overload taking the precomputed inverse direction. *)
Definition intersect_bbox_dinv (ray : ray3f) (ray_dinv : vec3f) (bbox : bbox3f) : bool :=
  let it_min := ((bmin bbox - o ray) * ray_dinv)%vec in
  let it_max := ((bmax bbox - o ray) * ray_dinv)%vec in
  let tmin_ := vmin it_min it_max in
  let tmax_ := vmax it_min it_max in
  let t0 := max (max_elem tmin_) (tmin ray) in
  let t1 := min (min_elem tmax_) (tmax ray) in
  let t1 := t1 * slab_slack in
  t0 <=? t1.

Section Sphere.

(** [atan2] and [acos] of the C library, at [float]. *)
Variable atan2f : float -> float -> float.
Variable acosf : float -> float.

Definition sphere_a (ray : ray3f) : float := dot (d ray) (d ray).
Definition sphere_b (ray : ray3f) (p : vec3f) : float :=
  F32.two * dot (o ray - p)%vec (d ray).
Definition sphere_c (ray : ray3f) (p : vec3f) (r : float) : float :=
  dot (o ray - p)%vec (o ray - p)%vec - r * r.
Definition sphere_dis (ray : ray3f) (p : vec3f) (r : float) : float :=
  let a := sphere_a ray in
  let b := sphere_b ray p in
  let c := sphere_c ray p r in
  b * b - F32.of_int 4 * a * c.

(** The two roots, as the source computes them. *)
Definition sphere_near_root (ray : ray3f) (p : vec3f) (r : float) : float :=
  (- sphere_b ray p - F32.sqrtf (sphere_dis ray p r)) / (F32.two * sphere_a ray).
Definition sphere_far_root (ray : ray3f) (p : vec3f) (r : float) : float :=
  (- sphere_b ray p + F32.sqrtf (sphere_dis ray p r)) / (F32.two * sphere_a ray).

(** Intersect a ray with a sphere. *)
Definition intersect_sphere (ray : ray3f) (p : vec3f) (r : float) : hit :=
  let dis := sphere_dis ray p r in
  if dis <? F32.zero then None else
  let t := sphere_near_root ray p r in
  if (t <? tmin ray) || (t >? tmax ray) then None else
  let t := sphere_far_root ray p r in
  if (t <? tmin ray) || (t >? tmax ray) then None else
  let plocal := (((o ray + d ray *: t) - p) /: r)%vec in
  let u := atan2f (y plocal) (x plocal) / (F32.two * pif) in
  let u := if u <? F32.zero then u + F32.one else u in
  let v := acosf (clamp (z plocal) (- F32.one) F32.one) / pif in
  Some (mkvec2f u v, t).

End Sphere.

Section Cylinder.

(** [equal(float, float)] is declared outside the source file; it is taken
    as it comes. *)
Variable equal : float -> float -> bool.

(** [1.0e21f], bit pattern 0x6258d727. *)
Definition cyl_far : float := F32.lit 14210855 46.

(** Intersect a ray with an infinite cylinder.  The result is what the caller
    reads: [Some (inD, outD)] when the function returns true, [None] when it
    returns false (the caller then leaves at once, whatever [inD] and [outD]
    hold).  [p1] is not used by the source either. *)
Definition intersect_infinite_cylinder (ray : ray3f) (p0 p1 : vec3f)
    (radius : float) (axis : vec3f) : option (float * float) :=
  let r_c := (o ray - p0)%vec in
  let r_2 := radius * radius in
  let n := cross (d ray) axis in
  let ln := length n in
  if equal ln F32.zero then
    if length (r_c - dot r_c axis :* axis)%vec <=? radius
    then Some (- cyl_far, cyl_far) else None
  else
  let n := normalize n in
  let d_ := abs (dot r_c n) in
  if d_ <=? radius then
    let O := cross r_c axis in
    let t := - dot O n / ln in
    let O := normalize (cross n axis) in
    let s := abs (F32.sqrtf (r_2 - d_ * d_) / dot (d ray) O) in
    Some (t - s, t + s)
  else None.

(** The clipped interval and the surface bounding each end
    (0 top, 1 side, 2 base). *)
Record span : Type := mkspan { inD : float; outD : float; sideIn : Z; sideOut : Z }.

(** Intersection with one end-cap plane; the source has this block twice,
    with [cap = 2] for the bottom plane and [cap = 0] for the top one.
    [None] is the block's [return false]. *)
Definition clip_cap (cap : Z) (dc dw : float) (sp : span) : option span :=
  if dc =? F32.zero then
    if dw >=? F32.zero then None else Some sp
  else
    let t := - dw / dc in
    if dc >=? F32.zero then
      let sp' := if (t >? inD sp) && (t <? outD sp)
                 then mkspan (inD sp) t (sideIn sp) cap else sp in
      if t <? inD sp' then None else Some sp'
    else
      let sp' := if (t >? inD sp) && (t <? outD sp)
                 then mkspan t (outD sp) cap (sideOut sp) else sp in
      if t >? outD sp' then None else Some sp'.

(** Intersect a ray with a cylinder.  The locals [normal], [point], [side]
    and [entering] of the source are written and never read; of them only
    the choice of [t] is kept. *)
Definition intersect_cylinder (ray : ray3f) (p0 p1 : vec3f) (r0 r1 : float) : hit :=
  let axis := normalize (p1 - p0)%vec in
  let baseDistance := - dot (- axis)%vec p0 in
  let topDistance := - dot axis p1 in
  match intersect_infinite_cylinder ray p0 p1 r0 axis with
  | None => None
  | Some (inD0, outD0) =>
    let sp := mkspan inD0 outD0 1 1 in
    (* bottom end-cap plane *)
    let dc := dot (- axis)%vec (d ray) in
    let dw := dot (- axis)%vec (o ray) + baseDistance in
    match clip_cap 2 dc dw sp with
    | None => None
    | Some sp =>
      (* top end-cap plane *)
      let dc := dot axis (d ray) in
      let dw := dot axis (o ray) + topDistance in
      match clip_cap 0 dc dw sp with
      | None => None
      | Some sp =>
        if (inD sp <? F32.zero) && (outD sp <? F32.zero) then None else
        let chosen :=
          if (inD sp <? outD sp) && (inD sp >? F32.zero) then Some (inD sp)
          else if outD sp >? F32.zero then Some (outD sp)
          else None in
        match chosen with
        | None => None
        | Some t =>
          let u := d ray in
          let v := (p1 - p0)%vec in
          let w := (o ray - p0)%vec in
          let a := dot u u in
          let b := dot u v in
          let c := dot v v in
          let d_ := dot u w in
          let e := dot v w in
          let det := a * c - b * b in
          let t_ := (b * e - c * d_) / det in
          let s := (a * e - b * d_) / det in
          if (t_ <? tmin ray) || (t_ >? tmax ray) then None else
          let s := clamp s F32.zero F32.one in
          Some (mkvec2f s F32.zero, t)
        end
      end
    end
  end.

End Cylinder.

End Ray.

(* ------------------------------------------------------------------------- *)
(** ** Cone-primitive intersection *)
(* ------------------------------------------------------------------------- *)

Module Cone.

Local Open Scope f32_scope.

(** What a cone test leaves behind: the [uv] vector after the call (samples
    are pushed on it whether or not the call ends in a hit) and the distance,
    written only when the call returns true. *)
Definition cone_hit : Type := (list vec2f * option float)%type.

Definition returned (h : cone_hit) : bool := is_hit (snd h).

(** The locals of the sampling loop. *)
Record sampler : Type := mksampler
  { nPoints : Z; minDistance : float; t_dist : float; uv : list vec2f }.

Definition set_minDistance (m : float) (st : sampler) : sampler :=
  mksampler (nPoints st) m (t_dist st) (uv st).

(** [dist] is the distance of the last solver call that succeeded among the
    calls [probe 1 .. probe k]. *)
Definition last_success (probe : Z -> hit) (k : Z) (dist : float) : Prop :=
  exists (i : Z) (uv_ : vec2f),
    (1 <= i <= k)%Z /\ probe i = Some (uv_, dist)
    /\ forall j : Z, (i < j <= k)%Z -> probe j = None.

Section Sampler.

(** [cos], [sin] and [tanf] of the C library, and the constant [pi]. *)
Variables cosf sinf tanf : float -> float.
Variable pi : float.

(** [N_CONE_POINTS] is defined outside the source file.  It is used as the
    bound of an [int] loop counter and as the divisor of the [int] hit count,
    and is taken here as a positive integer constant; the division
    [nPoints / N_CONE_POINTS] is then the integer one. *)
Variable N_CONE_POINTS : positive.

Definition sampler_init (uv0 : list vec2f) : sampler :=
  mksampler 0 flt_max (F32.of_int (-1)) uv0.

(** [phi] after [phi *= phi]. *)
Definition phi : float :=
  let phi := (F32.sqrtf (F32.of_int 5) + F32.one) * F32.half in phi * phi.

Definition sample_radius (i : Z) : float :=
  if (i >? Z.pos N_CONE_POINTS)%Z then F32.one
  else F32.sqrtf (F32.of_int i - F32.half)
       / F32.sqrtf (F32.of_int (Z.pos N_CONE_POINTS) - F32.half).

(** The sample radius lies in (0, 1]. *)
Definition radius_in_unit (i : Z) : bool :=
  (sample_radius i >? F32.zero) && (sample_radius i <=? F32.one).

(** The direction towards sample [i] of the disc, as the loop computes it.
    [theta], [point] and the direction are the only uses of [cos], [sin],
    [pi] and of the disc's centre and radius. *)
Definition sample_direction (cone : cone_data) (coneCircleV : vec3f)
    (coneCircleR : float) (planeXAxis planeYAxis : vec3f) (i : Z) : vec3f :=
  let r := sample_radius i in
  let theta := F32.two * pi * F32.of_int i / phi in
  let point := (coneCircleV + (planeXAxis *: coneCircleR *: r *: cosf theta
                               + planeYAxis *: coneCircleR *: r *: sinf theta))%vec in
  normalize (point - origin cone)%vec.

(** One turn of the loop.  [test] is the ray solver of the overload; it is
    handed the loop's [ray] and the sample radius [r].  The source assigns
    [direction] and does not read it again: [ray] is the one built before
    the loop. *)
Definition sample_step (cone : cone_data) (coneCircleV : vec3f)
    (coneCircleR : float) (planeXAxis planeYAxis : vec3f) (ray : ray3f)
    (test : ray3f -> float -> hit) (st : sampler) (i : Z) : sampler :=
  let r := sample_radius i in
  let direction :=
    sample_direction cone coneCircleV coneCircleR planeXAxis planeYAxis i in
  match test ray r with
  | Some (uv_, t) =>
      mksampler (nPoints st + 1)
                (if minDistance st >? t then t else minDistance st)
                t
                (uv st ++ [uv_])
  | None => st
  end.

(** [i = 1 .. N_CONE_POINTS]. *)
Definition sample_indices : list Z :=
  map Z.of_nat (seq 1 (Pos.to_nat N_CONE_POINTS)).

(** [0.3f], bit pattern 0x3e99999a. *)
Definition area_threshold : float := F32.lit 10066330 (-25).

(** [float areaFraction = nPoints / N_CONE_POINTS]. *)
Definition areaFraction (st : sampler) : float :=
  F32.of_int (Z.quot (nPoints st) (Z.pos N_CONE_POINTS)).

(** The decision after the loop. *)
Definition sample_finish (st : sampler) : cone_hit :=
  if areaFraction st <=? area_threshold then (uv st, None)
  else if t_dist st !=? F32.of_int (-1) then (uv st, Some (t_dist st))
  else (uv st, None).

(** The ray every overload builds first. *)
Definition cone_ray (cone : cone_data) : ray3f :=
  set_tmax (set_tmin (ray3f_od (origin cone) (dir cone)) (cone_tmin cone))
           (cone_tmax cone).

(** The five overloads have the same text from the computation of
    [coneCircleR] to the end of the loop, up to the solver called in the
    loop; it is written once here, with the disc's centre [coneCircleV] and
    the solver call [test] as arguments.  The result is the locals at the
    exit of the loop. *)
Definition sample_loop (cone : cone_data) (coneCircleV : vec3f)
    (test : ray3f -> float -> hit) (uv0 : list vec2f) : sampler :=
  let ray := cone_ray cone in
  let coneCircleR := length (coneCircleV - origin cone)%vec * tanf (spread cone) in
  let planeXAxis :=
    normalize (cross (mkvec3f F32.zero F32.zero F32.one) (- dir cone)%vec) in
  let planeYAxis := normalize (cross (- dir cone)%vec planeXAxis) in
  fold_left
    (sample_step cone coneCircleV coneCircleR planeXAxis planeYAxis ray test)
    sample_indices (sampler_init uv0).

Definition circle_centre (cone : cone_data) (q : vec3f) : vec3f :=
  (origin cone + dir cone *: length (q - origin cone))%vec.

(** Each overload is given in two steps: the locals at the exit of its loop,
    and the decision taken from them. *)

(** Intersect a cone with a point (approximate). *)
Definition point_loop (cone : cone_data) (p : vec3f) (radius : float)
    (uv0 : list vec2f) : sampler :=
  sample_loop cone (circle_centre cone (p +: radius)%vec)
    (fun ray r => Ray.intersect_point ray p r) uv0.

Definition intersect_point (cone : cone_data) (p : vec3f) (radius : float)
    (uv0 : list vec2f) : cone_hit :=
  sample_finish (point_loop cone p radius uv0).

(** Intersect a cone with a line (approximate). *)
Definition line_loop (cone : cone_data) (p0 p1 : vec3f) (r0 r1 : float)
    (uv0 : list vec2f) : sampler :=
  sample_loop cone (circle_centre cone (vmax p0 p1 +: r0)%vec)
    (fun ray _ => Ray.intersect_line ray p0 p1 r0 r1) uv0.

Definition intersect_line (cone : cone_data) (p0 p1 : vec3f) (r0 r1 : float)
    (uv0 : list vec2f) : cone_hit :=
  sample_finish (line_loop cone p0 p1 r0 r1 uv0).

Section ConeCylinder.

Variable equal : float -> float -> bool.

(** Intersect a cone with a cylinder (approximate). *)
Definition cylinder_loop (cone : cone_data) (p0 p1 : vec3f) (r0 r1 : float)
    (uv0 : list vec2f) : sampler :=
  sample_loop cone (circle_centre cone (vmax p0 p1 +: r0)%vec)
    (fun ray _ => Ray.intersect_cylinder equal ray p0 p1 r0 r1) uv0.

Definition intersect_cylinder (cone : cone_data) (p0 p1 : vec3f) (r0 r1 : float)
    (uv0 : list vec2f) : cone_hit :=
  sample_finish (cylinder_loop cone p0 p1 r0 r1 uv0).

End ConeCylinder.

(** Intersect a cone with a triangle (approximate). *)
Definition triangle_loop (cone : cone_data) (p0 p1 p2 : vec3f)
    (uv0 : list vec2f) : sampler :=
  sample_loop cone (circle_centre cone (vmax p0 p1 + p2)%vec)
    (fun ray _ => Ray.intersect_triangle ray p0 p1 p2) uv0.

Definition intersect_triangle (cone : cone_data) (p0 p1 p2 : vec3f)
    (uv0 : list vec2f) : cone_hit :=
  sample_finish (triangle_loop cone p0 p1 p2 uv0).

(** Intersect a cone with a quad (approximate). *)
Definition quad_loop (cone : cone_data) (p0 p1 p2 p3 : vec3f)
    (uv0 : list vec2f) : sampler :=
  sample_loop cone (circle_centre cone (vmax p0 p1 + p2)%vec)
    (fun ray _ => Ray.intersect_quad ray p0 p1 p2 p3) uv0.

Definition intersect_quad (cone : cone_data) (p0 p1 p2 p3 : vec3f)
    (uv0 : list vec2f) : cone_hit :=
  sample_finish (quad_loop cone p0 p1 p2 p3 uv0).

End Sampler.

Section PerSample.

Variables cosf sinf tanf : float -> float.
Variable pi : float.
Variable N_CONE_POINTS : positive.

(** The angle [theta] of turn [i]. *)
Definition sample_theta (i : Z) : float :=
  F32.two * pi * F32.of_int i / phi.

(** The count as the specification words it, to be compared with the count
    of [triangle_loop]: sample [i] is tested with the ray from the cone's
    origin towards the point of the disc placed for it, that is along the
    [direction] of turn [i], with the cone's [tmin] and [tmax]; the count is
    the number of those rays the ray solver reports as hits.  The disc, its
    radius and its two axes are the ones the source computes. *)
Definition per_sample_ray (cone : cone_data) (coneCircleV : vec3f) (i : Z) : ray3f :=
  let coneCircleR := length (coneCircleV - origin cone)%vec * tanf (spread cone) in
  let planeXAxis :=
    normalize (cross (mkvec3f F32.zero F32.zero F32.one) (- dir cone)%vec) in
  let planeYAxis := normalize (cross (- dir cone)%vec planeXAxis) in
  let direction :=
    sample_direction cosf sinf pi N_CONE_POINTS cone coneCircleV coneCircleR
      planeXAxis planeYAxis i in
  mkray3f (origin cone) direction (cone_tmin cone) (cone_tmax cone).

Definition per_sample_triangle_count (cone : cone_data) (p0 p1 p2 : vec3f) : Z :=
  Z.of_nat (List.length (filter
    (fun i => is_hit (Ray.intersect_triangle
                        (per_sample_ray cone (circle_centre cone (vmax p0 p1 + p2)%vec) i)
                        p0 p1 p2))
    (sample_indices N_CONE_POINTS))).

End PerSample.

(** What a cone test whose solver does not read the sample radius leaves
    behind, given the answer [h] of that solver on the ray along the cone's
    axis. *)
Definition axis_result (N : positive) (uv0 : list vec2f) (h : hit) : cone_hit :=
  match h with
  | None => (uv0, None)
  | Some (uv_, t) =>
      (uv0 ++ repeat uv_ (Pos.to_nat N),
       if t !=? F32.of_int (-1) then Some t else None)
  end.

(** [radius_in_unit] for every sample of every sample count up to [n]. *)
Definition radii_in_unit_upto (n : nat) : bool :=
  forallb (fun k => forallb (fun i => radius_in_unit (Pos.of_nat k) (Z.of_nat i))
                            (seq 1 k))
          (seq 1 n).

End Cone.

(* ------------------------------------------------------------------------- *)
(** ** Cone against axis-aligned box *)
(* ------------------------------------------------------------------------- *)

Module ConeBox.

Local Open Scope f32_scope.

(** The silhouette polygon of the box for each position of the cone vertex:
    [nPoints] is the length of the list, [point[i]] its [i]-th element. *)
Definition AABBPolygon (type : Z) : list Z :=
  (if type =? 0 then [1; 5; 4; 6; 2; 3]
   else if type =? 1 then [0; 2; 3; 1; 5; 4]
   else if type =? 2 then [0; 2; 3; 7; 5; 4]
   else if type =? 3 then [0; 4; 6; 2; 3; 1]
   else if type =? 4 then [0; 2; 3; 1]
   else if type =? 5 then [0; 2; 3; 7; 5; 1]
   else if type =? 6 then [0; 4; 6; 7; 3; 1]
   else if type =? 7 then [0; 2; 6; 7; 3; 1]
   else if type =? 8 then [0; 2; 6; 7; 5; 1]
   else if type =? 9 then [0; 1; 5; 4; 6; 2]
   else if type =? 10 then [0; 1; 5; 4]
   else if type =? 11 then [0; 1; 3; 7; 5; 4]
   else if type =? 12 then [0; 4; 6; 2]
   else if type =? 13 then []
   else if type =? 14 then [1; 3; 7; 5]
   else if type =? 15 then [0; 4; 6; 7; 3; 2]
   else if type =? 16 then [2; 6; 7; 3]
   else if type =? 17 then [1; 3; 2; 6; 7; 5]
   else if type =? 18 then [0; 1; 5; 7; 6; 2]
   else if type =? 19 then [0; 1; 5; 7; 6; 4]
   else if type =? 20 then [0; 1; 3; 7; 6; 4]
   else if type =? 21 then [0; 4; 5; 7; 6; 2]
   else if type =? 22 then [4; 5; 7; 6]
   else if type =? 23 then [1; 3; 7; 6; 4; 5]
   else if type =? 24 then [0; 4; 5; 7; 3; 2]
   else if type =? 25 then [2; 6; 4; 5; 7; 3]
   else [1; 3; 2; 6; 4; 5])%Z.

Definition point_at (polygon : list Z) (i : Z) : Z := nth (Z.to_nat i) polygon 0%Z.
Definition polygon_nPoints (polygon : list Z) : Z := Z.of_nat (List.length polygon).

Definition setVectorValue (vec : vec3f) (pos : Z) (value : float) : vec3f :=
  if (pos =? 0)%Z then mkvec3f value (y vec) (z vec)
  else if (pos =? 1)%Z then mkvec3f (x vec) value (z vec)
  else mkvec3f (x vec) (y vec) value.

Definition getVectorValue (vec : vec3f) (pos : Z) : float :=
  if (pos =? 0)%Z then x vec else if (pos =? 1)%Z then y vec else z vec.

(** [type] digit of one axis. *)
Definition axis_type (c e : float) : Z :=
  if c <? - e then 2%Z else if c >? e then 0%Z else 1%Z.

(** What the scan of the polygon's corners ends with: an early [return true],
    or the pair [(iMax, jMax)], [None] standing for [iMax == -1]. *)
Inductive scan : Type :=
| Accept
| Best (b : option (Z * Z)).

Section Test.

(** [cos] of the C library. *)
Variable cosf : float -> float.

Variable cone : cone_data.
Variable bbox : bbox3f.

Definition box_centre : vec3f := ((bmax bbox + bmin bbox) *: F32.half)%vec.
Definition box_e : vec3f := ((bmax bbox - bmin bbox) *: F32.half)%vec.
Definition box_cone_vec : vec3f := (box_centre - origin cone)%vec.
Definition cone_dir_dot_box_cone : float := dot (dir cone) box_cone_vec.
Definition radius : float := dot box_e (vabs (dir cone)).

(** The half-space rejection test. *)
Definition below_supporting_plane : bool :=
  cone_dir_dot_box_cone + radius <=? F32.zero.

Definition box_type : Z :=
  (axis_type (x box_cone_vec) (x box_e)
   + 3 * axis_type (y box_cone_vec) (y box_e)
   + 9 * axis_type (z box_cone_vec) (z box_e))%Z.

Definition coneCosAngle_2 : float := cosf (spread cone) * cosf (spread cone).

(** The arrays [X], [coneDirDOTPmV], [PmV], [sqrConeDirDOTPmV] and
    [sqrLenPmV] are filled at index [j] with values that depend on [j] alone,
    and are read only at indices filled before; each is given here as the
    function of [j] stored in it. *)
Definition X (j : Z) : vec3f :=
  mkvec3f (if Z.testbit j 0 then x box_e else - x box_e)
          (if Z.testbit j 1 then y box_e else - y box_e)
          (if Z.testbit j 2 then z box_e else - z box_e).
Definition coneDirDOTPmV (j : Z) : float := dot (dir cone) (X j) + cone_dir_dot_box_cone.
Definition PmV (j : Z) : vec3f := (X j + box_cone_vec)%vec.
Definition sqrConeDirDOTPmV (j : Z) : float := coneDirDOTPmV j * coneDirDOTPmV j.
Definition sqrLenPmV (j : Z) : float := dot (PmV j) (PmV j).

(** The loop over the polygon's corners, from index [i] on. *)
Fixpoint scan_points (points : list Z) (i : Z) (best : option (Z * Z)) : scan :=
  match points with
  | [] => Best best
  | j :: rest =>
    if coneDirDOTPmV j >? F32.zero then
      let q := sqrConeDirDOTPmV j - coneCosAngle_2 * sqrLenPmV j in
      if q >? F32.zero then Accept else
      let better :=
        match best with
        | None => true
        | Some (_, jMax) =>
            sqrConeDirDOTPmV j * sqrLenPmV jMax >? sqrConeDirDOTPmV jMax * sqrLenPmV j
        end in
      scan_points rest (i + 1)%Z (if better then Some (i, j) else best)
    else scan_points rest (i + 1)%Z best
  end.

(** The body of [if (fder > 0.0f)], the same for both edges: the local
    maximum on the edge and the side test.  Its value is the value returned. *)
Definition edge_maximum (jMax : Z) (s : float) (k0 : Z) : bool :=
  let maxX := X jMax in
  let maxPmV := PmV jMax in
  let coneDirection := dir cone in
  let k1 := ((k0 + 1) mod 3)%Z in
  let k2 := ((k1 + 1) mod 3)%Z in
  let numer := getVectorValue maxPmV k1 * getVectorValue maxPmV k1
               + getVectorValue maxPmV k2 * getVectorValue maxPmV k2 in
  let denom := getVectorValue coneDirection k1 * getVectorValue maxPmV k1
               + getVectorValue coneDirection k2 * getVectorValue maxPmV k2 in
  let MmV := mkvec3f F32.zero F32.zero F32.zero in
  let MmV := setVectorValue MmV k0 (numer * getVectorValue coneDirection k0) in
  let MmV := setVectorValue MmV k1
               (denom * (getVectorValue maxX k1 + getVectorValue box_cone_vec k1)) in
  let MmV := setVectorValue MmV k2
               (denom * (getVectorValue maxX k2 + getVectorValue box_cone_vec k2)) in
  let DdMmV := dot (dir cone) MmV in
  let q := DdMmV * DdMmV - coneCosAngle_2 * dot MmV MmV in
  if q >? F32.zero then true else
  let det := s * (getVectorValue coneDirection k1 * getVectorValue maxPmV k2
                  - getVectorValue coneDirection k2 * getVectorValue maxPmV k1) in
  det <=? F32.zero.

(** The gradient ascent search started at corner [jMax] = [point[iMax]].
    [maxPmV] and [coneDirection] are three-element arrays in the source,
    indexed by [k0 = abs(jDiff) >> 1]. *)
Definition gradient_ascent (polygon : list Z) (iMax jMax : Z) : bool :=
  let maxSqrLenPmV := sqrLenPmV jMax in
  let maxConeDirDOTPmV := coneDirDOTPmV jMax in
  let maxPmV := PmV jMax in
  let coneDirection := dir cone in
  let slope k0 := getVectorValue coneDirection k0 * maxSqrLenPmV
                  - maxConeDirDOTPmV * getVectorValue maxPmV k0 in
  (* counterclockwise edge <corner[jMax], corner[jNext]> *)
  let iNext := (if iMax <? polygon_nPoints polygon - 1 then iMax + 1 else 0)%Z in
  let jNext := point_at polygon iNext in
  let jDiff := (jNext - jMax)%Z in
  let s := if (jDiff >? 0)%Z then F32.one else - F32.one in
  let k0 := Z.shiftr (Z.abs jDiff) 1 in
  let fder := s * slope k0 in
  if fder >? F32.zero then edge_maximum jMax s k0 else
  (* clockwise edge <corner[jMax], corner[jPrev]> *)
  let iPrev := (if iMax >? 0 then iMax - 1 else polygon_nPoints polygon - 1)%Z in
  let jPrev := point_at polygon iPrev in
  let jDiff := (jMax - jPrev)%Z in
  let s := if (jDiff >? 0)%Z then F32.one else - F32.one in
  let k0 := Z.shiftr (Z.abs jDiff) 1 in
  let fder := - s * slope k0 in
  if fder >? F32.zero then edge_maximum jMax s k0 else
  false.

(** [cone_intersect_bbox(cone, bbox, printing)]; [printing] is not read. *)
Definition cone_intersect_bbox (printing : bool) : bool :=
  if below_supporting_plane then false else
  if Ray.intersect_bbox (ray3f_od (origin cone) (dir cone)) bbox then true else
  let type := box_type in
  if (type =? 13)%Z then true else
  let polygon := AABBPolygon type in
  match scan_points polygon 0%Z None with
  | Accept => true
  | Best None => false
  | Best (Some (iMax, jMax)) => gradient_ascent polygon iMax jMax
  end.

End Test.

(** The two indices [k0 = abs(jDiff) >> 1] the gradient ascent search forms
    from the polygon and uses to index [coneDirection] and [maxPmV]: for the
    counterclockwise edge and for the clockwise one. *)
Definition edge_axis_next (polygon : list Z) (iMax jMax : Z) : Z :=
  let iNext := (if iMax <? polygon_nPoints polygon - 1 then iMax + 1 else 0)%Z in
  let jNext := point_at polygon iNext in
  Z.shiftr (Z.abs (jNext - jMax)) 1.

Definition edge_axis_prev (polygon : list Z) (iMax jMax : Z) : Z :=
  let iPrev := (if iMax >? 0 then iMax - 1 else polygon_nPoints polygon - 1)%Z in
  let jPrev := point_at polygon iPrev in
  Z.shiftr (Z.abs (jMax - jPrev)) 1.

(** The table, entry by entry: element [i] of a polygon is a corner index,
    and the two edge indices at it are indices of a three-element array. *)
Definition entry_ok (polygon : list Z) (i : Z) : bool :=
  (let j := point_at polygon i in
   (0 <=? j) && (j <=? 7)
   && (0 <=? edge_axis_next polygon i j) && (edge_axis_next polygon i j <=? 2)
   && (0 <=? edge_axis_prev polygon i j) && (edge_axis_prev polygon i j <=? 2))%Z.

Definition table_ok : bool :=
  forallb (fun k => let polygon := AABBPolygon (Z.of_nat k) in
                    forallb (fun i => entry_ok polygon (Z.of_nat i))
                            (seq 0 (List.length polygon)))
          (seq 0 27).

End ConeBox.

(* ------------------------------------------------------------------------- *)
(** ** Point-primitive distance tests *)
(* ------------------------------------------------------------------------- *)

Module Overlap.

Local Open Scope f32_scope.

(** Compute the closest triangle uv to a given position [pos]. *)
Definition closestuv_triangle (pos p0 p1 p2 : vec3f) : vec2f :=
  let ab := (p1 - p0)%vec in
  let ac := (p2 - p0)%vec in
  let ap := (pos - p0)%vec in
  let d1 := dot ab ap in
  let d2 := dot ac ap in
  if (d1 <=? F32.zero) && (d2 <=? F32.zero) then mkvec2f F32.zero F32.zero else
  let bp := (pos - p1)%vec in
  let d3 := dot ab bp in
  let d4 := dot ac bp in
  if (d3 >=? F32.zero) && (d4 <=? d3) then mkvec2f F32.one F32.zero else
  let vc := d1 * d4 - d3 * d2 in
  if (vc <=? F32.zero) && (d1 >=? F32.zero) && (d3 <=? F32.zero)
  then mkvec2f (d1 / (d1 - d3)) F32.zero else
  let cp := (pos - p2)%vec in
  let d5 := dot ab cp in
  let d6 := dot ac cp in
  if (d6 >=? F32.zero) && (d5 <=? d6) then mkvec2f F32.zero F32.one else
  let vb := d5 * d2 - d1 * d6 in
  if (vb <=? F32.zero) && (d2 >=? F32.zero) && (d6 <=? F32.zero)
  then mkvec2f F32.zero (d2 / (d2 - d6)) else
  let va := d3 * d6 - d5 * d4 in
  if (va <=? F32.zero) && (d4 - d3 >=? F32.zero) && (d5 - d6 >=? F32.zero) then
    let w := (d4 - d3) / ((d4 - d3) + (d5 - d6)) in
    mkvec2f (F32.one - w) w
  else
  let denom := F32.one / (va + vb + vc) in
  let u := vb * denom in
  let v := vc * denom in
  mkvec2f u v.

(** Check if a triangle overlaps a position [pos] within a maximum distance
    [dist_max]; [uv] and [dist] are written on the successful path only. *)
Definition overlap_triangle (pos : vec3f) (dist_max : float) (p0 p1 p2 : vec3f)
    (r0 r1 r2 : float) : hit :=
  let cuv := closestuv_triangle pos p0 p1 p2 in
  let p := (p0 *: (F32.one - u_ cuv - v_ cuv) + p1 *: u_ cuv + p2 *: v_ cuv)%vec in
  let r := r0 * (F32.one - u_ cuv - v_ cuv) + r1 * u_ cuv + r2 * v_ cuv in
  let dd := dot (p - pos)%vec (p - pos)%vec in
  if dd >? (dist_max + r) * (dist_max + r) then None else
  Some (cuv, F32.sqrtf dd).

(** Check if a quad overlaps a position [pos] within a maximum distance
    [dist_max].  The function rewrites [uv] on a path where the callee wrote
    nothing, so the contents of the two output slots at entry, [uv0] and
    [dist0], are part of the input; the result is the flag returned and the
    contents of the slots at exit. *)
Definition overlap_quad (pos : vec3f) (dist_max : float) (p0 p1 p2 p3 : vec3f)
    (r0 r1 r2 r3 : float) (uv0 : vec2f) (dist0 : float) : bool * vec2f * float :=
  if veqb p2 p3 then
    match overlap_triangle pos dist_max p0 p1 p3 r0 r1 r2 with
    | Some (uv, dist) => (true, uv, dist)
    | None => (false, uv0, dist0)
    end
  else
  let '(hit1, dist_max, uv, dist) :=
    match overlap_triangle pos dist_max p0 p1 p3 r0 r1 r2 with
    | Some (uv, dist) => (true, dist, uv, dist)
    | None => (false, dist_max, uv0, dist0)
    end in
  match overlap_triangle pos dist_max p2 p3 p1 r2 r3 r1 with
  | None => (true, one_minus2 uv, dist)
  | Some (uv, dist) => (hit1, uv, dist)
  end.

(** Check if a point overlaps a position [pos] within a maximum distance
    [dist_max]. *)
Definition overlap_point (pos : vec3f) (dist_max : float) (p : vec3f) (r : float) : hit :=
  let d2 := dot (pos - p)%vec (pos - p)%vec in
  if d2 >? (dist_max + r) * (dist_max + r) then None else
  Some (mkvec2f F32.zero F32.zero, F32.sqrtf d2).

(** Compute the closest line uv to a given position [pos]. *)
Definition closestuv_line (pos p0 p1 : vec3f) : float :=
  let ab := (p1 - p0)%vec in
  let d := dot ab ab in
  let u := dot (pos - p0)%vec ab / d in
  clamp u F32.zero F32.one.

(** Check if a line overlaps a position [pos] within a maximum distance
    [dist_max]. *)
Definition overlap_line (pos : vec3f) (dist_max : float) (p0 p1 : vec3f)
    (r0 r1 : float) : hit :=
  let u := closestuv_line pos p0 p1 in
  let p := (p0 + (p1 - p0) *: u)%vec in
  let r := r0 + (r1 - r0) * u in
  let d2 := dot (pos - p)%vec (pos - p)%vec in
  if d2 >? (dist_max + r) * (dist_max + r) then None else
  Some (mkvec2f u F32.zero, F32.sqrtf d2).

(** One [if (a < b) dd += (b - a) * (b - a);] of [overlap_bbox]; the source
    writes the tests against [bbox.max] as [pos > max], that is [max < pos]. *)
Definition excess (dd a b : float) : float :=
  if a <? b then dd + (b - a) * (b - a) else dd.

(** The squared distance [dd] accumulated by [overlap_bbox]. *)
Definition bbox_distance2 (pos : vec3f) (bbox : bbox3f) : float :=
  let dd := F32.zero in
  let dd := excess dd (x pos) (x (bmin bbox)) in
  let dd := excess dd (x (bmax bbox)) (x pos) in
  let dd := excess dd (y pos) (y (bmin bbox)) in
  let dd := excess dd (y (bmax bbox)) (y pos) in
  let dd := excess dd (z pos) (z (bmin bbox)) in
  let dd := excess dd (z (bmax bbox)) (z pos) in
  dd.

(** Check if a bbox overlaps a position [pos] within a maximum distance
    [dist_max]. *)
Definition overlap_bbox (pos : vec3f) (dist_max : float) (bbox : bbox3f) : bool :=
  bbox_distance2 pos bbox <? dist_max * dist_max.

(** Check if two bboxes overlap. *)
Definition overlap_bbox_boxes (bbox1 bbox2 : bbox3f) : bool :=
  if (x (bmax bbox1) <? x (bmin bbox2)) || (x (bmin bbox1) >? x (bmax bbox2)) then false
  else if (y (bmax bbox1) <? y (bmin bbox2)) || (y (bmin bbox1) >? y (bmax bbox2)) then false
  else if (z (bmax bbox1) <? z (bmin bbox2)) || (z (bmin bbox1) >? z (bmax bbox2)) then false
  else true.

End Overlap.

(* ------------------------------------------------------------------------- *)
(** ** Bounding boxes and primitive bounds *)
(* ------------------------------------------------------------------------- *)

Module BBox.

Local Open Scope f32_scope.

(** Bounding box properties. *)
Definition center (a : bbox3f) : vec3f := ((bmin a + bmax a) /: F32.two)%vec.
Definition size (a : bbox3f) : vec3f := (bmax a - bmin a)%vec.

(** Bounding box expansions with points and other boxes; [expand(a, b)] is
    [a = merge(a, b)]. *)
Definition merge_point (a : bbox3f) (b : vec3f) : bbox3f :=
  mkbbox3f (vmin (bmin a) b) (vmax (bmax a) b).
Definition merge (a b : bbox3f) : bbox3f :=
  mkbbox3f (vmin (bmin a) (bmin b)) (vmax (bmax a) (bmax b)).

(** Primitive bounds. *)
Definition point_bounds (p : vec3f) : bbox3f := mkbbox3f p p.
Definition point_bounds_r (p : vec3f) (r : float) : bbox3f :=
  mkbbox3f (vmin (vsubs p r) (p +: r)%vec) (vmax (vsubs p r) (p +: r)%vec).
Definition line_bounds (p0 p1 : vec3f) : bbox3f :=
  mkbbox3f (vmin p0 p1) (vmax p0 p1).
Definition line_bounds_r (p0 p1 : vec3f) (r0 r1 : float) : bbox3f :=
  mkbbox3f (vmin (vsubs p0 r0) (vsubs p1 r1)) (vmax (p0 +: r0)%vec (p1 +: r1)%vec).
Definition triangle_bounds (p0 p1 p2 : vec3f) : bbox3f :=
  mkbbox3f (vmin p0 (vmin p1 p2)) (vmax p0 (vmax p1 p2)).
Definition quad_bounds (p0 p1 p2 p3 : vec3f) : bbox3f :=
  mkbbox3f (vmin p0 (vmin p1 (vmin p2 p3))) (vmax p0 (vmax p1 (vmax p2 p3))).
Definition sphere_bounds (p : vec3f) (r : float) : bbox3f :=
  mkbbox3f (vsubs p r) (p +: r)%vec.
Definition capsule_bounds (p0 p1 : vec3f) (r0 r1 : float) : bbox3f :=
  mkbbox3f (vmin (vsubs p0 r0) (vsubs p1 r1)) (vmax (p0 +: r0)%vec (p1 +: r1)%vec).

(** [q] lies between the corners of [b], coordinate by coordinate. *)
Definition vleb (a b : vec3f) : bool :=
  (x a <=? x b) && (y a <=? y b) && (z a <=? z b).
Definition encloses (b : bbox3f) (q : vec3f) : bool :=
  vleb (bmin b) q && vleb q (bmax b).

Definition vec3f_not_nan (a : vec3f) : bool :=
  negb (F32.is_nan (x a)) && negb (F32.is_nan (y a)) && negb (F32.is_nan (z a)).

End BBox.

(* ------------------------------------------------------------------------- *)
(** ** Geometry utilities *)
(* ------------------------------------------------------------------------- *)

Module Geom.

Local Open Scope f32_scope.

(** Computes a point on a ray. *)
Definition ray_point (ray : ray3f) (t : float) : vec3f := (o ray + d ray *: t)%vec.


(** Triangle properties. *)
Definition triangle_normal (p0 p1 p2 : vec3f) : vec3f :=
  normalize (cross (p1 - p0)%vec (p2 - p0)%vec).
Definition triangle_area (p0 p1 p2 : vec3f) : float :=
  length (cross (p1 - p0)%vec (p2 - p0)%vec) / F32.two.

(** Quad properties. *)
Definition quad_normal (p0 p1 p2 p3 : vec3f) : vec3f :=
  normalize (triangle_normal p0 p1 p3 + triangle_normal p2 p3 p1)%vec.
Definition quad_area (p0 p1 p2 p3 : vec3f) : float :=
  triangle_area p0 p1 p3 + triangle_area p2 p3 p1.

(** Interpolated line properties; [interpolate_line] at [vec3f] has the same
    body as [line_point]. *)
Definition line_point (p0 p1 : vec3f) (u : float) : vec3f :=
  (p0 *: (F32.one - u) + p1 *: u)%vec.

(** Interpolated triangle properties; [interpolate_triangle] at [vec3f] has
    the same body as [triangle_point]. *)
Definition triangle_point (p0 p1 p2 : vec3f) (uv : vec2f) : vec3f :=
  (p0 *: (F32.one - u_ uv - v_ uv) + p1 *: u_ uv + p2 *: v_ uv)%vec.

(** Interpolated quad properties; [interpolate_quad] at [vec3f] has the same
    body as [quad_point]. *)
Definition quad_point (p0 p1 p2 p3 : vec3f) (uv : vec2f) : vec3f :=
  if u_ uv + v_ uv <=? F32.one then triangle_point p0 p1 p3 uv
  else triangle_point p2 p3 p1 (one_minus2 uv).

(** Triangle tangent and bitangent from uv. *)
Definition triangle_tangents_fromuv (p0 p1 p2 : vec3f) (uv0 uv1 uv2 : vec2f)
  : vec3f * vec3f :=
  let p := (p1 - p0)%vec in
  let q := (p2 - p0)%vec in
  let s := mkvec2f (u_ uv1 - u_ uv0) (u_ uv2 - u_ uv0) in
  let t := mkvec2f (v_ uv1 - v_ uv0) (v_ uv2 - v_ uv0) in
  let div := u_ s * v_ t - v_ s * u_ t in
  if div !=? F32.zero then
    let tu := (mkvec3f (v_ t * x p - u_ t * x q) (v_ t * y p - u_ t * y q)
                       (v_ t * z p - u_ t * z q) /: div)%vec in
    let tv := (mkvec3f (u_ s * x q - v_ s * x p) (u_ s * y q - v_ s * y p)
                       (u_ s * z q - v_ s * z p) /: div)%vec in
    (tu, tv)
  else (mkvec3f F32.one F32.zero F32.zero, mkvec3f F32.zero F32.one F32.zero).

(** Quad tangent and bitangent from uv. *)
Definition quad_tangents_fromuv (p0 p1 p2 p3 : vec3f) (uv0 uv1 uv2 uv3 : vec2f)
    (current_uv : vec2f) : vec3f * vec3f :=
  if u_ current_uv + v_ current_uv <=? F32.one
  then triangle_tangents_fromuv p0 p1 p3 uv0 uv1 uv3
  else triangle_tangents_fromuv p2 p3 p1 uv2 uv3 uv1.

(** Coordinates that are well-formed finite numbers. *)
Definition finite (a : float) : bool := F32.valid a && F32.is_finite a.
Definition vec3f_finite (a : vec3f) : bool :=
  finite (x a) && finite (y a) && finite (z a).
Definition vec2f_finite (a : vec2f) : bool := finite (u_ a) && finite (v_ a).

(** [a == b] with [a] finite. *)
Definition same (a b : float) : Prop :=
  F32.eqb a b = true /\ F32.is_finite a = true.


End Geom.

(* ------------------------------------------------------------------------- *)
(** ** Inputs of the examples *)
(* ------------------------------------------------------------------------- *)

Module Inputs.

(** A vector with integer coordinates. *)
Definition v3 (a b c : Z) : vec3f :=
  mkvec3f (F32.of_int a) (F32.of_int b) (F32.of_int c).

Definition origin3 : vec3f := v3 0 0 0.
Definition z_axis : vec3f := v3 0 0 1.

(** Box [min = (-1,-1,-1)], [max = (1,1,1)]. *)
Definition unit_box : bbox3f := mkbbox3f (v3 (-1) (-1) (-1)) (v3 1 1 1).

(** A C library that answers NaN to every call.  A value computed with it
    and free of NaN did not read any of its answers. *)
Definition nan1 : float -> float := fun _ => F32.nan.
Definition nan2 : float -> float -> float := fun _ _ => F32.nan.

(** Ray from [(0,0,-5)] along [+z] with the default bounds. *)
Definition ray_below : ray3f := ray3f_od (v3 0 0 (-5)) z_axis.

(** Cone from the origin along [+z], half a radian wide, default bounds. *)
Definition cone_up : cone_data := mkcone origin3 z_axis F32.half ray_eps flt_max.

(** The same cone seen from [(0,0,-5)]. *)
Definition cone_below : cone_data :=
  mkcone (v3 0 0 (-5)) z_axis F32.half ray_eps flt_max.

(** Box [min = (-1,-1,-33554432)], [max = (1,1,1)]: it contains the origin
    and is [2^25] deep below it. *)
Definition deep_box : bbox3f := mkbbox3f (v3 (-1) (-1) (-33554432)) (v3 1 1 1).

(** Cone from the origin along [+z] whose [tmin] is [-2]. *)
Definition cone_back : cone_data :=
  mkcone origin3 z_axis F32.half (F32.of_int (-2)) flt_max.

(** Triangle in the plane [z = -1] crossing the z axis. *)
Definition behind_p0 : vec3f := v3 (-1) (-1) (-1).
Definition behind_p1 : vec3f := v3 1 (-1) (-1).
Definition behind_p2 : vec3f := v3 0 1 (-1).

(** Triangle in the plane [z = 10] crossing the z axis. *)
Definition ahead_p0 : vec3f := v3 (-1) (-1) 10.
Definition ahead_p1 : vec3f := v3 1 (-1) 10.
Definition ahead_p2 : vec3f := v3 0 1 10.

(** Ray from the centre of the unit sphere with bounds [-10, 10], and with
    the default bounds. *)
Definition ray_inside_wide : ray3f :=
  mkray3f origin3 z_axis (F32.of_int (-10)) (F32.of_int 10).
Definition ray_inside : ray3f := ray3f_od origin3 z_axis.

(** The unit square in the plane [z = 0] and a position far from it. *)
Definition quad_p0 : vec3f := v3 0 0 0.
Definition quad_p1 : vec3f := v3 1 0 0.
Definition quad_p2 : vec3f := v3 1 1 0.
Definition quad_p3 : vec3f := v3 0 1 0.
Definition far_pos : vec3f := v3 100 100 100.

(** Ray along the diagonal, bounds [ray_eps, 100], and a box whose corners
    are exchanged: [min = (2,2,2)], [max = (1,1,1)]. *)
Definition ray_diag : ray3f :=
  mkray3f origin3 (v3 1 1 1) ray_eps (F32.of_int 100).
Definition swapped_box : bbox3f := mkbbox3f (v3 2 2 2) (v3 1 1 1).

(** Ray along [+z] in the face [x = 0] of the box
    [min = (0,-1,1)], [max = (1,1,2)]. *)
Definition ray_graze : ray3f := mkray3f origin3 z_axis ray_eps (F32.of_int 100).
Definition grazed_box : bbox3f := mkbbox3f (v3 0 (-1) 1) (v3 1 1 2).

(** Ray from [(3,0,0)] along [-x]. *)
Definition ray_back : ray3f := ray3f_od (v3 3 0 0) (v3 (-1) 0 0).

(** Cone from the origin along [+x], half a radian wide, default bounds, and
    a triangle in the plane [x = 10] crossing the x axis. *)
Definition cone_side : cone_data := mkcone origin3 (v3 1 0 0) F32.half ray_eps flt_max.
Definition side_p0 : vec3f := v3 10 (-4) (-4).
Definition side_p1 : vec3f := v3 10 4 (-4).
Definition side_p2 : vec3f := v3 10 0 4.

(** The point [(0, 0.625, 10)], at distance 0.625 from the z axis. *)
Definition off_axis_point : vec3f :=
  mkvec3f F32.zero (F32.lit 5 (-3)) (F32.of_int 10).

Definition zero2 : vec2f := mkvec2f F32.zero F32.zero.

(** The corners of the parameter square. *)
Definition uv00 : vec2f := zero2.
Definition uv10 : vec2f := mkvec2f F32.one F32.zero.
Definition uv01 : vec2f := mkvec2f F32.zero F32.one.
Definition uv11 : vec2f := mkvec2f F32.one F32.one.

(** Answers of the C library, rounded to single precision: the tangent of
    0.5, and the cosine and sine of the eight angles [theta] of a loop of
    eight turns with [pi = pif]. *)
Definition eight : list Z := [1; 2; 3; 4; 5; 6; 7; 8].
Definition tan_half : float := F32.lit 9165435 (-24).
Definition golden_cos : list float :=
  [F32.lit (-12370996) (-24); F32.lit 11734058 (-27); F32.lit 10207917 (-24);
   F32.lit (-16520752) (-24); F32.lit 14155863 (-24); F32.lit (-8710842) (-25);
   F32.lit (-15465442) (-25); F32.lit 15759200 (-24)].
Definition golden_sin : list float :=
  [F32.lit 11332848 (-24); F32.lit (-16712977) (-24); F32.lit 13314406 (-24);
   F32.lit (-11689129) (-26); F32.lit (-9004805) (-24); F32.lit 16202015 (-24);
   F32.lit (-14888922) (-24); F32.lit 11510444 (-25)].

(** A function that answers [vals] at the arguments [keys], and NaN
    elsewhere. *)
Definition answers (keys vals : list float) (a : float) : float :=
  match find (fun kv => F32.eqb (fst kv) a) (combine keys vals) with
  | Some kv => snd kv
  | None => F32.nan
  end.
Definition golden_cosf : float -> float :=
  answers (map (Cone.sample_theta pif) eight) golden_cos.
Definition golden_sinf : float -> float :=
  answers (map (Cone.sample_theta pif) eight) golden_sin.

End Inputs.

(* ------------------------------------------------------------------------- *)
(** ** The inputs are well formed *)
(* ------------------------------------------------------------------------- *)

Module InputFacts.

Import Inputs.

Lemma inputs_valid :
  forallb cone_valid [cone_up; cone_below; cone_back; cone_side] = true
  /\ forallb ray3f_valid
       [ray_below; ray_inside; ray_inside_wide; ray_diag; ray_graze; ray_back] = true
  /\ forallb bbox3f_valid
       [unit_box; deep_box; swapped_box; grazed_box; invalidb3f] = true
  /\ forallb vec3f_valid
       [behind_p0; behind_p1; behind_p2; ahead_p0; ahead_p1; ahead_p2;
        quad_p0; quad_p1; quad_p2; quad_p3; far_pos;
        side_p0; side_p1; side_p2; off_axis_point] = true
  /\ forallb F32.valid
       ([ray_eps; flt_max; flt_min; pif; Ray.slab_slack; Ray.cyl_far;
         Cone.area_threshold; tan_half] ++ golden_cos ++ golden_sin) = true.
Proof. repeat split; vm_compute; reflexivity. Qed.

End InputFacts.

(* ------------------------------------------------------------------------- *)
(** ** The order of single-precision values *)
(* ------------------------------------------------------------------------- *)

Module F32Facts.

Ltac cmp_cases :=
  repeat match goal with
  | |- context [Pos.compare_cont Eq ?a ?b] =>
      change (Pos.compare_cont Eq a b) with (Pos.compare a b)
  end;
  repeat match goal with
  | |- context [Z.compare ?a ?b] => destruct (Z.compare_spec a b)
  | |- context [Pos.compare ?a ?b] => destruct (Pos.compare_spec a b)
  end.

Ltac float_order :=
  simpl; try congruence; cmp_cases; simpl; subst; try congruence; try lia.

Ltac by_cases3 a b c :=
  destruct a as [[]|[]| |[] ? ?], b as [[]|[]| |[] ? ?], c as [[]|[]| |[] ? ?];
  float_order.

Ltac by_cases2 a b :=
  destruct a as [[]|[]| |[] ? ?], b as [[]|[]| |[] ? ?]; float_order.

Lemma compare_antisym (a b : float) :
  SFcompare b a = option_map CompOpp (SFcompare a b).
Proof. unfold SFcompare. by_cases2 a b. Qed.

Lemma compare_eq_l (a b c : float) :
  F32.feq a b -> SFcompare a c = SFcompare b c.
Proof. unfold F32.feq, SFcompare. by_cases3 a b c. Qed.

Lemma compare_eq_r (a b c : float) :
  F32.feq a b -> SFcompare c a = SFcompare c b.
Proof.
  intros H. rewrite (compare_antisym a c), (compare_antisym b c).
  now rewrite (compare_eq_l a b c H).
Qed.

Lemma leb_trans (a b c : float) :
  F32.leb a b = true -> F32.leb b c = true -> F32.leb a c = true.
Proof. unfold F32.leb, SFleb, SFcompare. by_cases3 a b c. Qed.

Lemma leb_refl (a : float) : F32.is_nan a = false -> F32.leb a a = true.
Proof.
  unfold F32.leb, SFleb, SFcompare.
  destruct a as [[]|[]| |[] ? ?]; float_order.
Qed.

Lemma leb_antisym (a b : float) :
  F32.leb a b = true -> F32.leb b a = true -> F32.feq a b.
Proof. unfold F32.feq, F32.leb, SFleb, SFcompare. by_cases2 a b. Qed.

Lemma leb_not_nan (a b : float) :
  F32.leb a b = true -> F32.is_nan a = false /\ F32.is_nan b = false.
Proof. unfold F32.leb, SFleb, SFcompare. by_cases2 a b; auto. Qed.

(** Away from NaN, [a < b] is the negation of [b <= a]. *)
Lemma ltb_negb_leb (a b : float) :
  F32.is_nan a = false -> F32.is_nan b = false ->
  F32.ltb a b = negb (F32.leb b a).
Proof. unfold F32.ltb, F32.leb, SFltb, SFleb, SFcompare. by_cases2 a b. Qed.

Lemma eqb_feq (a b : float) : F32.eqb a b = true -> F32.feq a b.
Proof.
  unfold F32.eqb, SFeqb, F32.feq. destruct (SFcompare a b) as [[]|]; congruence.
Qed.

(** A value that is not below [lo] differs from anything below [lo]. *)
Lemma neqb_of_bound (t lo c : float) :
  F32.ltb t lo = false -> F32.ltb c lo = true -> F32.neqb t c = true.
Proof.
  intros Ht Hc. unfold F32.neqb. destruct (SFeqb t c) eqn:E; [|reflexivity].
  apply eqb_feq in E. unfold F32.ltb, SFltb in * |- *.
  rewrite (compare_eq_l _ _ _ E) in Ht. congruence.
Qed.

(** A value above [lo] differs from anything below [lo]. *)
Lemma neqb_of_gt (t lo c : float) :
  F32.gtb t lo = true -> F32.ltb c lo = true -> F32.neqb t c = true.
Proof.
  intros Ht Hc. apply neqb_of_bound with (lo := lo); [|exact Hc].
  unfold F32.gtb, F32.ltb, SFltb in * |- *. rewrite compare_antisym.
  destruct (SFcompare lo t) as [[]|]; simpl; congruence.
Qed.

Lemma ltb_leb (a b : float) : F32.ltb a b = true -> F32.leb a b = true.
Proof.
  unfold F32.ltb, F32.leb, SFltb, SFleb. destruct (SFcompare a b) as [[]|]; congruence.
Qed.

Lemma feq_not_nan (a b : float) :
  F32.feq a b -> F32.is_nan a = false /\ F32.is_nan b = false.
Proof. unfold F32.feq, SFcompare. by_cases2 a b; auto. Qed.

Lemma feq_refl (a : float) : F32.is_nan a = false -> F32.feq a a.
Proof. intros H. apply leb_antisym; apply leb_refl, H. Qed.

Lemma leb_feq_l (a a' c : float) : F32.feq a a' -> F32.leb a c = F32.leb a' c.
Proof. intros H. unfold F32.leb, SFleb. now rewrite (compare_eq_l _ _ _ H). Qed.

Lemma leb_feq_r (a a' c : float) : F32.feq a a' -> F32.leb c a = F32.leb c a'.
Proof. intros H. unfold F32.leb, SFleb. now rewrite (compare_eq_r _ _ _ H). Qed.

Lemma max_not_nan (a b : float) :
  F32.is_nan a = false -> F32.is_nan b = false -> F32.is_nan (max a b) = false.
Proof. unfold max. destruct (F32.gtb a b); auto. Qed.

Lemma min_not_nan (a b : float) :
  F32.is_nan a = false -> F32.is_nan b = false -> F32.is_nan (min a b) = false.
Proof. unfold min. destruct (F32.ltb a b); auto. Qed.

Lemma leb_total (a b : float) :
  F32.is_nan a = false -> F32.is_nan b = false ->
  F32.leb a b = false -> F32.leb b a = true.
Proof. unfold F32.leb, SFleb, SFcompare, F32.is_nan. by_cases2 a b. Qed.

Lemma leb_max (a b c : float) :
  F32.is_nan a = false -> F32.is_nan b = false ->
  F32.leb (max a b) c = F32.leb a c && F32.leb b c.
Proof.
  intros Ha Hb. unfold max, F32.gtb. fold (F32.ltb b a).
  rewrite (ltb_negb_leb b a Hb Ha).
  destruct (F32.leb a b) eqn:E; simpl.
  - destruct (F32.leb b c) eqn:E1.
    + rewrite (leb_trans a b c E E1). reflexivity.
    + now rewrite andb_false_r.
  - pose proof (leb_total a b Ha Hb E) as E'.
    destruct (F32.leb a c) eqn:E1; [|reflexivity].
    rewrite (leb_trans b a c E' E1). reflexivity.
Qed.

Lemma leb_min (a b c : float) :
  F32.is_nan a = false -> F32.is_nan b = false ->
  F32.leb c (min a b) = F32.leb c a && F32.leb c b.
Proof.
  intros Ha Hb. unfold min.
  rewrite (ltb_negb_leb a b Ha Hb).
  destruct (F32.leb b a) eqn:E; simpl.
  - destruct (F32.leb c b) eqn:E1.
    + rewrite (leb_trans c b a E1 E). reflexivity.
    + now rewrite andb_false_r.
  - pose proof (leb_total b a Hb Ha E) as E'.
    destruct (F32.leb c a) eqn:E1; [|reflexivity].
    rewrite (leb_trans c a b E1 E'). reflexivity.
Qed.

Lemma feq_of_lower (u v : float) :
  F32.is_nan u = false -> F32.is_nan v = false ->
  (forall c, F32.leb c u = F32.leb c v) -> F32.feq u v.
Proof.
  intros Hu Hv H. apply leb_antisym.
  - rewrite <- H. apply leb_refl, Hu.
  - rewrite H. apply leb_refl, Hv.
Qed.

Lemma feq_inv (a b : float) :
  F32.feq a b -> a = b \/ exists s s', a = S754_zero s /\ b = S754_zero s'.
Proof.
  unfold F32.feq, SFcompare.
  destruct a as [sa|[]| |[] ma ea], b as [sb|[]| |[] mb eb]; simpl;
    try congruence; try (intros _; left; reflexivity);
    try (intros _; right; eexists; eexists; split; reflexivity);
    cmp_cases; simpl; try congruence; intros _; left; congruence.
Qed.

Lemma leb_mul_feq (a b c x : float) :
  F32.feq a b -> F32.leb x (F32.mul a c) = F32.leb x (F32.mul b c).
Proof.
  intros H. destruct (feq_inv a b H) as [->|(s & s' & -> & ->)]; [reflexivity|].
  unfold F32.leb, SFleb, F32.mul, SFmul, SFcompare.
  destruct c as [[]|[]| |[] ? ?], s, s', x as [[]|[]| |[] ? ?]; reflexivity.
Qed.

(** The sign-directed exchange of the first overload against the [min] and
    [max] of the second, on one axis. *)
Lemma swap_min_max (a b : float) (sgn : bool) :
  F32.leb (if sgn then b else a) (if sgn then a else b) = true ->
  F32.feq (min a b) (if sgn then b else a)
  /\ F32.feq (max a b) (if sgn then a else b).
Proof.
  intros H. destruct (leb_not_nan _ _ H) as [H1 H2].
  assert (Ha : F32.is_nan a = false) by (destruct sgn; assumption).
  assert (Hb : F32.is_nan b = false) by (destruct sgn; assumption).
  unfold min, max, F32.gtb. fold (F32.ltb b a).
  rewrite (ltb_negb_leb a b Ha Hb), (ltb_negb_leb b a Hb Ha).
  destruct sgn.
  - rewrite H. simpl. split; [apply feq_refl, Hb|].
    destruct (F32.leb a b) eqn:E; simpl; [|apply feq_refl, Ha].
    apply leb_antisym; assumption.
  - rewrite H. simpl. split; [|apply feq_refl, Hb].
    destruct (F32.leb b a) eqn:E; simpl; [|apply feq_refl, Ha].
    apply leb_antisym; assumption.
Qed.

Ltac not_nan :=
  repeat first [assumption | apply min_not_nan | apply max_not_nan].

Lemma slab_agree (lx ly lz hx hy hz lx' ly' lz' hx' hy' hz' t0 t1 : float) :
  F32.feq lx' lx -> F32.feq ly' ly -> F32.feq lz' lz ->
  F32.feq hx' hx -> F32.feq hy' hy -> F32.feq hz' hz ->
  F32.is_nan t0 = false -> F32.is_nan t1 = false ->
  F32.leb (max lz (max ly (max lx t0)))
          (F32.mul (min hz (min hy (min hx t1))) Ray.slab_slack)
  = F32.leb (max (max (max lx' ly') lz') t0)
            (F32.mul (min (min (min hx' hy') hz') t1) Ray.slab_slack).
Proof.
  intros Elx Ely Elz Ehx Ehy Ehz Ht0 Ht1.
  destruct (feq_not_nan _ _ Elx), (feq_not_nan _ _ Ely), (feq_not_nan _ _ Elz),
           (feq_not_nan _ _ Ehx), (feq_not_nan _ _ Ehy), (feq_not_nan _ _ Ehz).
  assert (Hhi : F32.feq (min hz (min hy (min hx t1))) (min (min (min hx' hy') hz') t1)).
  { apply feq_of_lower; [not_nan|not_nan|]. intros c.
    rewrite !leb_min by not_nan.
    rewrite (leb_feq_r _ _ c Ehx), (leb_feq_r _ _ c Ehy), (leb_feq_r _ _ c Ehz).
    destruct (F32.leb c hx), (F32.leb c hy), (F32.leb c hz), (F32.leb c t1); reflexivity. }
  rewrite (leb_mul_feq _ _ Ray.slab_slack _ Hhi).
  rewrite !leb_max by not_nan.
  rewrite (leb_feq_l _ _ _ Elx), (leb_feq_l _ _ _ Ely), (leb_feq_l _ _ _ Elz).
  set (c := F32.mul _ _).
  destruct (F32.leb lx c), (F32.leb ly c), (F32.leb lz c), (F32.leb t0 c); reflexivity.
Qed.

End F32Facts.

(* ------------------------------------------------------------------------- *)
(** ** Ray solvers *)
(* ------------------------------------------------------------------------- *)

Module RayFacts.

Import Inputs F32Facts.

Lemma some_pair_inv (A B : Type) (a a' : A) (b b' : B) :
  Some (a, b) = Some (a', b') -> a = a' /\ b = b'.
Proof. intros H. injection H. auto. Qed.

Lemma triangle_hit_in_bounds (ray : ray3f) (p0 p1 p2 : vec3f) (uv : vec2f) (t : float) :
  Ray.intersect_triangle ray p0 p1 p2 = Some (uv, t) -> Ray.in_bounds ray t = true.
Proof.
  unfold Ray.intersect_triangle, Ray.in_bounds.
  repeat match goal with
  | |- context [if ?c then None else _] => destruct c eqn:?; [discriminate|]
  end.
  intros H. apply some_pair_inv in H as [_ <-].
  match goal with H : (_ || _) = false |- _ => rewrite H end. reflexivity.
Qed.

Lemma line_hit_in_bounds (ray : ray3f) (p0 p1 : vec3f) (r0 r1 : float) (uv : vec2f) (t : float) :
  Ray.intersect_line ray p0 p1 r0 r1 = Some (uv, t) -> Ray.in_bounds ray t = true.
Proof.
  unfold Ray.intersect_line, Ray.in_bounds.
  repeat match goal with
  | |- context [if ?c then None else _] => destruct c eqn:?; [discriminate|]
  end.
  intros H. apply some_pair_inv in H as [_ <-].
  match goal with H : (_ || _) = false |- _ => rewrite H end. reflexivity.
Qed.

Lemma point_hit_in_bounds (ray : ray3f) (p : vec3f) (r : float) (uv : vec2f) (t : float) :
  Ray.intersect_point ray p r = Some (uv, t) -> Ray.in_bounds ray t = true.
Proof.
  unfold Ray.intersect_point, Ray.in_bounds.
  repeat match goal with
  | |- context [if ?c then None else _] => destruct c eqn:?; [discriminate|]
  end.
  intros H. apply some_pair_inv in H as [_ <-].
  match goal with H : (_ || _) = false |- _ => rewrite H end. reflexivity.
Qed.

Lemma in_bounds_tmin (ray : ray3f) (t : float) :
  Ray.in_bounds ray t = true -> F32.ltb t (tmin ray) = false.
Proof.
  unfold Ray.in_bounds. destruct (F32.ltb t (tmin ray)); simpl; congruence.
Qed.

(** A quad hit comes from one of its two triangles, tested with the ray's
    own [tmin]. *)
Lemma quad_hit_tmin (ray : ray3f) (p0 p1 p2 p3 : vec3f) (uv : vec2f) (t : float) :
  Ray.intersect_quad ray p0 p1 p2 p3 = Some (uv, t) -> F32.ltb t (tmin ray) = false.
Proof.
  unfold Ray.intersect_quad.
  destruct (veqb p2 p3).
  - intros H. apply triangle_hit_in_bounds, in_bounds_tmin in H. exact H.
  - destruct (Ray.intersect_triangle ray p0 p1 p3) as [[uv1 d1]|] eqn:E1.
    + destruct (Ray.intersect_triangle (set_tmax ray d1) p2 p3 p1) as [[uv2 d2]|] eqn:E2.
      * intros H. apply some_pair_inv in H as [_ <-].
        apply triangle_hit_in_bounds, in_bounds_tmin in E2. exact E2.
      * intros H. apply some_pair_inv in H as [_ <-].
        apply triangle_hit_in_bounds, in_bounds_tmin in E1. exact E1.
    + destruct (Ray.intersect_triangle ray p2 p3 p1) as [[uv2 d2]|] eqn:E2.
      * intros H. apply some_pair_inv in H as [_ <-].
        apply triangle_hit_in_bounds, in_bounds_tmin in E2. exact E2.
      * discriminate.
Qed.

(** The distance a cylinder hit reports is positive. *)
Lemma cylinder_hit_positive (equal : float -> float -> bool) (ray : ray3f)
    (p0 p1 : vec3f) (r0 r1 : float) (uv : vec2f) (t : float) :
  Ray.intersect_cylinder equal ray p0 p1 r0 r1 = Some (uv, t) ->
  F32.gtb t F32.zero = true.
Proof.
  unfold Ray.intersect_cylinder.
  destruct (Ray.intersect_infinite_cylinder _ _ _ _ _ _) as [[i0 o0]|]; [|discriminate].
  destruct (Ray.clip_cap _ _ _ _) as [sp1|]; [|discriminate].
  destruct (Ray.clip_cap _ _ _ _) as [sp2|]; [|discriminate].
  destruct (_ && _); [discriminate|].
  destruct (_ && _) eqn:Ein.
  - destruct (_ || _); [discriminate|].
    intros H. apply some_pair_inv in H as [_ <-].
    apply andb_true_iff in Ein. tauto.
  - destruct (F32.gtb (Ray.outD sp2) F32.zero) eqn:Eout; [|discriminate].
    destruct (_ || _); [discriminate|].
    intros H. apply some_pair_inv in H as [_ <-]. exact Eout.
Qed.

(** C8: the ray-cylinder solver does not read the radius of the second
    endpoint: for every ray, endpoints [p0], [p1] and radius [r0], any two
    values [r1] and [r1'] give the same result, that is the same flag and the
    same [uv] and [dist] written. *)
Theorem cylinder_ignores_r1 :
  forall (equal : float -> float -> bool) (ray : ray3f) (p0 p1 : vec3f)
         (r0 r1 r1' : float),
    Ray.intersect_cylinder equal ray p0 p1 r0 r1
    = Ray.intersect_cylinder equal ray p0 p1 r0 r1'.
Proof. intros. reflexivity. Qed.

(** C4: for the ray from [(0,0,-5)] along [(0,0,1)] with [tmin = ray_eps] and
    [tmax = flt_max] and the unit sphere at the origin, [intersect_sphere]
    returns true and the distance written is 6, the far root, whatever
    [atan2] and [acos] answer; the near root, 4, passed the bounds check
    and was then overwritten. *)
Theorem sphere_scenario_distance :
  forall (atan2f : float -> float -> float) (acosf : float -> float),
    option_map snd (Ray.intersect_sphere atan2f acosf ray_below origin3 F32.one)
    = Some (F32.of_int 6)
    /\ Ray.sphere_near_root ray_below origin3 F32.one = F32.of_int 4
    /\ Ray.in_bounds ray_below (F32.of_int 4) = true.
Proof. intros. split; [|split]; vm_compute; reflexivity. Qed.

(** C5 (amended): [intersect_sphere] returns true only if the near root and
    the far root both pass the bounds check against [ray.tmin] and
    [ray.tmax]; and whenever the near root is below [ray.tmin] the result is
    false, the far root not being tried, wherever it lies. *)
Theorem sphere_needs_both_roots :
  forall (atan2f : float -> float -> float) (acosf : float -> float)
         (ray : ray3f) (p : vec3f) (r : float),
    (is_hit (Ray.intersect_sphere atan2f acosf ray p r) = true ->
     Ray.in_bounds ray (Ray.sphere_near_root ray p r) = true
     /\ Ray.in_bounds ray (Ray.sphere_far_root ray p r) = true)
    /\ (F32.ltb (Ray.sphere_near_root ray p r) (tmin ray) = true ->
        Ray.intersect_sphere atan2f acosf ray p r = None).
Proof.
  intros. unfold Ray.intersect_sphere, Ray.in_bounds. cbv zeta. split.
  - destruct (F32.ltb (Ray.sphere_dis ray p r) F32.zero); [discriminate|].
    destruct (_ || _); [discriminate|].
    destruct (_ || _); [discriminate|]. auto.
  - intros H. rewrite H. simpl.
    destruct (F32.ltb (Ray.sphere_dis ray p r) F32.zero); reflexivity.
Qed.

(** C5, witness: the ray from the centre of the unit sphere with the default
    bounds; its far root, 1, is within the bounds and the result is false. *)
Lemma sphere_needs_both_roots_witness :
  Ray.in_bounds ray_inside (Ray.sphere_far_root ray_inside origin3 F32.one) = true
  /\ Ray.intersect_sphere nan2 nan1 ray_inside origin3 F32.one = None.
Proof.
  split; [vm_compute; reflexivity|].
  apply (proj2 (sphere_needs_both_roots nan2 nan1 ray_inside origin3 F32.one)).
  vm_compute; reflexivity.
Defined.

(** C5, counterexample: the ray from the centre of the unit sphere with
    bounds [-10, 10] has its origin strictly inside the sphere and the
    result is true, whatever [atan2] and [acos] answer. *)
Lemma sphere_inside_origin_hit :
  F32.ltb (dot (o ray_inside_wide - origin3)%vec (o ray_inside_wide - origin3)%vec)
          (F32.mul F32.one F32.one) = true
  /\ forall atan2f acosf,
       option_map snd (Ray.intersect_sphere atan2f acosf ray_inside_wide origin3 F32.one)
       = Some F32.one.
Proof. split; [|intros]; vm_compute; reflexivity. Qed.

End RayFacts.

(* ------------------------------------------------------------------------- *)
(** ** Boxes *)
(* ------------------------------------------------------------------------- *)

Module BoxFacts.

Import Inputs F32Facts.

(** C7 (amended): for every ray and box, when on each axis the entry value
    is at most the exit value after the sign-directed exchange of the first
    overload (so that no slab value is NaN) and neither [ray.tmin] nor
    [ray.tmax] is NaN, [intersect_bbox(ray, bbox)] and
    [intersect_bbox(ray, 1/ray.d, bbox)] return the same boolean. *)
Theorem slab_overloads_agree :
  forall (ray : ray3f) (bbox : bbox3f),
    Ray.slabs_ordered ray bbox = true ->
    F32.is_nan (tmin ray) = false ->
    F32.is_nan (tmax ray) = false ->
    Ray.intersect_bbox ray bbox
    = Ray.intersect_bbox_dinv ray (sdivv F32.one (d ray)) bbox.
Proof.
  intros ray bbox Hord Ht0 Ht1.
  unfold Ray.slabs_ordered in Hord.
  apply andb_true_iff in Hord as [Hord Hz]. apply andb_true_iff in Hord as [Hx Hy].
  unfold Ray.slab_entry_exit in Hx, Hy, Hz. cbv zeta in Hx, Hy, Hz.
  unfold Ray.intersect_bbox, Ray.intersect_bbox_dinv. cbv zeta.
  set (invd := sdivv F32.one (d ray)) in *.
  set (t0 := vmul (vsub (bmin bbox) (o ray)) invd) in *.
  set (t1 := vmul (vsub (bmax bbox) (o ray)) invd) in *.
  unfold max_elem, min_elem, vmin, vmax. cbn [x y z].
  destruct (F32.ltb (x invd) F32.zero) eqn:Sx;
  destruct (F32.ltb (y invd) F32.zero) eqn:Sy;
  destruct (F32.ltb (z invd) F32.zero) eqn:Sz;
  cbn [fst snd] in Hx, Hy, Hz;
  apply slab_agree; try assumption;
  first [ apply (swap_min_max _ _ true); assumption
        | apply (swap_min_max _ _ false); assumption ].
Qed.

(** C7, witness: the ray from [(3,0,0)] along [-x] against the box
    [(-1,-1,-1), (1,1,1)]; one direction component is negative, two are
    zero, and both overloads answer true. *)
Lemma slab_overloads_agree_witness :
  Ray.intersect_bbox ray_back unit_box = true
  /\ Ray.intersect_bbox ray_back unit_box
     = Ray.intersect_bbox_dinv ray_back (sdivv F32.one (d ray_back)) unit_box.
Proof.
  split; [vm_compute; reflexivity|].
  apply (slab_overloads_agree ray_back unit_box); vm_compute; reflexivity.
Defined.

(** C7, counterexample: for the ray from the origin along [(1,1,1)] with
    bounds [ray_eps, 100] and the box with [min = (2,2,2)], [max = (1,1,1)],
    the first overload answers false and the second, given [1/ray.d],
    answers true. *)
Lemma slab_overloads_differ :
  Ray.intersect_bbox ray_diag swapped_box = false
  /\ Ray.intersect_bbox_dinv ray_diag (sdivv F32.one (d ray_diag)) swapped_box = true.
Proof. split; vm_compute; reflexivity. Qed.

(** The same disagreement on the empty box [invalidb3f] of the source, and
    on a box with [min <= max] whose face contains the ray (a slab value is
    then [0 * inf], NaN). *)
Lemma slab_overloads_differ_invalid :
  Ray.intersect_bbox (ray3f_od origin3 (v3 1 1 1)) invalidb3f = false
  /\ Ray.intersect_bbox_dinv (ray3f_od origin3 (v3 1 1 1))
       (sdivv F32.one (v3 1 1 1)) invalidb3f = true.
Proof. split; vm_compute; reflexivity. Qed.

Lemma slab_overloads_differ_grazing :
  Ray.intersect_bbox ray_graze grazed_box = true
  /\ Ray.intersect_bbox_dinv ray_graze (sdivv F32.one (d ray_graze)) grazed_box = false.
Proof. split; vm_compute; reflexivity. Qed.

(** The two scenarios of the spec for the slab test. *)
Lemma slab_scenarios :
  Ray.intersect_bbox ray_below unit_box = true
  /\ Ray.intersect_bbox (ray3f_od (v3 5 5 5) (v3 1 0 0)) unit_box = false.
Proof. split; vm_compute; reflexivity. Qed.

(** What [cone_intersect_bbox] answers when the plain ray along the cone's
    axis intersects the box: true, unless the half-space test before the
    axis-ray test has fired. *)
Lemma axis_ray_accepts_unless_rejected :
  forall (cosf : float -> float) (cone : cone_data) (bbox : bbox3f) (printing : bool),
    Ray.intersect_bbox (ray3f_od (origin cone) (dir cone)) bbox = true ->
    ConeBox.cone_intersect_bbox cosf cone bbox printing
    = negb (ConeBox.below_supporting_plane cone bbox).
Proof.
  intros cosf cone bbox printing H. unfold ConeBox.cone_intersect_bbox.
  rewrite H. destruct (ConeBox.below_supporting_plane cone bbox); reflexivity.
Qed.

(** C1 (as the code has it): for the cone from the origin along [+z] and the
    box [min = (-1,-1,-33554432)], [max = (1,1,1)], the box contains the
    cone's origin, the plain ray along the cone's axis intersects it and the
    polygon selector is 13 ("the cone vertex is in the box"); yet
    [cone_intersect_bbox] returns false.  In [bbox.max + bbox.min] the 1 is
    lost to rounding, [box_centre.z] is [-16777216] where the exact centre
    is [-16777215.5], [box_e.z] is [16777216], and
    [cone_dir_dot_box_cone + radius] is 0 where the exact sum is 1: the
    half-space test [<= 0.0f] fires on a box that is not below the
    supporting plane.  For the box [(-1,-1,-1), (1,1,1)] around the same
    origin the sum is 1 and the answer is true. *)
Theorem vertex_inside_box_rejected :
  forall (cosf : float -> float) (printing : bool),
    (BBox.encloses deep_box (origin cone_up) = true
     /\ Ray.intersect_bbox (ray3f_od (origin cone_up) (dir cone_up)) deep_box = true
     /\ ConeBox.box_type cone_up deep_box = 13)
    /\ (z (bmax deep_box + bmin deep_box)%vec = z (bmin deep_box)
        /\ z (ConeBox.box_centre deep_box) = F32.of_int (-16777216)
        /\ z (ConeBox.box_e deep_box) = F32.of_int 16777216
        /\ F32.add (ConeBox.cone_dir_dot_box_cone cone_up deep_box)
                   (ConeBox.radius cone_up deep_box) = F32.zero)
    /\ ConeBox.cone_intersect_bbox cosf cone_up deep_box printing = false
    /\ (F32.add (ConeBox.cone_dir_dot_box_cone cone_up unit_box)
                (ConeBox.radius cone_up unit_box) = F32.one
        /\ ConeBox.cone_intersect_bbox cosf cone_up unit_box printing = true).
Proof. intros. repeat split; vm_compute; reflexivity. Qed.

(** A cone whose direction is the zero vector is rejected in the same way,
    with the box [(-1,-1,-1), (1,1,1)] around its origin. *)
Lemma axis_ray_hit_rejected_zero_dir :
  Ray.intersect_bbox (ray3f_od origin3 origin3) unit_box = true
  /\ forall cosf printing,
       ConeBox.cone_intersect_bbox cosf
         (mkcone origin3 origin3 F32.half ray_eps flt_max) unit_box printing = false.
Proof. split; [|intros]; vm_compute; reflexivity. Qed.

End BoxFacts.

(* ------------------------------------------------------------------------- *)
(** ** Distance tests *)
(* ------------------------------------------------------------------------- *)

Module OverlapFacts.

Import Inputs.

(** The flag [overlap_quad] returns for a quad with [p2 != p3]: true when the
    first triangle overlaps, and true when the second one does not. *)
Lemma overlap_quad_flag :
  forall pos dist_max p0 p1 p2 p3 r0 r1 r2 r3 uv0 dist0,
    fst (fst (Overlap.overlap_quad pos dist_max p0 p1 p2 p3 r0 r1 r2 r3 uv0 dist0))
    = if veqb p2 p3
      then is_hit (Overlap.overlap_triangle pos dist_max p0 p1 p3 r0 r1 r2)
      else
        match Overlap.overlap_triangle pos dist_max p0 p1 p3 r0 r1 r2 with
        | Some _ => true
        | None => negb (is_hit (Overlap.overlap_triangle pos dist_max p2 p3 p1 r2 r3 r1))
        end.
Proof.
  intros. unfold Overlap.overlap_quad.
  destruct (veqb p2 p3).
  - destruct (Overlap.overlap_triangle pos dist_max p0 p1 p3 r0 r1 r2) as [[? ?]|];
      reflexivity.
  - destruct (Overlap.overlap_triangle pos dist_max p0 p1 p3 r0 r1 r2) as [[uv1 d1]|].
    + destruct (Overlap.overlap_triangle pos d1 p2 p3 p1 r2 r3 r1) as [[? ?]|];
        reflexivity.
    + destruct (Overlap.overlap_triangle pos dist_max p2 p3 p1 r2 r3 r1) as [[? ?]|];
        reflexivity.
Qed.

(** C6 (as the code has it): for the position [(100,100,100)], maximum
    distance 1 and the unit square [(0,0,0), (1,0,0), (1,1,0), (0,1,0)] with
    radii 0, neither sub-triangle overlaps the position and [overlap_quad]
    returns true, whatever its output slots held. *)
Theorem overlap_quad_far_position :
  forall (uv0 : vec2f) (dist0 : float),
    veqb quad_p2 quad_p3 = false
    /\ Overlap.overlap_triangle far_pos F32.one quad_p0 quad_p1 quad_p3
         F32.zero F32.zero F32.zero = None
    /\ Overlap.overlap_triangle far_pos F32.one quad_p2 quad_p3 quad_p1
         F32.zero F32.zero F32.zero = None
    /\ fst (fst (Overlap.overlap_quad far_pos F32.one quad_p0 quad_p1 quad_p2 quad_p3
                   F32.zero F32.zero F32.zero F32.zero uv0 dist0)) = true.
Proof. intros. repeat split; vm_compute; reflexivity. Qed.

End OverlapFacts.

(* ------------------------------------------------------------------------- *)
(** ** The cone sampler *)
(* ------------------------------------------------------------------------- *)

Module ConeFacts.

Import Inputs F32Facts RayFacts.

Section Loop.

Variables cosf sinf : float -> float.
Variable pi : float.
Variable N : positive.

Variable cone : cone_data.
Variables (coneCircleV : vec3f) (coneCircleR : float) (planeXAxis planeYAxis : vec3f).
Variable test : ray3f -> float -> hit.

Let ray : ray3f := Cone.cone_ray cone.
Let step : Cone.sampler -> Z -> Cone.sampler :=
  Cone.sample_step cosf sinf pi N cone coneCircleV coneCircleR
                   planeXAxis planeYAxis ray test.

(** The solver call of turn [i]. *)
Let probe (i : Z) : hit := test ray (Cone.sample_radius N i).

(** The loop stopped after [k] turns. *)
Let run (k : nat) (st : Cone.sampler) : Cone.sampler :=
  fold_left step (map Z.of_nat (seq 1 k)) st.

Lemma step_eq (st : Cone.sampler) (i : Z) :
  step st i =
  match probe i with
  | Some (uv_, t) =>
      Cone.mksampler (Cone.nPoints st + 1)
        (if F32.gtb (Cone.minDistance st) t then t else Cone.minDistance st)
        t (Cone.uv st ++ [uv_])
  | None => st
  end.
Proof. reflexivity. Qed.

Lemma run_S (k : nat) (st : Cone.sampler) :
  run (S k) st = step (run k st) (Z.of_nat (S k)).
Proof.
  unfold run. rewrite seq_S, map_app, fold_left_app. reflexivity.
Qed.

(** Where the loop stands after [k] turns: either no solver call has
    succeeded and the locals are the initial ones, or [t_dist] holds the
    distance of the last call that succeeded. *)
Lemma run_last (uv0 : list vec2f) (k : nat) :
  let st := run k (Cone.sampler_init uv0) in
  (st = Cone.sampler_init uv0 /\ forall j : Z, 1 <= j <= Z.of_nat k -> probe j = None)
  \/ (0 < Cone.nPoints st /\ Cone.last_success probe (Z.of_nat k) (Cone.t_dist st)).
Proof.
  induction k as [|k IH].
  - left. split; [reflexivity|]. intros j Hj. lia.
  - cbv zeta in *. rewrite run_S, step_eq.
    destruct (probe (Z.of_nat (S k))) as [[uv_ t]|] eqn:E.
    + right. simpl. split.
      * destruct IH as [[-> _]|[Hn _]]; simpl; lia.
      * exists (Z.of_nat (S k)), uv_. split; [lia|]. split; [exact E|].
        intros j Hj. lia.
    + destruct IH as [[Hst Hnone]|[Hn (i & uv_ & Hi & Hp & Hlater)]].
      * left. split; [exact Hst|]. intros j Hj.
        destruct (Z.eq_dec j (Z.of_nat (S k))) as [->|Hne]; [exact E|].
        apply Hnone. lia.
      * right. split; [exact Hn|]. exists i, uv_. split; [lia|]. split; [exact Hp|].
        intros j Hj.
        destruct (Z.eq_dec j (Z.of_nat (S k))) as [->|Hne]; [exact E|].
        apply Hlater. lia.
Qed.

(** A solver that does not read the sample radius answers every turn alike:
    the loop either leaves the locals as they were, or counts every turn. *)
Hypothesis test_const : forall r r' : float, test ray r = test ray r'.

Let answer : hit := test ray F32.one.

Lemma probe_answer (i : Z) : probe i = answer.
Proof. unfold probe, answer. apply test_const. Qed.

Lemma run_const_none (k : nat) (st : Cone.sampler) :
  answer = None -> run k st = st.
Proof.
  intros Hn. induction k as [|k IH]; [reflexivity|].
  rewrite run_S, step_eq, probe_answer, Hn. exact IH.
Qed.

Lemma run_const_some (k : nat) (st : Cone.sampler) (uv_ : vec2f) (t : float) :
  answer = Some (uv_, t) ->
  Cone.nPoints (run k st) = Cone.nPoints st + Z.of_nat k
  /\ (0 < k -> Cone.t_dist (run k st) = t)%nat.
Proof.
  intros Hs. induction k as [|k [IHn IHt]].
  - split; [unfold run; simpl; lia|]. intros H. inversion H.
  - rewrite run_S, step_eq, probe_answer, Hs. simpl. split; [lia|reflexivity].
Qed.

End Loop.

Section Sampler.

Variables cosf sinf tanf : float -> float.
Variable pi : float.
Variable N : positive.

Lemma of_nat_N : Z.of_nat (Pos.to_nat N) = Z.pos N.
Proof. apply positive_nat_Z. Qed.

(** The count of a loop whose solver does not read the sample radius. *)
Lemma loop_count_const (cone : cone_data) (V : vec3f) (test : ray3f -> float -> hit)
    (uv0 : list vec2f) :
  (forall r r', test (Cone.cone_ray cone) r = test (Cone.cone_ray cone) r') ->
  Cone.nPoints (Cone.sample_loop cosf sinf tanf pi N cone V test uv0)
  = if is_hit (test (Cone.cone_ray cone) F32.one) then Z.pos N else 0.
Proof.
  intros Hc. unfold Cone.sample_loop, Cone.sample_indices.
  destruct (test (Cone.cone_ray cone) F32.one) as [[uv_ t]|] eqn:E; simpl.
  - edestruct (run_const_some cosf sinf pi N cone V) as [Hn _];
      [exact Hc|exact E|].
    cbv zeta. rewrite Hn, of_nat_N. reflexivity.
  - cbv zeta. erewrite (run_const_none cosf sinf pi N cone V); [reflexivity|exact Hc|exact E].
Qed.

(** The locals at the exit of such a loop. *)
Lemma loop_const_state (cone : cone_data) (V : vec3f) (test : ray3f -> float -> hit)
    (uv0 : list vec2f) :
  (forall r r', test (Cone.cone_ray cone) r = test (Cone.cone_ray cone) r') ->
  let st := Cone.sample_loop cosf sinf tanf pi N cone V test uv0 in
  match test (Cone.cone_ray cone) F32.one with
  | None => st = Cone.sampler_init uv0
  | Some (_, t) => Cone.nPoints st = Z.pos N /\ Cone.t_dist st = t
  end.
Proof.
  intros Hc. unfold Cone.sample_loop, Cone.sample_indices. cbv zeta.
  destruct (test (Cone.cone_ray cone) F32.one) as [[uv_ t]|] eqn:E.
  - edestruct (run_const_some cosf sinf pi N cone V) as [Hn Ht];
      [exact Hc|exact E|].
    rewrite Hn, of_nat_N. split; [reflexivity|].
    apply Ht. apply Pos2Nat.is_pos.
  - erewrite (run_const_none cosf sinf pi N cone V); [reflexivity|exact Hc|exact E].
Qed.

Lemma finish_init (uv0 : list vec2f) :
  Cone.sample_finish N (Cone.sampler_init uv0) = (uv0, None).
Proof.
  unfold Cone.sample_finish, Cone.areaFraction, Cone.sampler_init.
  cbn [Cone.nPoints Cone.uv].
  change (Z.quot 0 (Z.pos N)) with 0.
  change (F32.leb (F32.of_int 0) Cone.area_threshold) with true.
  reflexivity.
Qed.

Lemma finish_some (st : Cone.sampler) (dist : float) :
  snd (Cone.sample_finish N st) = Some dist -> dist = Cone.t_dist st.
Proof.
  unfold Cone.sample_finish.
  destruct (F32.leb _ _); [discriminate|].
  destruct (F32.neqb _ _); [|discriminate].
  simpl. congruence.
Qed.

Lemma finish_full (st : Cone.sampler) :
  Cone.nPoints st = Z.pos N ->
  F32.neqb (Cone.t_dist st) (F32.of_int (-1)) = true ->
  Cone.sample_finish N st = (Cone.uv st, Some (Cone.t_dist st)).
Proof.
  intros Hn Ht. unfold Cone.sample_finish, Cone.areaFraction.
  rewrite Hn, Z.quot_same by discriminate. rewrite Ht.
  change (F32.leb (F32.of_int 1) Cone.area_threshold) with false.
  reflexivity.
Qed.

(** What [loop_last] gives for a call that returned true. *)
Lemma returned_last (cone : cone_data) (V : vec3f) (test : ray3f -> float -> hit)
    (uv0 : list vec2f) (dist : float) :
  snd (Cone.sample_finish N (Cone.sample_loop cosf sinf tanf pi N cone V test uv0))
  = Some dist ->
  Cone.last_success (fun i => test (Cone.cone_ray cone) (Cone.sample_radius N i))
                    (Z.pos N) dist.
Proof.
  intros H. unfold Cone.sample_loop, Cone.sample_indices in H. cbv zeta in H.
  match type of H with
  | context [fold_left (Cone.sample_step _ _ _ _ _ _ ?R ?X ?Y _ _) _ _] =>
      destruct (run_last cosf sinf pi N cone V R X Y test uv0 (Pos.to_nat N))
        as [[Hst _]|[_ Hl]]
  end.
  - cbv zeta in Hst. rewrite Hst, finish_init in H. discriminate.
  - cbv zeta in Hl. apply finish_some in H. rewrite of_nat_N in Hl.
    rewrite H. exact Hl.
Qed.

(** The hit count the cone-triangle loop ends with is the sample count [N]
    when the ray along the cone's axis hits the triangle and 0 when it
    misses it.  Every turn of the loop tests that one ray, [cone_ray cone];
    the direction towards the sample of the disc is computed and not
    used. *)
Lemma triangle_loop_count :
  forall (cone : cone_data) (p0 p1 p2 : vec3f) (uv0 : list vec2f),
    Cone.nPoints (Cone.triangle_loop cosf sinf tanf pi N cone p0 p1 p2 uv0)
    = if is_hit (Ray.intersect_triangle (Cone.cone_ray cone) p0 p1 p2)
      then Z.pos N else 0.
Proof.
  intros. unfold Cone.triangle_loop.
  rewrite loop_count_const; [reflexivity|]. intros; reflexivity.
Qed.

(** The hit count never decreases and grows by at most one per turn. *)
Lemma fold_count_bounds (cone : cone_data) (V : vec3f) (R : float) (X Y : vec3f)
    (ray : ray3f) (test : ray3f -> float -> hit) (l : list Z) (st : Cone.sampler) :
  Cone.nPoints st
  <= Cone.nPoints (fold_left (Cone.sample_step cosf sinf pi N cone V R X Y ray test) l st)
  <= Cone.nPoints st + Z.of_nat (List.length l).
Proof.
  revert st. induction l as [|i l IH]; intros st.
  - simpl. lia.
  - cbn [fold_left List.length].
    specialize (IH (Cone.sample_step cosf sinf pi N cone V R X Y ray test st i)).
    assert (H : Cone.nPoints st
                <= Cone.nPoints (Cone.sample_step cosf sinf pi N cone V R X Y ray test st i)
                <= Cone.nPoints st + 1).
    { unfold Cone.sample_step. cbv zeta.
      destruct (test ray (Cone.sample_radius N i)) as [[uv_ t]|]; simpl; lia. }
    lia.
Qed.

Lemma loop_count_bounds (cone : cone_data) (V : vec3f) (test : ray3f -> float -> hit)
    (uv0 : list vec2f) :
  0 <= Cone.nPoints (Cone.sample_loop cosf sinf tanf pi N cone V test uv0) <= Z.pos N.
Proof.
  unfold Cone.sample_loop. cbv zeta.
  match goal with
  | |- context [fold_left (Cone.sample_step _ _ _ _ _ _ ?R ?X ?Y ?ray _) ?l ?st] =>
      pose proof (fold_count_bounds cone V R X Y ray test l st) as H
  end.
  assert (L : Z.of_nat (List.length (Cone.sample_indices N)) = Z.pos N).
  { unfold Cone.sample_indices. rewrite length_map, length_seq. apply positive_nat_Z. }
  rewrite L in H. cbn [Cone.sampler_init Cone.nPoints] in H. exact H.
Qed.

(** The quotient [nPoints / N] of the two integers is 1 when every sample
    was counted and 0 otherwise, so the decision after the loop is: *)
Lemma finish_count (st : Cone.sampler) :
  0 <= Cone.nPoints st <= Z.pos N ->
  Cone.sample_finish N st
  = if (Cone.nPoints st =? Z.pos N) && F32.neqb (Cone.t_dist st) (F32.of_int (-1))
    then (Cone.uv st, Some (Cone.t_dist st)) else (Cone.uv st, None).
Proof.
  intros Hn. unfold Cone.sample_finish, Cone.areaFraction.
  destruct (Z.eqb_spec (Cone.nPoints st) (Z.pos N)) as [E|E].
  - rewrite E, Z.quot_same by discriminate.
    change (F32.leb (F32.of_int 1) Cone.area_threshold) with false.
    destruct (F32.neqb _ _); reflexivity.
  - rewrite Z.quot_small by lia.
    change (F32.leb (F32.of_int 0) Cone.area_threshold) with true. reflexivity.
Qed.

(** C9: whenever a cone overload (point, line, cylinder, triangle, quad)
    returns true, the distance it writes is the one produced by the last
    solver call of the loop that succeeded: some turn [i] produced it and no
    later turn succeeded.  The decision and the distance are read from
    [nPoints] and [t_dist]; changing [minDistance] changes neither. *)
Theorem cone_distance_is_last_hit :
  (forall cone p radius uv0 dist,
      snd (Cone.intersect_point cosf sinf tanf pi N cone p radius uv0) = Some dist ->
      Cone.last_success
        (fun i => Ray.intersect_point (Cone.cone_ray cone) p (Cone.sample_radius N i))
        (Z.pos N) dist)
  /\ (forall cone p0 p1 r0 r1 uv0 dist,
      snd (Cone.intersect_line cosf sinf tanf pi N cone p0 p1 r0 r1 uv0) = Some dist ->
      Cone.last_success
        (fun _ => Ray.intersect_line (Cone.cone_ray cone) p0 p1 r0 r1) (Z.pos N) dist)
  /\ (forall equal cone p0 p1 r0 r1 uv0 dist,
      snd (Cone.intersect_cylinder cosf sinf tanf pi N equal cone p0 p1 r0 r1 uv0)
      = Some dist ->
      Cone.last_success
        (fun _ => Ray.intersect_cylinder equal (Cone.cone_ray cone) p0 p1 r0 r1)
        (Z.pos N) dist)
  /\ (forall cone p0 p1 p2 uv0 dist,
      snd (Cone.intersect_triangle cosf sinf tanf pi N cone p0 p1 p2 uv0) = Some dist ->
      Cone.last_success
        (fun _ => Ray.intersect_triangle (Cone.cone_ray cone) p0 p1 p2) (Z.pos N) dist)
  /\ (forall cone p0 p1 p2 p3 uv0 dist,
      snd (Cone.intersect_quad cosf sinf tanf pi N cone p0 p1 p2 p3 uv0) = Some dist ->
      Cone.last_success
        (fun _ => Ray.intersect_quad (Cone.cone_ray cone) p0 p1 p2 p3) (Z.pos N) dist)
  /\ (forall st m,
      Cone.sample_finish N (Cone.set_minDistance m st) = Cone.sample_finish N st).
Proof.
  repeat split; intros.
  - apply (returned_last _ _ _ _ _ H).
  - apply (returned_last _ _ _ _ _ H).
  - apply (returned_last _ _ _ _ _ H).
  - apply (returned_last _ _ _ _ _ H).
  - apply (returned_last _ _ _ _ _ H).
Qed.

(** C10: the cone-point test does not depend on the point's radius argument:
    for every cone and point, any two radius values give the same result,
    that is the same flag, the same distance and the same [uv] samples.  The
    solver call of turn [i] receives the sample radius of that turn. *)
Theorem cone_point_ignores_radius :
  forall (cone : cone_data) (p : vec3f) (radius radius' : float) (uv0 : list vec2f),
    Cone.intersect_point cosf sinf tanf pi N cone p radius uv0
    = Cone.intersect_point cosf sinf tanf pi N cone p radius' uv0
    /\ Cone.point_loop cosf sinf tanf pi N cone p radius uv0
       = fold_left
           (fun st i =>
              match Ray.intersect_point (Cone.cone_ray cone) p (Cone.sample_radius N i) with
              | Some (uv_, t) =>
                  Cone.mksampler (Cone.nPoints st + 1)
                    (if F32.gtb (Cone.minDistance st) t then t else Cone.minDistance st)
                    t (Cone.uv st ++ [uv_])
              | None => st
              end)
           (Cone.sample_indices N) (Cone.sampler_init uv0).
Proof. intros. split; reflexivity. Qed.

End Sampler.

(** The cone from the origin along [+z], half a radian wide, and the
    triangle [(-1,-1,10), (1,-1,10), (0,1,10)].  The axis ray hits the
    triangle, and the loop counts all [N] samples, for every [N] and
    whatever the C library answers. *)
Lemma triangle_count_ahead :
  forall cosf sinf tanf pi N uv0,
    Cone.nPoints (Cone.triangle_loop cosf sinf tanf pi N cone_up
                    ahead_p0 ahead_p1 ahead_p2 uv0) = Z.pos N.
Proof.
  intros. unfold Cone.triangle_loop.
  rewrite loop_count_const by (intros; reflexivity).
  vm_compute. reflexivity.
Qed.

(** The two axes of the disc for the cone along [+x]: [(0,-1,0)] and
    [(0,0,1)].  (For a cone along [+z] both are the zero vector and every
    sample direction is the axis.) *)
Lemma side_plane_axes :
  let planeXAxis :=
    normalize (cross (mkvec3f F32.zero F32.zero F32.one) (- dir cone_side)%vec) in
  veqb planeXAxis (v3 0 (-1) 0) = true
  /\ veqb (normalize (cross (- dir cone_side)%vec planeXAxis)) (v3 0 0 1) = true.
Proof. split; vm_compute; reflexivity. Qed.

(** The rays towards the eight samples of the disc, for the cone along [+x]
    and the triangle [(10,-4,-4), (10,4,-4), (10,0,4)]: when the C library
    answers [tan_half], [golden_cos] and [golden_sin], two of them hit the
    triangle. *)
Lemma per_sample_rays_side :
  forall cosf sinf tanf : float -> float,
    tanf (spread cone_side) = tan_half ->
    map cosf (map (Cone.sample_theta pif) eight) = golden_cos ->
    map sinf (map (Cone.sample_theta pif) eight) = golden_sin ->
    Cone.per_sample_triangle_count cosf sinf tanf pif 8 cone_side
      side_p0 side_p1 side_p2 = 2.
Proof.
  intros cosf sinf tanf Ht Hc Hs.
  unfold eight, golden_cos, golden_sin in Hc, Hs. cbn [map] in Hc, Hs.
  unfold Cone.sample_theta in Hc, Hs.
  injection Hc as Hc1 Hc2 Hc3 Hc4 Hc5 Hc6 Hc7 Hc8.
  injection Hs as Hs1 Hs2 Hs3 Hs4 Hs5 Hs6 Hs7 Hs8.
  unfold Cone.per_sample_triangle_count.
  change (Cone.sample_indices 8) with [1; 2; 3; 4; 5; 6; 7; 8].
  unfold Cone.per_sample_ray, Cone.sample_direction. cbv zeta.
  cbn [filter].
  rewrite Ht, Hc1, Hc2, Hc3, Hc4, Hc5, Hc6, Hc7, Hc8,
          Hs1, Hs2, Hs3, Hs4, Hs5, Hs6, Hs7, Hs8.
  vm_compute. reflexivity.
Qed.

(** C2 (as the code has it): the hit count the cone-triangle loop ends with
    is the sample count [N] when the ray along the cone's axis hits the
    triangle and 0 when it misses it: every turn tests that one ray, and the
    direction towards the sample of the disc is computed and not used.  For
    the cone from the origin along [+x], half a radian wide, and the
    triangle [(10,-4,-4), (10,4,-4), (10,0,4)] the count is [N], for every
    [N] and whatever the C library answers; with eight samples and the C
    library answering [tan_half], [golden_cos] and [golden_sin], the number
    of rays towards the samples of the disc that hit the triangle is 2. *)
Theorem triangle_count_axis_ray :
  (forall (cosf sinf tanf : float -> float) (pi : float) (N : positive)
          (cone : cone_data) (p0 p1 p2 : vec3f) (uv0 : list vec2f),
      Cone.nPoints (Cone.triangle_loop cosf sinf tanf pi N cone p0 p1 p2 uv0)
      = if is_hit (Ray.intersect_triangle (Cone.cone_ray cone) p0 p1 p2)
        then Z.pos N else 0)
  /\ (forall (cosf sinf tanf : float -> float) (pi : float) (N : positive)
             (uv0 : list vec2f),
      Cone.nPoints (Cone.triangle_loop cosf sinf tanf pi N cone_side
                      side_p0 side_p1 side_p2 uv0) = Z.pos N)
  /\ (forall cosf sinf tanf : float -> float,
      tanf (spread cone_side) = tan_half ->
      map cosf (map (Cone.sample_theta pif) eight) = golden_cos ->
      map sinf (map (Cone.sample_theta pif) eight) = golden_sin ->
      Cone.per_sample_triangle_count cosf sinf tanf pif 8 cone_side
        side_p0 side_p1 side_p2 = 2
      /\ Cone.nPoints (Cone.triangle_loop cosf sinf tanf pif 8 cone_side
                         side_p0 side_p1 side_p2 []) = 8).
Proof.
  assert (Hside : forall cosf sinf tanf pi N uv0,
             Cone.nPoints (Cone.triangle_loop cosf sinf tanf pi N cone_side
                             side_p0 side_p1 side_p2 uv0) = Z.pos N).
  { intros. rewrite triangle_loop_count. vm_compute. reflexivity. }
  split; [intros; apply triangle_loop_count|].
  split; [exact Hside|].
  intros cosf sinf tanf Ht Hc Hs. split.
  - apply per_sample_rays_side; assumption.
  - apply Hside.
Qed.

(** C2, witness: the C library that answers [tan_half] to every call of
    [tanf] and [golden_cos], [golden_sin] at the eight angles. *)
Lemma triangle_count_axis_ray_witness :
  Cone.per_sample_triangle_count golden_cosf golden_sinf (fun _ => tan_half) pif 8
    cone_side side_p0 side_p1 side_p2 = 2
  /\ Cone.nPoints (Cone.triangle_loop golden_cosf golden_sinf (fun _ => tan_half) pif 8
                     cone_side side_p0 side_p1 side_p2 []) = 8.
Proof.
  apply (proj2 (proj2 triangle_count_axis_ray) golden_cosf golden_sinf (fun _ => tan_half));
    vm_compute; reflexivity.
Defined.

(** C3 (as the code has it): [nPoints / N_CONE_POINTS] divides two integers,
    so [areaFraction] is 1 when every sample was counted and 0 otherwise,
    and a cone test returns true exactly when all [N] samples were counted
    and [t_dist] is not -1; the threshold 0.3 separates nothing.  For the
    cone from the origin along [+z] with the default bounds, the point
    [(0, 0.625, 10)] and eight samples, five samples are counted, the last
    distance is 10 and the fraction 5/8 is above the threshold; yet
    [areaFraction] is 0 and [intersect_point] returns false, whatever the C
    library answers and whatever [uv] held. *)
Theorem decision_needs_every_sample :
  (forall (cosf sinf tanf : float -> float) (pi : float) (N : positive)
          (cone : cone_data) (V : vec3f) (test : ray3f -> float -> hit)
          (uv0 : list vec2f),
      let st := Cone.sample_loop cosf sinf tanf pi N cone V test uv0 in
      Cone.returned (Cone.sample_finish N st) = true
      <-> Cone.nPoints st = Z.pos N
          /\ F32.neqb (Cone.t_dist st) (F32.of_int (-1)) = true)
  /\ (forall (cosf sinf tanf : float -> float) (pi : float) (uv0 : list vec2f),
      let st := Cone.point_loop cosf sinf tanf pi 8 cone_up off_axis_point F32.zero uv0 in
      Cone.nPoints st = 5
      /\ Cone.t_dist st = F32.of_int 10
      /\ F32.gtb (F32.div (F32.of_int (Cone.nPoints st)) (F32.of_int 8))
                 Cone.area_threshold = true
      /\ Cone.areaFraction 8 st = F32.zero
      /\ snd (Cone.intersect_point cosf sinf tanf pi 8 cone_up off_axis_point
                F32.zero uv0) = None)
  /\ Cone.intersect_point nan1 nan1 nan1 pif 8 cone_up off_axis_point F32.zero []
     = (repeat zero2 5, None).
Proof.
  split; [|split].
  - intros. subst st.
    pose proof (loop_count_bounds cosf sinf tanf pi N cone V test uv0) as Hb.
    rewrite (finish_count N _ Hb). unfold Cone.returned.
    destruct (Z.eqb_spec
                (Cone.nPoints (Cone.sample_loop cosf sinf tanf pi N cone V test uv0))
                (Z.pos N)) as [E|E];
      destruct (F32.neqb _ _); cbn [andb snd is_hit]; split;
      try discriminate; try tauto; intros [? ?]; try discriminate; congruence.
  - intros. subst st.
    assert (En : Cone.nPoints (Cone.point_loop cosf sinf tanf pi 8 cone_up off_axis_point
                                 F32.zero uv0) = 5) by (vm_compute; reflexivity).
    assert (Et : Cone.t_dist (Cone.point_loop cosf sinf tanf pi 8 cone_up off_axis_point
                                 F32.zero uv0) = F32.of_int 10) by (vm_compute; reflexivity).
    split; [exact En|]. split; [exact Et|].
    unfold Cone.intersect_point, Cone.sample_finish, Cone.areaFraction.
    rewrite En. split; [vm_compute; reflexivity|]. split; [vm_compute; reflexivity|].
    change (F32.leb (F32.of_int (Z.quot 5 8)) Cone.area_threshold) with true.
    reflexivity.
  - vm_compute. reflexivity.
Qed.

(** The distance -1 is read as "no intersection": the cone from the origin
    along [+z] with [tmin = -2] and the triangle
    [(-1,-1,-1), (1,-1,-1), (0,1,-1)].  The axis ray hits the triangle at
    distance -1; every sample counts, and the test returns false, for every
    [N] and whatever the C library answers. *)
Lemma sentinel_distance_is_a_miss :
  option_map snd (Ray.intersect_triangle (Cone.cone_ray cone_back)
                    behind_p0 behind_p1 behind_p2) = Some (F32.of_int (-1))
  /\ forall cosf sinf tanf pi N uv0,
       Cone.nPoints (Cone.triangle_loop cosf sinf tanf pi N cone_back
                       behind_p0 behind_p1 behind_p2 uv0) = Z.pos N
       /\ Cone.returned (Cone.intersect_triangle cosf sinf tanf pi N cone_back
                           behind_p0 behind_p1 behind_p2 uv0) = false.
Proof.
  assert (E : Ray.intersect_triangle (Cone.cone_ray cone_back)
                behind_p0 behind_p1 behind_p2
              = Some (mkvec2f (F32.lit 1 (-2)) F32.half, F32.of_int (-1)))
    by (vm_compute; reflexivity).
  split; [rewrite E; reflexivity|]. intros.
  unfold Cone.intersect_triangle, Cone.triangle_loop.
  pose proof (loop_const_state cosf sinf tanf pi N cone_back
                (Cone.circle_centre cone_back (vmax behind_p0 behind_p1 + behind_p2)%vec)
                (fun ray _ => Ray.intersect_triangle ray behind_p0 behind_p1 behind_p2)
                uv0 (fun _ _ => eq_refl)) as H.
  cbv zeta beta in H. rewrite E in H. destruct H as [Hn Ht].
  split; [exact Hn|].
  unfold Cone.returned, Cone.sample_finish, Cone.areaFraction.
  rewrite Hn, Ht, Z.quot_same by discriminate.
  change (F32.leb (F32.of_int 1) Cone.area_threshold) with false.
  change (F32.neqb (F32.of_int (-1)) (F32.of_int (-1))) with false.
  reflexivity.
Qed.

(** C9, witness: the cone and triangle of [triangle_count_ahead] with eight
    samples; the test returns true with distance 10. *)
Lemma cone_distance_is_last_hit_witness :
  snd (Cone.intersect_triangle nan1 nan1 nan1 pif 8 cone_up
         ahead_p0 ahead_p1 ahead_p2 []) = Some (F32.of_int 10)
  /\ Cone.last_success
       (fun _ => Ray.intersect_triangle (Cone.cone_ray cone_up) ahead_p0 ahead_p1 ahead_p2)
       8 (F32.of_int 10).
Proof.
  split; [vm_compute; reflexivity|].
  apply (proj1 (proj2 (proj2 (proj2
           (cone_distance_is_last_hit nan1 nan1 nan1 pif 8))))
           cone_up ahead_p0 ahead_p1 ahead_p2 []).
  vm_compute; reflexivity.
Defined.

(** The point overload counts a part of the samples: with two samples and
    the point [(0,1,10)] at distance 1 from the axis, the first sample radius
    is below 1 and the second is 1, so one call of two succeeds. *)
Lemma point_count_partial :
  Cone.nPoints (Cone.point_loop nan1 nan1 nan1 pif 2 cone_up (v3 0 1 10) F32.zero [])
  = 1.
Proof. vm_compute. reflexivity. Qed.

(** The sample radius handed to the point solver lies in (0, 1], for every
    sample count up to 32 (checked by evaluation). *)
Lemma sample_radius_in_unit :
  forall (N : positive) (i : Z),
    (Pos.to_nat N <= 32)%nat -> 1 <= i <= Z.pos N ->
    Cone.radius_in_unit N i = true.
Proof.
  intros N i HN Hi.
  assert (H : Cone.radii_in_unit_upto 32 = true) by (vm_compute; reflexivity).
  assert (HNpos := Pos2Nat.is_pos N).
  unfold Cone.radii_in_unit_upto in H.
  assert (H1 := proj1 (forallb_forall _ _) H (Pos.to_nat N)
                  ltac:(apply in_seq; lia)).
  cbv beta in H1. rewrite Pos2Nat.id in H1.
  assert (H2 := proj1 (forallb_forall _ _) H1 (Z.to_nat i)
                  ltac:(apply in_seq; lia)).
  cbv beta in H2. rewrite Z2Nat.id in H2 by lia. exact H2.
Qed.

End ConeFacts.

(* ------------------------------------------------------------------------- *)
(** ** Single-precision arithmetic on zeros, ones and bounds *)
(* ------------------------------------------------------------------------- *)

Module F32Arith.

Import F32Facts.

Lemma sub_diag (a : float) : F32.is_finite a = true -> F32.is_zero (F32.sub a a) = true.
Proof.
  destruct a as [[]|[]| |s m e]; try discriminate; intros _; try reflexivity.
  unfold F32.sub, SFsub. cbv zeta. rewrite Z.sub_diag. reflexivity.
Qed.

Lemma mul_zero_r (a z : float) :
  F32.is_finite a = true -> F32.is_zero z = true -> F32.is_zero (F32.mul a z) = true.
Proof. destruct a, z; try discriminate; reflexivity. Qed.


Lemma add_zero_zero (a b : float) :
  F32.is_zero a = true -> F32.is_zero b = true -> F32.is_zero (F32.add a b) = true.
Proof. destruct a as [[]| | |], b as [[]| | |]; try discriminate; reflexivity. Qed.

Lemma sub_zero_zero (a b : float) :
  F32.is_zero a = true -> F32.is_zero b = true -> F32.is_zero (F32.sub a b) = true.
Proof. destruct a as [[]| | |], b as [[]| | |]; try discriminate; reflexivity. Qed.

Lemma zero_eqb (a b : float) :
  F32.is_zero a = true -> F32.is_zero b = true -> F32.eqb a b = true.
Proof. destruct a, b; try discriminate; reflexivity. Qed.

Lemma eqb_refl (a : float) : F32.is_nan a = false -> F32.eqb a a = true.
Proof.
  intros H. pose proof (leb_antisym a a (leb_refl a H) (leb_refl a H)) as E.
  unfold F32.eqb, SFeqb. unfold F32.feq in E. rewrite E. reflexivity.
Qed.

Lemma finite_not_nan (a : float) : F32.is_finite a = true -> F32.is_nan a = false.
Proof. destruct a; try discriminate; reflexivity. Qed.

(** Adding a zero leaves a finite value as [==] sees it. *)
Lemma add_zero_r (a z : float) :
  F32.is_finite a = true -> F32.is_zero z = true -> F32.eqb (F32.add a z) a = true.
Proof.
  destruct a as [[]|[]| |s m e], z as [[]| | |]; try discriminate; intros _ _;
    try reflexivity; apply eqb_refl; reflexivity.
Qed.

Lemma add_zero_l (a z : float) :
  F32.is_finite a = true -> F32.is_zero z = true -> F32.eqb (F32.add z a) a = true.
Proof.
  destruct a as [[]|[]| |s m e], z as [[]| | |]; try discriminate; intros _ _;
    try reflexivity; apply eqb_refl; reflexivity.
Qed.

Lemma round_sign (sx : bool) (mx ex : Z) (lx : location) :
  match binary_round_aux F32.prec F32.emax sx mx ex lx with
  | S754_zero s | S754_infinity s | S754_finite s _ _ => s = sx
  | S754_nan => True
  end.
Proof.
  unfold binary_round_aux.
  destruct (shr_fexp F32.prec F32.emax mx ex lx) as [mrs e'].
  destruct (shr_fexp F32.prec F32.emax _ e' loc_Exact) as [mrs'' e''].
  destruct (shr_m mrs''); [reflexivity| |exact I].
  destruct (Z.leb e'' _); reflexivity.
Qed.

(** A square is never below zero. *)
Lemma square_not_neg (a : float) : F32.ltb (F32.mul a a) F32.zero = false.
Proof.
  destruct a as [s|s| |s m e]; try reflexivity.
  - destruct s; reflexivity.
  - unfold F32.mul, SFmul.
    pose proof (round_sign (xorb s s) (Z.pos (m * m)) (e + e) loc_Exact) as H.
    destruct (binary_round_aux _ _ _ _ _ _) as [s'|s'| |s' m' e']; try reflexivity;
      rewrite xorb_nilpotent in H; subst s'; reflexivity.
Qed.

Lemma digits2_bound (m : positive) : Z.pos m < 2 ^ Z.pos (digits2_pos m).
Proof.
  induction m as [p IH|p IH|]; simpl digits2_pos.
  - rewrite Pos2Z.inj_succ, Z.pow_succ_r by lia. lia.
  - rewrite Pos2Z.inj_succ, Z.pow_succ_r by lia. lia.
  - reflexivity.
Qed.

(** The mantissa and exponent of a well-formed finite value. *)
Lemma valid_bounds (s : bool) (m : positive) (e : Z) :
  F32.valid (S754_finite s m e) = true ->
  e <= 104 /\ (e = 104 -> Z.pos m <= 16777215)
  /\ fexp F32.prec F32.emax (Z.pos (digits2_pos m) + e) = e.
Proof.
  unfold F32.valid, valid_binary, bounded, canonical_mantissa.
  intros H. apply andb_true_iff in H as [Hc He].
  apply Z.eqb_eq in Hc. apply Z.leb_le in He.
  change (F32.emax - F32.prec) with 104 in He.
  split; [exact He|]. split; [|exact Hc].
  intros ->. unfold fexp, emin in Hc.
  change F32.prec with 24 in Hc. change F32.emax with 128 in Hc.
  assert (Hd : Z.pos (digits2_pos m) = 24) by lia.
  pose proof (digits2_bound m) as Hb. rewrite Hd in Hb.
  change (2 ^ 24) with 16777216 in Hb. lia.
Qed.

(** No well-formed value other than +infinity is above [flt_max], and none
    other than -infinity is below [flt_min]. *)
Lemma flt_max_top (a : float) :
  F32.valid a = true -> a <> S754_infinity false -> F32.ltb flt_max a = false.
Proof.
  intros Hv Hi. destruct a as [s|[]| |[] m e]; try reflexivity; try congruence.
  destruct (valid_bounds _ _ _ Hv) as (He & Hm & _).
  change flt_max with (S754_finite false 16777215 104).
  unfold F32.ltb, SFltb, SFcompare.
  change (Pos.compare_cont Eq 16777215 m) with (Pos.compare 16777215 m).
  destruct (Z.compare_spec 104 e) as [<-| |]; try reflexivity; try lia.
  destruct (Pos.compare_spec 16777215 m); try reflexivity.
  specialize (Hm eq_refl). lia.
Qed.

Lemma ltb_opp (a b : float) : F32.ltb a (F32.neg b) = F32.ltb b (F32.neg a).
Proof.
  unfold F32.ltb, F32.neg, SFltb, SFcompare, SFopp.
  destruct a as [[]|[]| |[] ma ea], b as [[]|[]| |[] mb eb]; try reflexivity;
    cbn [negb]; rewrite (Z.compare_antisym ea eb);
    destruct (Z.compare_spec ea eb); cbn [CompOpp]; try reflexivity;
    change (Pos.compare_cont Eq ma mb) with (Pos.compare ma mb);
    change (Pos.compare_cont Eq mb ma) with (Pos.compare mb ma);
    rewrite (Pos.compare_antisym ma mb);
    destruct (Pos.compare ma mb); reflexivity.
Qed.

Lemma flt_min_bottom (a : float) :
  F32.valid a = true -> a <> S754_infinity true -> F32.gtb flt_min a = false.
Proof.
  intros Hv Hi. unfold F32.gtb. fold (F32.ltb a flt_min).
  unfold flt_min. rewrite ltb_opp. apply flt_max_top.
  - destruct a; exact Hv.
  - destruct a as [|[]| |]; try discriminate. congruence.
Qed.

(** The clamp to [0, 1] lands in [0, 1] whatever it is given, NaN included. *)
Lemma clamp01 (a : float) :
  F32.leb F32.zero (clamp a F32.zero F32.one) = true
  /\ F32.leb (clamp a F32.zero F32.one) F32.one = true.
Proof.
  unfold clamp, max, min.
  destruct (F32.gtb a F32.zero) eqn:E0.
  - destruct (F32.ltb a F32.one) eqn:E1.
    + split; [apply ltb_leb; exact E0|apply ltb_leb; exact E1].
    + split; reflexivity.
  - change (F32.ltb F32.zero F32.one) with true. cbv iota. split; reflexivity.
Qed.

Lemma one_eq : F32.one = S754_finite false 8388608 (-23).
Proof. reflexivity. Qed.

Lemma shr_fexp_canonical (m : positive) (e : Z) :
  fexp F32.prec F32.emax (Z.pos (digits2_pos m) + e) = e ->
  shr_fexp F32.prec F32.emax (Z.pos m) e loc_Exact
  = (Build_shr_record (Z.pos m) false false, e).
Proof.
  intros H. unfold shr_fexp. simpl Zdigits2. rewrite H, Z.sub_diag. reflexivity.
Qed.

Lemma mul_one_r (s : bool) (m : positive) (e : Z) :
  F32.valid (S754_finite s m e) = true ->
  F32.mul (S754_finite s m e) F32.one = S754_finite s m e.
Proof.
  intros Hv.
  assert (Hc : fexp F32.prec F32.emax (Z.pos (digits2_pos m) + e) = e).
  { unfold F32.valid, valid_binary, bounded, canonical_mantissa in Hv.
    apply andb_true_iff in Hv as [Hc _]. apply Z.eqb_eq in Hc. exact Hc. }
  assert (He : e <= 104).
  { unfold F32.valid, valid_binary, bounded in Hv.
    apply andb_true_iff in Hv as [_ He]. apply Z.leb_le in He. exact He. }
  rewrite one_eq. unfold F32.mul, SFmul, binary_round_aux.
  rewrite Pos.mul_comm.
  change (8388608 * m)%positive
    with (m~0~0~0~0~0~0~0~0~0~0~0~0~0~0~0~0~0~0~0~0~0~0~0)%positive.
  assert (E1 : shr_fexp F32.prec F32.emax
                 (Z.pos m~0~0~0~0~0~0~0~0~0~0~0~0~0~0~0~0~0~0~0~0~0~0~0) (e + -23) loc_Exact
               = (Build_shr_record (Z.pos m) false false, e)).
  { unfold shr_fexp.
    replace (Zdigits2 (Z.pos m~0~0~0~0~0~0~0~0~0~0~0~0~0~0~0~0~0~0~0~0~0~0~0) + (e + -23))
      with (Z.pos (digits2_pos m) + e).
    2:{ cbn [Zdigits2 digits2_pos]. rewrite !Pos2Z.inj_succ. lia. }
    rewrite Hc. replace (e - (e + -23)) with 23 by lia.
    unfold shr. simpl iter_pos. f_equal. lia. }
  rewrite E1. cbn [shr_m loc_of_shr_record round_nearest_even].
  rewrite (shr_fexp_canonical m e Hc). cbn [shr_m].
  change (F32.emax - F32.prec) with 104.
  destruct (Z.leb_spec e 104); [|lia].
  rewrite xorb_false_r. reflexivity.
Qed.

Lemma ltb_irrefl (a : float) : F32.ltb a a = false.
Proof.
  unfold F32.ltb, SFltb, SFcompare.
  destruct a as [[]|[]| |[] ? ?]; float_order.
Qed.

Lemma leb_not_gtb (a b : float) : F32.leb a b = true -> F32.ltb b a = false.
Proof.
  intros H. destruct (leb_not_nan _ _ H) as [Ha Hb].
  rewrite (ltb_negb_leb b a Hb Ha), H. reflexivity.
Qed.

End F32Arith.

(* ------------------------------------------------------------------------- *)
(** ** Bounding boxes enclose what they are built from *)
(* ------------------------------------------------------------------------- *)

Module BoundsFacts.

Import Inputs F32Facts F32Arith.

Lemma min_le (a b : float) :
  F32.is_nan a = false -> F32.is_nan b = false ->
  F32.leb (min a b) a = true /\ F32.leb (min a b) b = true.
Proof.
  intros Ha Hb. apply andb_true_iff. rewrite <- leb_min by assumption.
  apply leb_refl, min_not_nan; assumption.
Qed.

Lemma max_ge (a b : float) :
  F32.is_nan a = false -> F32.is_nan b = false ->
  F32.leb a (max a b) = true /\ F32.leb b (max a b) = true.
Proof.
  intros Ha Hb. apply andb_true_iff. rewrite <- leb_max by assumption.
  apply leb_refl, max_not_nan; assumption.
Qed.

Lemma not_nan_inv (a : vec3f) :
  BBox.vec3f_not_nan a = true ->
  F32.is_nan (x a) = false /\ F32.is_nan (y a) = false /\ F32.is_nan (z a) = false.
Proof.
  unfold BBox.vec3f_not_nan. intros H.
  apply andb_true_iff in H as [H Hz]. apply andb_true_iff in H as [Hx Hy].
  apply negb_true_iff in Hx, Hy, Hz. auto.
Qed.

Lemma not_nan_intro (a : vec3f) :
  F32.is_nan (x a) = false -> F32.is_nan (y a) = false -> F32.is_nan (z a) = false ->
  BBox.vec3f_not_nan a = true.
Proof. unfold BBox.vec3f_not_nan. intros -> -> ->. reflexivity. Qed.

Lemma vmin_not_nan (a b : vec3f) :
  BBox.vec3f_not_nan a = true -> BBox.vec3f_not_nan b = true ->
  BBox.vec3f_not_nan (vmin a b) = true.
Proof.
  intros Ha Hb. apply not_nan_inv in Ha as (? & ? & ?), Hb as (? & ? & ?).
  apply not_nan_intro; apply min_not_nan; assumption.
Qed.

Lemma vmax_not_nan (a b : vec3f) :
  BBox.vec3f_not_nan a = true -> BBox.vec3f_not_nan b = true ->
  BBox.vec3f_not_nan (vmax a b) = true.
Proof.
  intros Ha Hb. apply not_nan_inv in Ha as (? & ? & ?), Hb as (? & ? & ?).
  apply not_nan_intro; apply max_not_nan; assumption.
Qed.

Lemma vleb_intro (a b : vec3f) :
  F32.leb (x a) (x b) = true -> F32.leb (y a) (y b) = true ->
  F32.leb (z a) (z b) = true -> BBox.vleb a b = true.
Proof. unfold BBox.vleb. intros -> -> ->. reflexivity. Qed.

Lemma vleb_inv (a b : vec3f) :
  BBox.vleb a b = true ->
  F32.leb (x a) (x b) = true /\ F32.leb (y a) (y b) = true
  /\ F32.leb (z a) (z b) = true.
Proof.
  unfold BBox.vleb. intros H.
  apply andb_true_iff in H as [H Hz]. apply andb_true_iff in H as [Hx Hy]. auto.
Qed.

Lemma vleb_refl (a : vec3f) : BBox.vec3f_not_nan a = true -> BBox.vleb a a = true.
Proof.
  intros Ha. apply not_nan_inv in Ha as (? & ? & ?).
  apply vleb_intro; apply leb_refl; assumption.
Qed.

Lemma vleb_trans (a b c : vec3f) :
  BBox.vleb a b = true -> BBox.vleb b c = true -> BBox.vleb a c = true.
Proof.
  intros H1 H2. apply vleb_inv in H1 as (? & ? & ?), H2 as (? & ? & ?).
  apply vleb_intro; eapply leb_trans; eassumption.
Qed.

Lemma vmin_le (a b : vec3f) :
  BBox.vec3f_not_nan a = true -> BBox.vec3f_not_nan b = true ->
  BBox.vleb (vmin a b) a = true /\ BBox.vleb (vmin a b) b = true.
Proof.
  intros Ha Hb. apply not_nan_inv in Ha as (? & ? & ?), Hb as (? & ? & ?).
  split; apply vleb_intro; cbn [vmin x y z]; apply min_le; assumption.
Qed.

Lemma vmax_ge (a b : vec3f) :
  BBox.vec3f_not_nan a = true -> BBox.vec3f_not_nan b = true ->
  BBox.vleb a (vmax a b) = true /\ BBox.vleb b (vmax a b) = true.
Proof.
  intros Ha Hb. apply not_nan_inv in Ha as (? & ? & ?), Hb as (? & ? & ?).
  split; apply vleb_intro; cbn [vmax x y z]; apply max_ge; assumption.
Qed.

Lemma encloses_intro (b : bbox3f) (q : vec3f) :
  BBox.vleb (bmin b) q = true -> BBox.vleb q (bmax b) = true ->
  BBox.encloses b q = true.
Proof. unfold BBox.encloses. intros -> ->. reflexivity. Qed.



(** X2: the boxes of [line_bounds], [triangle_bounds] and [quad_bounds]
    enclose every vertex they are built from, when no coordinate is NaN. *)
Theorem bounds_enclose_vertices :
  forall p0 p1 p2 p3 : vec3f,
    BBox.vec3f_not_nan p0 = true -> BBox.vec3f_not_nan p1 = true ->
    BBox.vec3f_not_nan p2 = true -> BBox.vec3f_not_nan p3 = true ->
    forallb (BBox.encloses (BBox.line_bounds p0 p1)) [p0; p1] = true
    /\ forallb (BBox.encloses (BBox.triangle_bounds p0 p1 p2)) [p0; p1; p2] = true
    /\ forallb (BBox.encloses (BBox.quad_bounds p0 p1 p2 p3)) [p0; p1; p2; p3] = true.
Proof.
  intros p0 p1 p2 p3 H0 H1 H2 H3.
  pose proof (vmin_not_nan _ _ H2 H3) as N23. pose proof (vmax_not_nan _ _ H2 H3) as X23.
  pose proof (vmin_not_nan _ _ H1 H2) as N12. pose proof (vmax_not_nan _ _ H1 H2) as X12.
  pose proof (vmin_not_nan _ _ H1 N23) as N123. pose proof (vmax_not_nan _ _ H1 X23) as X123.
  destruct (vmin_le _ _ H0 H1), (vmax_ge _ _ H0 H1).
  destruct (vmin_le _ _ H1 H2), (vmax_ge _ _ H1 H2).
  destruct (vmin_le _ _ H0 N12), (vmax_ge _ _ H0 X12).
  destruct (vmin_le _ _ H2 H3), (vmax_ge _ _ H2 H3).
  destruct (vmin_le _ _ H1 N23), (vmax_ge _ _ H1 X23).
  destruct (vmin_le _ _ H0 N123), (vmax_ge _ _ H0 X123).
  unfold BBox.line_bounds, BBox.triangle_bounds, BBox.quad_bounds. cbn [forallb].
  repeat rewrite andb_true_iff.
  repeat split; apply encloses_intro; cbn [bmin bmax];
    eauto using vleb_trans.
Qed.

Lemma bounds_enclose_vertices_witness :
  forallb (BBox.encloses (BBox.triangle_bounds ahead_p0 ahead_p1 ahead_p2))
          [ahead_p0; ahead_p1; ahead_p2] = true.
Proof.
  apply (bounds_enclose_vertices ahead_p0 ahead_p1 ahead_p2 ahead_p2);
    vm_compute; reflexivity.
Defined.

End BoundsFacts.

(* ------------------------------------------------------------------------- *)
(** ** The empty box and the box overlap test *)
(* ------------------------------------------------------------------------- *)

Module BoxAlgebra.

Import Inputs F32Facts F32Arith.

Lemma finite_inv (c : float) :
  Geom.finite c = true -> F32.valid c = true /\ F32.is_finite c = true.
Proof. unfold Geom.finite. intros H. apply andb_true_iff in H. exact H. Qed.

Lemma vec3f_finite_inv (a : vec3f) :
  Geom.vec3f_finite a = true ->
  Geom.finite (x a) = true /\ Geom.finite (y a) = true /\ Geom.finite (z a) = true.
Proof.
  unfold Geom.vec3f_finite. intros H.
  apply andb_true_iff in H as [H Hz]. apply andb_true_iff in H as [Hx Hy]. auto.
Qed.

Lemma finite_not_inf (c : float) (s : bool) :
  F32.is_finite c = true -> c <> S754_infinity s.
Proof. intros H ->. discriminate. Qed.

Lemma min_flt_max_l (c : float) : Geom.finite c = true -> min flt_max c = c.
Proof.
  intros H. apply finite_inv in H as [Hv Hf]. unfold min.
  rewrite (flt_max_top c Hv (finite_not_inf c false Hf)). reflexivity.
Qed.

Lemma max_flt_min_l (c : float) : Geom.finite c = true -> max flt_min c = c.
Proof.
  intros H. apply finite_inv in H as [Hv Hf]. unfold max.
  rewrite (flt_min_bottom c Hv (finite_not_inf c true Hf)). reflexivity.
Qed.

(** A value that is neither below nor above a non-zero one is that one. *)
Lemma between_eq (c m : float) :
  F32.is_zero m = false -> F32.is_nan c = false -> F32.is_nan m = false ->
  F32.ltb c m = false -> F32.ltb m c = false -> m = c.
Proof.
  intros Hz Hc Hm H1 H2.
  rewrite (ltb_negb_leb c m Hc Hm) in H1. rewrite (ltb_negb_leb m c Hm Hc) in H2.
  apply negb_false_iff in H1, H2.
  destruct (feq_inv m c (leb_antisym m c H1 H2)) as [E|(s & s' & -> & _)];
    [exact E|discriminate].
Qed.

Lemma min_flt_max_r (c : float) : Geom.finite c = true -> min c flt_max = c.
Proof.
  intros H. apply finite_inv in H as [Hv Hf]. unfold min.
  destruct (F32.ltb c flt_max) eqn:E; [reflexivity|].
  apply between_eq; try reflexivity; try assumption.
  - apply finite_not_nan, Hf.
  - apply (flt_max_top c Hv (finite_not_inf c false Hf)).
Qed.

Lemma max_flt_min_r (c : float) : Geom.finite c = true -> max c flt_min = c.
Proof.
  intros H. apply finite_inv in H as [Hv Hf]. unfold max.
  destruct (F32.gtb c flt_min) eqn:E; [reflexivity|].
  apply between_eq; try reflexivity; try assumption.
  - apply finite_not_nan, Hf.
  - apply (flt_min_bottom c Hv (finite_not_inf c true Hf)).
Qed.

(** X3: the empty box [invalidb3f] is the identity of [merge]: merging it
    with a point of finite coordinates gives the box of that point, and
    merging it, on either side, with a box of finite corners gives that
    box. *)
Theorem merge_empty_identity :
  forall (p : vec3f) (b : bbox3f),
    Geom.vec3f_finite p = true ->
    Geom.vec3f_finite (bmin b) = true -> Geom.vec3f_finite (bmax b) = true ->
    BBox.merge_point invalidb3f p = BBox.point_bounds p
    /\ BBox.merge invalidb3f b = b
    /\ BBox.merge b invalidb3f = b.
Proof.
  intros [px py pz] [[x0 y0 z0] [x1 y1 z1]] Hp H0 H1.
  apply vec3f_finite_inv in Hp as (? & ? & ?), H0 as (? & ? & ?), H1 as (? & ? & ?).
  cbn [x y z] in *.
  unfold BBox.merge_point, BBox.merge, BBox.point_bounds, invalidb3f, vmin, vmax.
  cbn [bmin bmax x y z].
  rewrite !min_flt_max_l, !max_flt_min_l, !min_flt_max_r, !max_flt_min_r by assumption.
  auto.
Qed.

Lemma merge_empty_identity_witness :
  BBox.merge invalidb3f unit_box = unit_box.
Proof.
  apply (merge_empty_identity origin3 unit_box); vm_compute; reflexivity.
Defined.

(** An infinite coordinate is not kept: the empty box merged with a point
    at +infinity has its lower corner at [flt_max]. *)
Lemma merge_empty_infinite :
  bmin (BBox.merge_point invalidb3f (mkvec3f F32.infinity F32.zero F32.zero))
  = mkvec3f flt_max F32.zero F32.zero.
Proof. vm_compute. reflexivity. Qed.

(** X4: [overlap_bbox(bbox1, bbox2)] is symmetric in its two boxes, for all
    boxes, NaN coordinates included. *)
Theorem overlap_boxes_symmetric :
  forall a b : bbox3f,
    Overlap.overlap_bbox_boxes a b = Overlap.overlap_bbox_boxes b a.
Proof.
  intros a b. unfold Overlap.overlap_bbox_boxes, F32.gtb.
  rewrite (orb_comm (F32.ltb (x (bmax a)) (x (bmin b)))),
          (orb_comm (F32.ltb (y (bmax a)) (y (bmin b)))),
          (orb_comm (F32.ltb (z (bmax a)) (z (bmin b)))).
  reflexivity.
Qed.

End BoxAlgebra.

(* ------------------------------------------------------------------------- *)
(** ** Distance tests at and inside the primitive *)
(* ------------------------------------------------------------------------- *)

Module DistanceFacts.

Import Inputs F32Facts F32Arith RayFacts BoundsFacts.

Lemma excess_skip (dd a b : float) :
  F32.leb b a = true -> Overlap.excess dd a b = dd.
Proof. intros H. unfold Overlap.excess. rewrite (leb_not_gtb b a H). reflexivity. Qed.

(** X5: for a position the box encloses, [overlap_bbox(pos, dist_max, bbox)]
    accumulates the distance 0 and answers [0 < dist_max * dist_max]: true
    for every non-zero finite [dist_max], false when [dist_max] is zero. *)
Theorem overlap_bbox_inside :
  forall (pos : vec3f) (dist_max : float) (bbox : bbox3f),
    BBox.encloses bbox pos = true ->
    Overlap.bbox_distance2 pos bbox = F32.zero
    /\ Overlap.overlap_bbox pos dist_max bbox
       = F32.ltb F32.zero (F32.mul dist_max dist_max)
    /\ (F32.is_zero dist_max = true ->
        Overlap.overlap_bbox pos dist_max bbox = false).
Proof.
  intros pos dist_max bbox H. unfold BBox.encloses in H.
  apply andb_true_iff in H as [Hlo Hhi].
  apply vleb_inv in Hlo as (Hx0 & Hy0 & Hz0), Hhi as (Hx1 & Hy1 & Hz1).
  assert (E : Overlap.bbox_distance2 pos bbox = F32.zero).
  { unfold Overlap.bbox_distance2. cbv zeta.
    rewrite (excess_skip _ _ _ Hx0), (excess_skip _ _ _ Hx1),
            (excess_skip _ _ _ Hy0), (excess_skip _ _ _ Hy1),
            (excess_skip _ _ _ Hz0), (excess_skip _ _ _ Hz1).
    reflexivity. }
  unfold Overlap.overlap_bbox. rewrite E. repeat split.
  intros Hz. destruct dist_max as [[]| | |]; try discriminate; reflexivity.
Qed.

Lemma overlap_bbox_inside_witness :
  Overlap.overlap_bbox origin3 F32.zero unit_box = false.
Proof.
  apply (overlap_bbox_inside origin3 F32.zero unit_box); vm_compute; reflexivity.
Defined.

Lemma is_finite_vec_sub_diag (p : vec3f) :
  F32.is_finite (x p) = true -> F32.is_finite (y p) = true ->
  F32.is_finite (z p) = true ->
  dot (p - p)%vec (p - p)%vec = F32.zero.
Proof.
  intros Hx Hy Hz. unfold dot, vsub. cbn [x y z].
  pose proof (sub_diag _ Hx) as Zx. pose proof (sub_diag _ Hy) as Zy.
  pose proof (sub_diag _ Hz) as Zz.
  destruct (F32.sub (x p) (x p)) as [[]| | |]; try discriminate;
  destruct (F32.sub (y p) (y p)) as [[]| | |]; try discriminate;
  destruct (F32.sub (z p) (z p)) as [[]| | |]; try discriminate; reflexivity.
Qed.

(** X6: a point always overlaps its own position: for a point of finite
    coordinates, [overlap_point(p, dist_max, p, r)] returns true with
    [uv = (0,0)] and [dist = 0], whatever [dist_max] and [r] are (negative,
    infinite or NaN). *)
Theorem overlap_point_self :
  forall (p : vec3f) (dist_max r : float),
    F32.is_finite (x p) = true -> F32.is_finite (y p) = true ->
    F32.is_finite (z p) = true ->
    Overlap.overlap_point p dist_max p r
    = Some (mkvec2f F32.zero F32.zero, F32.zero).
Proof.
  intros p dist_max r Hx Hy Hz. unfold Overlap.overlap_point. cbv zeta.
  rewrite (is_finite_vec_sub_diag p Hx Hy Hz).
  unfold F32.gtb. rewrite square_not_neg. reflexivity.
Qed.

Lemma overlap_point_self_witness :
  Overlap.overlap_point far_pos (F32.of_int (-3)) far_pos F32.nan
  = Some (mkvec2f F32.zero F32.zero, F32.zero).
Proof. apply overlap_point_self; vm_compute; reflexivity. Defined.

(** X7: the segment parameter of the distance tests is always within
    [0, 1]: [closestuv_line] returns a value in [0, 1] for every input (a
    zero-length segment, where the quotient is NaN, gives 0), and a hit of
    [overlap_line] writes [uv = (u, 0)] with that [u]. *)
Theorem closest_line_parameter_in_unit :
  forall (pos p0 p1 : vec3f),
    (F32.leb F32.zero (Overlap.closestuv_line pos p0 p1) = true
     /\ F32.leb (Overlap.closestuv_line pos p0 p1) F32.one = true)
    /\ (forall dist_max r0 r1 uv dist,
          Overlap.overlap_line pos dist_max p0 p1 r0 r1 = Some (uv, dist) ->
          uv = mkvec2f (Overlap.closestuv_line pos p0 p1) F32.zero).
Proof.
  intros pos p0 p1. split; [apply clamp01|].
  intros dist_max r0 r1 uv dist. unfold Overlap.overlap_line. cbv zeta.
  destruct (F32.gtb _ _); [discriminate|].
  intros H. apply some_pair_inv in H as [<- _]. reflexivity.
Qed.

Lemma closest_line_degenerate :
  Overlap.closestuv_line far_pos origin3 origin3 = F32.zero.
Proof. vm_compute. reflexivity. Qed.

End DistanceFacts.

(* ------------------------------------------------------------------------- *)
(** ** What a ray solver reports *)
(* ------------------------------------------------------------------------- *)

Module SolverFacts.

Import Inputs F32Facts F32Arith RayFacts BoundsFacts.

Ltac skip_returns :=
  repeat match goal with
  | |- context [if ?c then None else _] => destruct c eqn:?; [discriminate|]
  end.

(** X8: the distance a ray solver reports passed the ray's bounds check:
    a hit of [intersect_point], [intersect_line] or [intersect_triangle] has
    [!(dist < ray.tmin || dist > ray.tmax)], a hit of [intersect_quad] has a
    distance not below [ray.tmin], and a hit of [intersect_cylinder] has a
    distance above zero (the cylinder test does not compare the distance it
    reports with the ray's bounds). *)
Theorem hit_distance_bounds :
  forall (ray : ray3f) (uv : vec2f) (t : float),
    (forall p r, Ray.intersect_point ray p r = Some (uv, t) ->
                 Ray.in_bounds ray t = true)
    /\ (forall p0 p1 r0 r1, Ray.intersect_line ray p0 p1 r0 r1 = Some (uv, t) ->
                            Ray.in_bounds ray t = true)
    /\ (forall p0 p1 p2, Ray.intersect_triangle ray p0 p1 p2 = Some (uv, t) ->
                         Ray.in_bounds ray t = true)
    /\ (forall p0 p1 p2 p3, Ray.intersect_quad ray p0 p1 p2 p3 = Some (uv, t) ->
                            F32.ltb t (tmin ray) = false)
    /\ (forall equal p0 p1 r0 r1,
          Ray.intersect_cylinder equal ray p0 p1 r0 r1 = Some (uv, t) ->
          F32.gtb t F32.zero = true).
Proof.
  intros ray uv t. repeat split; intros.
  - eapply point_hit_in_bounds; eassumption.
  - eapply line_hit_in_bounds; eassumption.
  - eapply triangle_hit_in_bounds; eassumption.
  - eapply quad_hit_tmin; eassumption.
  - eapply cylinder_hit_positive; eassumption.
Qed.

Lemma hit_distance_bounds_witness :
  Ray.intersect_triangle (Cone.cone_ray cone_up) ahead_p0 ahead_p1 ahead_p2
  = Some (mkvec2f (F32.lit 1 (-2)) F32.half, F32.of_int 10)
  /\ Ray.in_bounds (Cone.cone_ray cone_up) (F32.of_int 10) = true.
Proof.
  assert (E : Ray.intersect_triangle (Cone.cone_ray cone_up) ahead_p0 ahead_p1 ahead_p2
              = Some (mkvec2f (F32.lit 1 (-2)) F32.half, F32.of_int 10))
    by (vm_compute; reflexivity).
  split; [exact E|].
  exact (proj1 (proj2 (proj2 (hit_distance_bounds (Cone.cone_ray cone_up)
                                (mkvec2f (F32.lit 1 (-2)) F32.half) (F32.of_int 10))))
           ahead_p0 ahead_p1 ahead_p2 E).
Defined.

(** The bounds check lets a NaN distance through: a triangle with a NaN
    coordinate is hit at distance NaN. *)
Lemma triangle_nan_hit :
  Ray.intersect_triangle ray_below (mkvec3f F32.nan F32.zero F32.zero)
    ahead_p1 ahead_p2
  = Some (mkvec2f F32.nan F32.nan, F32.nan).
Proof. vm_compute. reflexivity. Qed.

(** X9: the surface parameters a ray solver writes: [intersect_point] writes
    [uv = (0, 0)]; [intersect_line] and [intersect_cylinder] write
    [uv = (s, 0)] with [0 <= s <= 1]; [intersect_triangle] writes [(u, v)]
    for which none of [u < 0], [u > 1], [v < 0], [u + v > 1] holds. *)
Theorem hit_parameters :
  forall (ray : ray3f) (uv : vec2f) (t : float),
    (forall p r, Ray.intersect_point ray p r = Some (uv, t) ->
                 uv = mkvec2f F32.zero F32.zero)
    /\ (forall p0 p1 r0 r1, Ray.intersect_line ray p0 p1 r0 r1 = Some (uv, t) ->
          v_ uv = F32.zero
          /\ F32.leb F32.zero (u_ uv) = true /\ F32.leb (u_ uv) F32.one = true)
    /\ (forall equal p0 p1 r0 r1,
          Ray.intersect_cylinder equal ray p0 p1 r0 r1 = Some (uv, t) ->
          v_ uv = F32.zero
          /\ F32.leb F32.zero (u_ uv) = true /\ F32.leb (u_ uv) F32.one = true)
    /\ (forall p0 p1 p2, Ray.intersect_triangle ray p0 p1 p2 = Some (uv, t) ->
          F32.ltb (u_ uv) F32.zero = false /\ F32.gtb (u_ uv) F32.one = false
          /\ F32.ltb (v_ uv) F32.zero = false
          /\ F32.gtb (F32.add (u_ uv) (v_ uv)) F32.one = false).
Proof.
  intros ray uv t. split; [|split; [|split]].
  - intros p r. unfold Ray.intersect_point. skip_returns.
    intros H. apply some_pair_inv in H as [<- _]. reflexivity.
  - intros p0 p1 r0 r1. unfold Ray.intersect_line. skip_returns.
    intros H. apply some_pair_inv in H as [<- _]. cbn [u_ v_].
    split; [reflexivity|apply clamp01].
  - intros equal p0 p1 r0 r1. unfold Ray.intersect_cylinder.
    destruct (Ray.intersect_infinite_cylinder _ _ _ _ _ _) as [[i0 o0]|]; [|discriminate].
    destruct (Ray.clip_cap _ _ _ _) as [sp1|]; [|discriminate].
    destruct (Ray.clip_cap _ _ _ _) as [sp2|]; [|discriminate].
    destruct (_ && _); [discriminate|].
    destruct (if _ && _ then _ else _) as [t'|]; [|discriminate].
    destruct (_ || _); [discriminate|].
    intros H. apply some_pair_inv in H as [<- _]. cbn [u_ v_].
    split; [reflexivity|apply clamp01].
  - intros p0 p1 p2. unfold Ray.intersect_triangle. skip_returns.
    intros H. apply some_pair_inv in H as [<- _]. cbn [u_ v_].
    repeat match goal with
    | H : (_ || _) = false |- _ => apply orb_false_iff in H as [? ?]
    end.
    auto.
Qed.

Lemma hit_parameters_witness :
  Ray.intersect_triangle (Cone.cone_ray cone_up) ahead_p0 ahead_p1 ahead_p2
  = Some (mkvec2f (F32.lit 1 (-2)) F32.half, F32.of_int 10)
  /\ F32.gtb (F32.add (F32.lit 1 (-2)) F32.half) F32.one = false.
Proof.
  assert (E : Ray.intersect_triangle (Cone.cone_ray cone_up) ahead_p0 ahead_p1 ahead_p2
              = Some (mkvec2f (F32.lit 1 (-2)) F32.half, F32.of_int 10))
    by (vm_compute; reflexivity).
  split; [exact E|].
  exact (proj2 (proj2 (proj2
           (proj2 (proj2 (proj2 (hit_parameters (Cone.cone_ray cone_up)
                                   (mkvec2f (F32.lit 1 (-2)) F32.half) (F32.of_int 10))))
              ahead_p0 ahead_p1 ahead_p2 E)))).
Defined.

(** X10: on a quad whose last two corners differ, a hit of the first
    triangle [(p0, p1, p3)] makes [intersect_quad] return true, and the
    distance written is never above the distance of that hit: the second
    triangle is tested with [tmax] narrowed to it.  When the first triangle
    is missed the answer is that of the second triangle [(p2, p3, p1)] with
    [uv] replaced by [1 - uv]. *)
Theorem quad_reports_nearer :
  forall (ray : ray3f) (p0 p1 p2 p3 : vec3f),
    veqb p2 p3 = false ->
    (forall uv1 d1,
        Ray.intersect_triangle ray p0 p1 p3 = Some (uv1, d1) ->
        exists uv dist,
          Ray.intersect_quad ray p0 p1 p2 p3 = Some (uv, dist)
          /\ F32.gtb dist d1 = false)
    /\ (Ray.intersect_triangle ray p0 p1 p3 = None ->
        Ray.intersect_quad ray p0 p1 p2 p3
        = option_map (fun h => (one_minus2 (fst h), snd h))
                     (Ray.intersect_triangle ray p2 p3 p1)).
Proof.
  intros ray p0 p1 p2 p3 Hne. unfold Ray.intersect_quad. rewrite Hne. split.
  - intros uv1 d1 E1. rewrite E1.
    destruct (Ray.intersect_triangle (set_tmax ray d1) p2 p3 p1) as [[uv2 d2]|] eqn:E2.
    + exists (one_minus2 uv2), d2. split; [reflexivity|].
      apply triangle_hit_in_bounds in E2. unfold Ray.in_bounds in E2.
      apply negb_true_iff, orb_false_iff in E2 as [_ E2]. exact E2.
    + exists uv1, d1. split; [reflexivity|]. apply ltb_irrefl.
  - intros E1. rewrite E1.
    destruct (Ray.intersect_triangle ray p2 p3 p1) as [[uv2 d2]|]; reflexivity.
Qed.

Lemma quad_reports_nearer_witness :
  veqb (v3 4 4 10) (v3 0 4 10) = false
  /\ Ray.intersect_triangle (ray3f_od (v3 3 3 0) z_axis)
       (v3 0 0 10) (v3 4 0 10) (v3 0 4 10) = None
  /\ Ray.intersect_quad (ray3f_od (v3 3 3 0) z_axis)
       (v3 0 0 10) (v3 4 0 10) (v3 4 4 10) (v3 0 4 10)
     = option_map (fun h => (one_minus2 (fst h), snd h))
         (Ray.intersect_triangle (ray3f_od (v3 3 3 0) z_axis)
            (v3 4 4 10) (v3 0 4 10) (v3 4 0 10)).
Proof.
  split; [vm_compute; reflexivity|].
  assert (E : Ray.intersect_triangle (ray3f_od (v3 3 3 0) z_axis)
                (v3 0 0 10) (v3 4 0 10) (v3 0 4 10) = None)
    by (vm_compute; reflexivity).
  split; [exact E|].
  apply (proj2 (quad_reports_nearer (ray3f_od (v3 3 3 0) z_axis)
                  (v3 0 0 10) (v3 4 0 10) (v3 4 4 10) (v3 0 4 10)
                  ltac:(vm_compute; reflexivity))).
  exact E.
Defined.

(** The quad of the example is hit through its second triangle, at
    distance 10. *)
Lemma quad_second_triangle_hit :
  option_map snd (Ray.intersect_quad (ray3f_od (v3 3 3 0) z_axis)
                    (v3 0 0 10) (v3 4 0 10) (v3 4 4 10) (v3 0 4 10))
  = Some (F32.of_int 10).
Proof. vm_compute. reflexivity. Qed.

Lemma max_nan_r (a : float) : max a F32.nan = F32.nan.
Proof. unfold max, F32.gtb. destruct a as [[]|[]| |[] ? ?]; reflexivity. Qed.

Lemma min_nan_r (a : float) : min a F32.nan = F32.nan.
Proof. unfold min, F32.ltb. destruct a as [[]|[]| |[] ? ?]; reflexivity. Qed.

Lemma leb_nan_l (a : float) : F32.leb F32.nan a = false.
Proof. reflexivity. Qed.

Lemma leb_nan_r (a : float) : F32.leb a F32.nan = false.
Proof. destruct a as [[]|[]| |[] ? ?]; reflexivity. Qed.

Lemma is_nan_eq (a : float) : F32.is_nan a = true -> a = F32.nan.
Proof. destruct a; try discriminate; reflexivity. Qed.

(** X11: a ray whose [tmin] or [tmax] is NaN misses every box, in both
    [intersect_bbox] overloads (while the bounds check of the other solvers
    lets a NaN bound pass). *)
Theorem nan_bounds_miss_boxes :
  forall (ray : ray3f) (ray_dinv : vec3f) (bbox : bbox3f),
    F32.is_nan (tmin ray) || F32.is_nan (tmax ray) = true ->
    Ray.intersect_bbox ray bbox = false
    /\ Ray.intersect_bbox_dinv ray ray_dinv bbox = false.
Proof.
  intros ray ray_dinv bbox H. apply orb_true_iff in H as [H|H];
    apply is_nan_eq in H.
  - split.
    + unfold Ray.intersect_bbox. cbv zeta.
      destruct (F32.ltb (x _) _), (F32.ltb (y _) _), (F32.ltb (z _) _);
        rewrite H, !max_nan_r; reflexivity.
    + unfold Ray.intersect_bbox_dinv. cbv zeta. rewrite H, max_nan_r. reflexivity.
  - split.
    + unfold Ray.intersect_bbox. cbv zeta.
      destruct (F32.ltb (x _) _), (F32.ltb (y _) _), (F32.ltb (z _) _);
        rewrite H, !min_nan_r; apply leb_nan_r.
    + unfold Ray.intersect_bbox_dinv. cbv zeta. rewrite H, min_nan_r. apply leb_nan_r.
Qed.

Lemma nan_bounds_miss_boxes_witness :
  F32.is_nan (tmin (set_tmin ray_inside F32.nan)) || F32.is_nan (tmax (set_tmin ray_inside F32.nan)) = true
  /\ Ray.intersect_bbox ray_inside unit_box = true
  /\ Ray.intersect_bbox (set_tmin ray_inside F32.nan) unit_box = false.
Proof.
  split; [reflexivity|]. split; [vm_compute; reflexivity|].
  apply (nan_bounds_miss_boxes (set_tmin ray_inside F32.nan) origin3 unit_box).
  reflexivity.
Defined.

Lemma min_comm_feq (a b : float) :
  F32.is_nan a = false -> F32.is_nan b = false -> F32.feq (min a b) (min b a).
Proof.
  intros Ha Hb. apply feq_of_lower; [not_nan|not_nan|]. intros c.
  rewrite !leb_min by assumption. apply andb_comm.
Qed.

Lemma max_comm_feq (a b : float) :
  F32.is_nan a = false -> F32.is_nan b = false -> F32.feq (max a b) (max b a).
Proof.
  intros Ha Hb. apply leb_antisym.
  - rewrite leb_max by assumption. apply andb_true_iff.
    destruct (max_ge b a Hb Ha). auto.
  - rewrite leb_max by assumption. apply andb_true_iff.
    destruct (max_ge a b Ha Hb). auto.
Qed.

(** X12: the overload of [intersect_bbox] that takes the inverse direction
    does not tell a box from the box with its two corners exchanged: when
    no slab product is NaN and neither [ray.tmin] nor [ray.tmax] is, the
    answer for [{a, b}] is the answer for [{b, a}]. *)
Theorem dinv_overload_ignores_corner_order :
  forall (ray : ray3f) (ray_dinv a b : vec3f),
    BBox.vec3f_not_nan ((a - o ray) * ray_dinv)%vec = true ->
    BBox.vec3f_not_nan ((b - o ray) * ray_dinv)%vec = true ->
    F32.is_nan (tmin ray) = false -> F32.is_nan (tmax ray) = false ->
    Ray.intersect_bbox_dinv ray ray_dinv (mkbbox3f a b)
    = Ray.intersect_bbox_dinv ray ray_dinv (mkbbox3f b a).
Proof.
  intros ray ray_dinv a b Ha Hb H0 H1.
  apply not_nan_inv in Ha as (Hax & Hay & Haz), Hb as (Hbx & Hby & Hbz).
  unfold Ray.intersect_bbox_dinv, max_elem, min_elem. cbn [bmin bmax].
  set (p := ((a - o ray) * ray_dinv)%vec) in *.
  set (q := ((b - o ray) * ray_dinv)%vec) in *.
  cbn [vmin vmax x y z].
  rewrite <- (slab_agree (min (x p) (x q)) (min (y p) (y q)) (min (z p) (z q))
                         (max (x p) (x q)) (max (y p) (y q)) (max (z p) (z q)));
    try assumption; try (apply feq_refl; not_nan).
  - apply slab_agree; try assumption;
      first [apply min_comm_feq | apply max_comm_feq]; assumption.
Qed.

Lemma dinv_overload_ignores_corner_order_witness :
  Ray.intersect_bbox_dinv ray_diag (v3 1 1 1) (mkbbox3f (v3 1 1 1) (v3 2 2 2))
  = Ray.intersect_bbox_dinv ray_diag (v3 1 1 1) swapped_box.
Proof.
  apply (dinv_overload_ignores_corner_order ray_diag (v3 1 1 1) (v3 1 1 1) (v3 2 2 2));
    vm_compute; reflexivity.
Defined.

End SolverFacts.

(* ------------------------------------------------------------------------- *)
(** ** The silhouette polygons of the cone-box test *)
(* ------------------------------------------------------------------------- *)

Module ConeBoxFacts.

Import Inputs F32Facts F32Arith.

(** The selector of [AABBPolygon] reads its argument through the 27 cases of
    the table. *)
Lemma polygon_cases (type : Z) :
  exists k : nat, (k < 27)%nat /\ ConeBox.AABBPolygon type = ConeBox.AABBPolygon (Z.of_nat k).
Proof.
  unfold ConeBox.AABBPolygon at 1.
  repeat match goal with
  | |- context [(type =? ?n)%Z] =>
      destruct (Z.eqb_spec type n) as [->|?];
      [exists (Z.to_nat n); split; [simpl; lia|reflexivity]|]
  end.
  exists 26%nat. split; [lia|reflexivity].
Qed.

Lemma entry_ok_all (type i : Z) :
  0 <= i < ConeBox.polygon_nPoints (ConeBox.AABBPolygon type) ->
  ConeBox.entry_ok (ConeBox.AABBPolygon type) i = true.
Proof.
  intros Hi. destruct (polygon_cases type) as (k & Hk & E). rewrite E in Hi |- *.
  assert (H : ConeBox.table_ok = true) by (vm_compute; reflexivity).
  unfold ConeBox.table_ok in H.
  assert (H1 := proj1 (forallb_forall _ _) H k ltac:(apply in_seq; lia)).
  cbv beta zeta in H1.
  unfold ConeBox.polygon_nPoints in Hi.
  assert (H2 := proj1 (forallb_forall _ _) H1 (Z.to_nat i) ltac:(apply in_seq; lia)).
  cbv beta in H2. rewrite Z2Nat.id in H2 by lia. exact H2.
Qed.

Section Scan.

Variable cosf : float -> float.
Variable cone : cone_data.
Variable bbox : bbox3f.

(** The corner the scan ends with is an element of the list scanned, at the
    index it ends with. *)
Lemma scan_index (points : list Z) (i : Z) (best : option (Z * Z)) (iMax jMax : Z) :
  ConeBox.scan_points cosf cone bbox points i best = ConeBox.Best (Some (iMax, jMax)) ->
  best = Some (iMax, jMax)
  \/ (i <= iMax < i + Z.of_nat (List.length points)
      /\ jMax = nth (Z.to_nat (iMax - i)) points 0).
Proof.
  revert i best. induction points as [|j rest IH]; intros i best H.
  - simpl in H. left. congruence.
  - cbn [ConeBox.scan_points] in H.
    destruct (F32.gtb (ConeBox.coneDirDOTPmV cone bbox j) F32.zero).
    + cbv zeta in H. destruct (F32.gtb _ F32.zero); [discriminate|].
      apply IH in H as [H|[Hr Hj]].
      * destruct (match best with None => true | Some (_, jMax0) => _ end).
        -- right. injection H as <- <-. cbn [List.length].
           split; [lia|]. rewrite Z.sub_diag. reflexivity.
        -- left. exact H.
      * right. cbn [List.length]. split; [lia|].
        replace (Z.to_nat (iMax - i)) with (S (Z.to_nat (iMax - (i + 1)))) by lia.
        exact Hj.
    + apply IH in H as [H|[Hr Hj]]; [left; exact H|].
      right. cbn [List.length]. split; [lia|].
      replace (Z.to_nat (iMax - i)) with (S (Z.to_nat (iMax - (i + 1)))) by lia.
      exact Hj.
Qed.

(** How [gradient_ascent] uses the polygon: through the two edge indices. *)
Lemma gradient_ascent_edges (polygon : list Z) (iMax jMax : Z) :
  ConeBox.gradient_ascent cosf cone bbox polygon iMax jMax
  = let slope k0 :=
        F32.sub (F32.mul (ConeBox.getVectorValue (dir cone) k0)
                         (ConeBox.sqrLenPmV cone bbox jMax))
                (F32.mul (ConeBox.coneDirDOTPmV cone bbox jMax)
                         (ConeBox.getVectorValue (ConeBox.PmV cone bbox jMax) k0)) in
    let sign (jDiff : Z) := if (jDiff >? 0)%Z then F32.one else F32.neg F32.one in
    let iNext := if iMax <? ConeBox.polygon_nPoints polygon - 1 then iMax + 1 else 0 in
    let iPrev := if iMax >? 0 then iMax - 1 else ConeBox.polygon_nPoints polygon - 1 in
    let sN := sign (ConeBox.point_at polygon iNext - jMax) in
    let sP := sign (jMax - ConeBox.point_at polygon iPrev) in
    let kN := ConeBox.edge_axis_next polygon iMax jMax in
    let kP := ConeBox.edge_axis_prev polygon iMax jMax in
    if F32.gtb (F32.mul sN (slope kN)) F32.zero
    then ConeBox.edge_maximum cosf cone bbox jMax sN kN
    else if F32.gtb (F32.mul (F32.neg sP) (slope kP)) F32.zero
    then ConeBox.edge_maximum cosf cone bbox jMax sP kP
    else false.
Proof. reflexivity. Qed.

End Scan.

(** X13: when the scan of the silhouette polygon hands a corner to the
    gradient ascent search, [iMax] is an index of the polygon, [jMax] is
    [point[iMax]], a corner index in 0..7, and the two values
    [k0 = abs(jDiff) >> 1] the search forms from the neighbours of that
    corner are in 0..2: they index the three-element arrays [maxPmV] and
    [coneDirection] within bounds, for each of the 27 polygons. *)
Theorem gradient_ascent_indices_in_range :
  forall (cosf : float -> float) (cone : cone_data) (bbox : bbox3f) (type iMax jMax : Z),
    ConeBox.scan_points cosf cone bbox (ConeBox.AABBPolygon type) 0 None
    = ConeBox.Best (Some (iMax, jMax)) ->
    0 <= iMax < ConeBox.polygon_nPoints (ConeBox.AABBPolygon type)
    /\ jMax = ConeBox.point_at (ConeBox.AABBPolygon type) iMax
    /\ 0 <= jMax <= 7
    /\ 0 <= ConeBox.edge_axis_next (ConeBox.AABBPolygon type) iMax jMax <= 2
    /\ 0 <= ConeBox.edge_axis_prev (ConeBox.AABBPolygon type) iMax jMax <= 2.
Proof.
  intros cosf cone bbox type iMax jMax H.
  apply scan_index in H as [H|[Hr Hj]]; [discriminate|].
  rewrite Z.sub_0_r in Hj. fold (ConeBox.point_at (ConeBox.AABBPolygon type) iMax) in Hj.
  assert (Hi : 0 <= iMax < ConeBox.polygon_nPoints (ConeBox.AABBPolygon type))
    by (unfold ConeBox.polygon_nPoints; lia).
  pose proof (entry_ok_all type iMax Hi) as Hok. unfold ConeBox.entry_ok in Hok.
  cbv zeta in Hok. rewrite <- Hj in Hok.
  repeat (apply andb_true_iff in Hok as [Hok ?]).
  repeat split; try assumption; lia.
Qed.

(** A cone of zero aperture (its cosine is 1) from the origin along [+z]
    and the box [min = (2,2,2)], [max = (3,3,3)] beside its axis. *)
Lemma gradient_ascent_indices_in_range_witness :
  ConeBox.box_type cone_up (mkbbox3f (v3 2 2 2) (v3 3 3 3)) = 0
  /\ ConeBox.scan_points (fun _ => F32.one) cone_up (mkbbox3f (v3 2 2 2) (v3 3 3 3))
       (ConeBox.AABBPolygon 0) 0 None = ConeBox.Best (Some (2, 4))
  /\ 0 <= ConeBox.edge_axis_next (ConeBox.AABBPolygon 0) 2 4 <= 2.
Proof.
  split; [vm_compute; reflexivity|].
  assert (E : ConeBox.scan_points (fun _ => F32.one) cone_up
                (mkbbox3f (v3 2 2 2) (v3 3 3 3)) (ConeBox.AABBPolygon 0) 0 None
              = ConeBox.Best (Some (2, 4))) by (vm_compute; reflexivity).
  split; [exact E|].
  exact (proj1 (proj2 (proj2 (proj2
           (gradient_ascent_indices_in_range (fun _ => F32.one) cone_up
              (mkbbox3f (v3 2 2 2) (v3 3 3 3)) 0 2 4 E))))).
Defined.

Lemma axis_type_range (c e : float) : 0 <= ConeBox.axis_type c e <= 2.
Proof.
  unfold ConeBox.axis_type. destruct (F32.ltb c (F32.neg e)), (F32.gtb c e); lia.
Qed.

Lemma axis_type_inside (c e : float) :
  ConeBox.axis_type c e = 1 <-> F32.ltb c (F32.neg e) = false /\ F32.gtb c e = false.
Proof.
  unfold ConeBox.axis_type. destruct (F32.ltb c (F32.neg e)), (F32.gtb c e);
    split; try discriminate; try tauto; intros [? ?]; try discriminate; reflexivity.
Qed.

(** X14: the polygon selector [type] is always one of the 27 indices 0..26 of
    the table; it is 13, the empty polygon, exactly when on every axis the
    cone's vertex is neither below [-e] nor above [e] from the box centre,
    and then [cone_intersect_bbox] returns true unless the half-space test
    before it rejected the box. *)
Theorem vertex_within_extents_accepts :
  forall (cosf : float -> float) (cone : cone_data) (bbox : bbox3f) (printing : bool),
    0 <= ConeBox.box_type cone bbox <= 26
    /\ (ConeBox.box_type cone bbox = 13
        <-> forallb (fun axis : vec3f -> float =>
                       negb (F32.ltb (axis (ConeBox.box_cone_vec cone bbox))
                                     (F32.neg (axis (ConeBox.box_e bbox))))
                       && negb (F32.gtb (axis (ConeBox.box_cone_vec cone bbox))
                                        (axis (ConeBox.box_e bbox))))
                    [x; y; z] = true)
    /\ (ConeBox.box_type cone bbox = 13 ->
        ConeBox.cone_intersect_bbox cosf cone bbox printing
        = negb (ConeBox.below_supporting_plane cone bbox)).
Proof.
  intros cosf cone bbox printing.
  pose proof (axis_type_range (x (ConeBox.box_cone_vec cone bbox)) (x (ConeBox.box_e bbox))) as Rx.
  pose proof (axis_type_range (y (ConeBox.box_cone_vec cone bbox)) (y (ConeBox.box_e bbox))) as Ry.
  pose proof (axis_type_range (z (ConeBox.box_cone_vec cone bbox)) (z (ConeBox.box_e bbox))) as Rz.
  split; [unfold ConeBox.box_type; lia|]. split.
  - cbn [forallb]. rewrite andb_true_r, !andb_true_iff, !negb_true_iff.
    rewrite <- !axis_type_inside. unfold ConeBox.box_type. lia.
  - intros H. unfold ConeBox.cone_intersect_bbox. rewrite H.
    destruct (ConeBox.below_supporting_plane cone bbox); [reflexivity|].
    destruct (Ray.intersect_bbox _ _); reflexivity.
Qed.

Lemma vertex_within_extents_accepts_witness :
  ConeBox.box_type cone_up unit_box = 13
  /\ ConeBox.cone_intersect_bbox nan1 cone_up unit_box false = true.
Proof.
  assert (E : ConeBox.box_type cone_up unit_box = 13) by (vm_compute; reflexivity).
  split; [exact E|].
  rewrite (proj2 (proj2 (vertex_within_extents_accepts nan1 cone_up unit_box false)) E).
  vm_compute. reflexivity.
Defined.

(** X15: [cone_intersect_bbox] reads the cone's origin, direction and spread
    only: neither the cone's [tmin] and [tmax] nor the [printing] flag
    changes the answer (the axis ray it tests carries the default bounds). *)
Theorem cone_box_ignores_range :
  forall (cosf : float -> float) (o_ d_ : vec3f) (s t0 t1 t0' t1' : float)
         (bbox : bbox3f) (printing printing' : bool),
    ConeBox.cone_intersect_bbox cosf (mkcone o_ d_ s t0 t1) bbox printing
    = ConeBox.cone_intersect_bbox cosf (mkcone o_ d_ s t0' t1') bbox printing'.
Proof.
  intros.
  cbv beta iota zeta delta
    [ConeBox.cone_intersect_bbox ConeBox.below_supporting_plane
     ConeBox.cone_dir_dot_box_cone ConeBox.radius ConeBox.box_cone_vec ConeBox.box_type
     ConeBox.scan_points ConeBox.gradient_ascent ConeBox.edge_maximum
     ConeBox.coneDirDOTPmV ConeBox.PmV ConeBox.sqrConeDirDOTPmV ConeBox.sqrLenPmV
     ConeBox.coneCosAngle_2 ConeBox.X origin dir spread].
  reflexivity.
Qed.

End ConeBoxFacts.

(* ------------------------------------------------------------------------- *)
(** ** What the cone sampler reads *)
(* ------------------------------------------------------------------------- *)

Module SamplerFacts.

Import Inputs F32Facts RayFacts ConeFacts.

Section Fold.

Variables cosf sinf : float -> float.
Variable pi : float.
Variable N : positive.
Variable cone : cone_data.
Variables (V : vec3f) (R : float) (X Y : vec3f) (ray : ray3f).
Variable test : ray3f -> float -> hit.

Let step := Cone.sample_step cosf sinf pi N cone V R X Y ray test.

(** The samples of a run are appended to [uv], one per counted turn. *)
Lemma fold_appends (l : list Z) (st : Cone.sampler) :
  exists new : list vec2f,
    Cone.uv (fold_left step l st) = Cone.uv st ++ new
    /\ Cone.nPoints (fold_left step l st) = Cone.nPoints st + Z.of_nat (List.length new).
Proof.
  revert st. induction l as [|i l IH]; intros st.
  - exists []. simpl. rewrite app_nil_r. split; [reflexivity|lia].
  - cbn [fold_left]. destruct (IH (step st i)) as (new & Huv & Hn).
    destruct (test ray (Cone.sample_radius N i)) as [[uv_ t]|] eqn:E.
    + assert (Es : step st i
                   = Cone.mksampler (Cone.nPoints st + 1)
                       (if F32.gtb (Cone.minDistance st) t then t else Cone.minDistance st)
                       t (Cone.uv st ++ [uv_])).
      { unfold step, Cone.sample_step. cbv zeta. rewrite E. reflexivity. }
      rewrite Es in Huv, Hn. rewrite Es.
      exists (uv_ :: new). cbn [Cone.uv Cone.nPoints] in Huv, Hn.
      rewrite <- app_assoc in Huv. split; [exact Huv|].
      cbn [List.length]. lia.
    + assert (Es : step st i = st).
      { unfold step, Cone.sample_step. cbv zeta. rewrite E. reflexivity. }
      rewrite Es in Huv, Hn. rewrite Es.
      exists new. split; assumption.
Qed.

Hypothesis test_const : forall r r' : float, test ray r = test ray r'.

Lemma fold_const (l : list Z) (st : Cone.sampler) :
  match test ray F32.one with
  | None => fold_left step l st = st
  | Some (uv_, t) =>
      Cone.nPoints (fold_left step l st) = Cone.nPoints st + Z.of_nat (List.length l)
      /\ Cone.uv (fold_left step l st) = Cone.uv st ++ repeat uv_ (List.length l)
      /\ (l <> [] -> Cone.t_dist (fold_left step l st) = t)
  end.
Proof.
  destruct (test ray F32.one) as [[uv_ t]|] eqn:E.
  - revert st. induction l as [|i l IH]; intros st.
    + simpl. rewrite app_nil_r. split; [lia|]. split; [reflexivity|]. congruence.
    + cbn [fold_left]. destruct (IH (step st i)) as (Hn & Huv & Ht).
      assert (Es : step st i
                   = Cone.mksampler (Cone.nPoints st + 1)
                       (if F32.gtb (Cone.minDistance st) t then t else Cone.minDistance st)
                       t (Cone.uv st ++ [uv_])).
      { unfold step, Cone.sample_step. cbv zeta.
        rewrite (test_const _ F32.one), E. reflexivity. }
      rewrite Es in Hn, Huv, Ht. cbn [Cone.nPoints Cone.uv Cone.t_dist] in Hn, Huv, Ht.
      rewrite Es.
      split; [cbn [List.length]; lia|]. split.
      * rewrite Huv, <- app_assoc. reflexivity.
      * intros _. destruct l as [|j l]; [reflexivity|]. apply Ht. discriminate.
  - revert st. induction l as [|i l IH]; intros st; [reflexivity|].
    cbn [fold_left].
    assert (Es : step st i = st).
    { unfold step, Cone.sample_step. cbv zeta.
      rewrite (test_const _ F32.one), E. reflexivity. }
    rewrite Es. apply IH.
Qed.

End Fold.

Section Overloads.

Variables cosf sinf tanf : float -> float.
Variable pi : float.
Variable N : positive.

Lemma indices_length : List.length (Cone.sample_indices N) = Pos.to_nat N.
Proof. unfold Cone.sample_indices. rewrite length_map, length_seq. reflexivity. Qed.

Lemma indices_not_nil : Cone.sample_indices N <> [].
Proof.
  intros H. apply (f_equal (@List.length Z)) in H. rewrite indices_length in H.
  pose proof (Pos2Nat.is_pos N). simpl in H. lia.
Qed.

(** The whole result of an overload whose solver does not read the sample
    radius. *)
Lemma const_test_result (cone : cone_data) (V : vec3f) (test : ray3f -> float -> hit)
    (uv0 : list vec2f) :
  (forall r r', test (Cone.cone_ray cone) r = test (Cone.cone_ray cone) r') ->
  Cone.sample_finish N (Cone.sample_loop cosf sinf tanf pi N cone V test uv0)
  = Cone.axis_result N uv0 (test (Cone.cone_ray cone) F32.one).
Proof.
  intros Hc. unfold Cone.sample_loop. cbv zeta.
  match goal with
  | |- context [fold_left (Cone.sample_step _ _ _ _ _ _ ?R ?X ?Y ?ray _) ?l ?st] =>
      pose proof (fold_const cosf sinf pi N cone V R X Y ray test Hc l st) as H
  end.
  destruct (test (Cone.cone_ray cone) F32.one) as [[uv_ t]|] eqn:E.
  - destruct H as (Hn & Huv & Ht). specialize (Ht indices_not_nil).
    rewrite indices_length, positive_nat_Z in Hn.
    rewrite indices_length in Huv.
    cbn [Cone.sampler_init Cone.nPoints Cone.uv] in Hn, Huv.
    rewrite finish_count by (rewrite Hn; lia).
    rewrite Hn, Huv, Ht, Z.eqb_refl. cbn [andb Cone.axis_result].
    destruct (F32.neqb t (F32.of_int (-1))); reflexivity.
  - rewrite H. apply finish_init.
Qed.

End Overloads.

(** X16: the cone tests for a line, a cylinder, a triangle and a quad answer
    what the ray solver answers on the one ray along the cone's axis: a
    miss of that ray is a miss that leaves [uv] as it was; a hit of that ray
    at distance [t] with parameters [uv_] pushes [uv_] once per sample, [N]
    times, and is reported as a hit at distance [t], unless [t] is -1. *)
Theorem cone_test_is_axis_ray_test :
  forall (cosf sinf tanf : float -> float) (pi : float) (N : positive)
         (cone : cone_data) (uv0 : list vec2f),
    (forall p0 p1 r0 r1,
        Cone.intersect_line cosf sinf tanf pi N cone p0 p1 r0 r1 uv0
        = Cone.axis_result N uv0 (Ray.intersect_line (Cone.cone_ray cone) p0 p1 r0 r1))
    /\ (forall equal p0 p1 r0 r1,
        Cone.intersect_cylinder cosf sinf tanf pi N equal cone p0 p1 r0 r1 uv0
        = Cone.axis_result N uv0
            (Ray.intersect_cylinder equal (Cone.cone_ray cone) p0 p1 r0 r1))
    /\ (forall p0 p1 p2,
        Cone.intersect_triangle cosf sinf tanf pi N cone p0 p1 p2 uv0
        = Cone.axis_result N uv0 (Ray.intersect_triangle (Cone.cone_ray cone) p0 p1 p2))
    /\ (forall p0 p1 p2 p3,
        Cone.intersect_quad cosf sinf tanf pi N cone p0 p1 p2 p3 uv0
        = Cone.axis_result N uv0 (Ray.intersect_quad (Cone.cone_ray cone) p0 p1 p2 p3)).
Proof.
  intros. split; [|split; [|split]]; intros.
  - unfold Cone.intersect_line, Cone.line_loop.
    rewrite const_test_result by (intros; reflexivity). reflexivity.
  - unfold Cone.intersect_cylinder, Cone.cylinder_loop.
    rewrite const_test_result by (intros; reflexivity). reflexivity.
  - unfold Cone.intersect_triangle, Cone.triangle_loop.
    rewrite const_test_result by (intros; reflexivity). reflexivity.
  - unfold Cone.intersect_quad, Cone.quad_loop.
    rewrite const_test_result by (intros; reflexivity). reflexivity.
Qed.

(** The loop reads the cone through the ray along its axis only. *)
Lemma loop_reads_ray (cosf sinf tanf : float -> float) (pi : float) (N : positive)
    (cone : cone_data) (V : vec3f) (test : ray3f -> float -> hit) (uv0 : list vec2f) :
  Cone.sample_loop cosf sinf tanf pi N cone V test uv0
  = fold_left
      (fun st i =>
         match test (Cone.cone_ray cone) (Cone.sample_radius N i) with
         | Some (uv_, t) =>
             Cone.mksampler (Cone.nPoints st + 1)
               (if F32.gtb (Cone.minDistance st) t then t else Cone.minDistance st)
               t (Cone.uv st ++ [uv_])
         | None => st
         end)
      (Cone.sample_indices N) (Cone.sampler_init uv0).
Proof. reflexivity. Qed.

(** X17: no cone test depends on the cone's spread, on the disc placed for
    the samples (its centre comes from the primitive, its radius from the
    tangent of the spread) or on what [cos], [sin], [tanf] and [pi] are:
    two cones with the same origin, direction, [tmin] and [tmax] get the
    same flag, distance and [uv] samples from each of the five overloads. *)
Theorem cone_tests_ignore_spread :
  forall (cosf sinf tanf cosf' sinf' tanf' : float -> float) (pi pi' : float)
         (N : positive) (o_ d_ : vec3f) (s s' t0 t1 : float) (uv0 : list vec2f),
    (forall p radius radius',
        Cone.intersect_point cosf sinf tanf pi N (mkcone o_ d_ s t0 t1) p radius uv0
        = Cone.intersect_point cosf' sinf' tanf' pi' N (mkcone o_ d_ s' t0 t1) p radius' uv0)
    /\ (forall p0 p1 r0 r1,
        Cone.intersect_line cosf sinf tanf pi N (mkcone o_ d_ s t0 t1) p0 p1 r0 r1 uv0
        = Cone.intersect_line cosf' sinf' tanf' pi' N (mkcone o_ d_ s' t0 t1) p0 p1 r0 r1 uv0)
    /\ (forall equal p0 p1 r0 r1,
        Cone.intersect_cylinder cosf sinf tanf pi N equal (mkcone o_ d_ s t0 t1)
          p0 p1 r0 r1 uv0
        = Cone.intersect_cylinder cosf' sinf' tanf' pi' N equal (mkcone o_ d_ s' t0 t1)
            p0 p1 r0 r1 uv0)
    /\ (forall p0 p1 p2,
        Cone.intersect_triangle cosf sinf tanf pi N (mkcone o_ d_ s t0 t1) p0 p1 p2 uv0
        = Cone.intersect_triangle cosf' sinf' tanf' pi' N (mkcone o_ d_ s' t0 t1)
            p0 p1 p2 uv0)
    /\ (forall p0 p1 p2 p3,
        Cone.intersect_quad cosf sinf tanf pi N (mkcone o_ d_ s t0 t1) p0 p1 p2 p3 uv0
        = Cone.intersect_quad cosf' sinf' tanf' pi' N (mkcone o_ d_ s' t0 t1)
            p0 p1 p2 p3 uv0).
Proof.
  intros. split; [|split; [|split; [|split]]]; intros.
  - unfold Cone.intersect_point, Cone.point_loop. rewrite !loop_reads_ray. reflexivity.
  - unfold Cone.intersect_line, Cone.line_loop. rewrite !loop_reads_ray. reflexivity.
  - unfold Cone.intersect_cylinder, Cone.cylinder_loop. rewrite !loop_reads_ray. reflexivity.
  - unfold Cone.intersect_triangle, Cone.triangle_loop. rewrite !loop_reads_ray. reflexivity.
  - unfold Cone.intersect_quad, Cone.quad_loop. rewrite !loop_reads_ray. reflexivity.
Qed.

(** X18: whatever a cone test returns, the [uv] vector it leaves is the one
    it was given followed by one entry per counted sample, at most [N] of
    them; the entries stay when the test returns false.  (Each of the five
    overloads is [sample_finish] of its [sample_loop].) *)
Theorem samples_are_appended :
  forall (cosf sinf tanf : float -> float) (pi : float) (N : positive)
         (cone : cone_data) (V : vec3f) (test : ray3f -> float -> hit)
         (uv0 : list vec2f),
    let st := Cone.sample_loop cosf sinf tanf pi N cone V test uv0 in
    exists new : list vec2f,
      fst (Cone.sample_finish N st) = uv0 ++ new
      /\ Z.of_nat (List.length new) = Cone.nPoints st
      /\ 0 <= Cone.nPoints st <= Z.pos N.
Proof.
  intros. subst st.
  pose proof (loop_count_bounds cosf sinf tanf pi N cone V test uv0) as Hb.
  unfold Cone.sample_loop in *. cbv zeta in *.
  match goal with
  | |- context [fold_left (Cone.sample_step _ _ _ _ _ _ ?R ?X ?Y ?ray _) ?l ?st] =>
      destruct (fold_appends cosf sinf pi N cone V R X Y ray test l st) as (new & Huv & Hn)
  end.
  cbn [Cone.sampler_init Cone.uv Cone.nPoints] in Huv, Hn.
  exists new. split; [|split; [lia|exact Hb]].
  rewrite <- Huv. unfold Cone.sample_finish.
  destruct (F32.leb _ _); [reflexivity|]. destruct (F32.neqb _ _); reflexivity.
Qed.

End SamplerFacts.

(* ------------------------------------------------------------------------- *)
(** ** Interpolation and degenerate primitives *)
(* ------------------------------------------------------------------------- *)

Module GeomFacts.

Import Inputs F32Facts F32Arith BoundsFacts BoxAlgebra.

Lemma mul_one (a : float) : Geom.finite a = true -> F32.mul a F32.one = a.
Proof.
  intros H. apply finite_inv in H as [Hv Hf].
  destruct a as [[]|[]| |s m e]; try discriminate; try reflexivity.
  apply mul_one_r, Hv.
Qed.

Lemma same_refl (a : float) : F32.is_finite a = true -> Geom.same a a.
Proof. intros H. split; [apply eqb_refl, finite_not_nan, H|exact H]. Qed.

Lemma same_add_zero_r (a b z : float) :
  Geom.same a b -> F32.is_zero z = true -> Geom.same (F32.add a z) b.
Proof.
  intros [He Hf] Hz. destruct z as [sz| | |]; try discriminate.
  destruct a as [sa|[]| |sa ma ea]; try discriminate.
  - destruct b as [sb|[]| |[] mb eb]; try discriminate.
    destruct sa, sz; split; reflexivity.
  - split; [exact He|reflexivity].
Qed.

Lemma same_add_zero_l (a b z : float) :
  Geom.same a b -> F32.is_zero z = true -> Geom.same (F32.add z a) b.
Proof.
  intros [He Hf] Hz. destruct z as [sz| | |]; try discriminate.
  destruct a as [sa|[]| |sa ma ea]; try discriminate.
  - destruct b as [sb|[]| |[] mb eb]; try discriminate.
    destruct sa, sz; split; reflexivity.
  - split; [exact He|reflexivity].
Qed.

Lemma finite_is_finite (a : float) : Geom.finite a = true -> F32.is_finite a = true.
Proof. intros H. apply finite_inv in H. tauto. Qed.

(** One coordinate of an interpolation with weights 1, 0, 0 in the three
    positions. *)
Lemma weights_100 (a b c w : float) :
  Geom.finite a = true -> Geom.finite b = true -> Geom.finite c = true ->
  F32.is_zero w = true ->
  F32.eqb (F32.add (F32.add (F32.mul a F32.one) (F32.mul b w)) (F32.mul c w)) a = true.
Proof.
  intros Ha Hb Hc Hw. rewrite (mul_one a Ha).
  apply finite_is_finite in Ha, Hb, Hc.
  apply same_add_zero_r; [apply same_add_zero_r; [apply same_refl, Ha|]|];
    apply mul_zero_r; assumption.
Qed.

Lemma weights_010 (a b c w : float) :
  Geom.finite a = true -> Geom.finite b = true -> Geom.finite c = true ->
  F32.is_zero w = true ->
  F32.eqb (F32.add (F32.add (F32.mul a w) (F32.mul b F32.one)) (F32.mul c w)) b = true.
Proof.
  intros Ha Hb Hc Hw. rewrite (mul_one b Hb).
  apply finite_is_finite in Ha, Hb, Hc.
  apply same_add_zero_r; [apply same_add_zero_l; [apply same_refl, Hb|]|];
    apply mul_zero_r; assumption.
Qed.

Lemma weights_001 (a b c w w' : float) :
  Geom.finite a = true -> Geom.finite b = true -> Geom.finite c = true ->
  F32.is_zero w = true -> F32.is_zero w' = true ->
  F32.eqb (F32.add (F32.add (F32.mul a w) (F32.mul b w')) (F32.mul c F32.one)) c = true.
Proof.
  intros Ha Hb Hc Hw Hw'. rewrite (mul_one c Hc).
  apply finite_is_finite in Ha, Hb, Hc.
  apply same_add_zero_l; [apply same_refl, Hc|].
  apply add_zero_zero; apply mul_zero_r; assumption.
Qed.

Lemma veqb_intro (a b : vec3f) :
  F32.eqb (x a) (x b) = true -> F32.eqb (y a) (y b) = true ->
  F32.eqb (z a) (z b) = true -> veqb a b = true.
Proof. unfold veqb. intros -> -> ->. reflexivity. Qed.

Lemma triangle_corners (p0 p1 p2 : vec3f) :
  Geom.vec3f_finite p0 = true -> Geom.vec3f_finite p1 = true ->
  Geom.vec3f_finite p2 = true ->
  veqb (Geom.triangle_point p0 p1 p2 uv00) p0 = true
  /\ veqb (Geom.triangle_point p0 p1 p2 uv10) p1 = true
  /\ veqb (Geom.triangle_point p0 p1 p2 uv01) p2 = true.
Proof.
  intros H0 H1 H2.
  apply vec3f_finite_inv in H0 as (? & ? & ?), H1 as (? & ? & ?), H2 as (? & ? & ?).
  unfold Geom.triangle_point, uv00, uv10, uv01, zero2. cbn [u_ v_].
  change (F32.sub (F32.sub F32.one F32.zero) F32.zero) with F32.one.
  change (F32.sub (F32.sub F32.one F32.one) F32.zero) with F32.zero.
  change (F32.sub (F32.sub F32.one F32.zero) F32.one) with F32.zero.
  repeat split; apply veqb_intro; cbn [vadd vscale x y z];
    first [ apply weights_100 | apply weights_010 | apply weights_001 ];
    solve [assumption | reflexivity].
Qed.

(** X19: the interpolation functions reach the vertices at the corners of
    their parameter range: for vertices of finite coordinates,
    [line_point] gives [p0] at 0 and [p1] at 1, [triangle_point] gives
    [p0], [p1], [p2] at [(0,0)], [(1,0)], [(0,1)], and [quad_point] gives
    [p0], [p1], [p2], [p3] at [(0,0)], [(1,0)], [(1,1)], [(0,1)]; the
    results equal the vertices as [==] compares them (a zero coordinate may
    come out with the other sign). *)
Theorem interpolation_reaches_vertices :
  forall p0 p1 p2 p3 : vec3f,
    Geom.vec3f_finite p0 = true -> Geom.vec3f_finite p1 = true ->
    Geom.vec3f_finite p2 = true -> Geom.vec3f_finite p3 = true ->
    (veqb (Geom.line_point p0 p1 F32.zero) p0 = true
     /\ veqb (Geom.line_point p0 p1 F32.one) p1 = true)
    /\ (veqb (Geom.triangle_point p0 p1 p2 uv00) p0 = true
        /\ veqb (Geom.triangle_point p0 p1 p2 uv10) p1 = true
        /\ veqb (Geom.triangle_point p0 p1 p2 uv01) p2 = true)
    /\ (veqb (Geom.quad_point p0 p1 p2 p3 uv00) p0 = true
        /\ veqb (Geom.quad_point p0 p1 p2 p3 uv10) p1 = true
        /\ veqb (Geom.quad_point p0 p1 p2 p3 uv11) p2 = true
        /\ veqb (Geom.quad_point p0 p1 p2 p3 uv01) p3 = true).
Proof.
  intros p0 p1 p2 p3 H0 H1 H2 H3.
  destruct (triangle_corners p0 p1 p2 H0 H1 H2) as (T0 & T1 & T2).
  destruct (triangle_corners p0 p1 p3 H0 H1 H3) as (Q0 & Q1 & Q3).
  destruct (triangle_corners p2 p3 p1 H2 H3 H1) as (Q2 & _ & _).
  split; [|split; [auto|]].
  - apply vec3f_finite_inv in H0 as (? & ? & ?), H1 as (? & ? & ?).
    unfold Geom.line_point.
    change (F32.sub F32.one F32.zero) with F32.one.
    change (F32.sub F32.one F32.one) with F32.zero.
    split; apply veqb_intro; cbn [vadd vscale x y z].
    + rewrite mul_one by assumption.
      apply same_add_zero_r; [apply same_refl, finite_is_finite; assumption|].
      apply mul_zero_r; [apply finite_is_finite; assumption|reflexivity].
    + rewrite mul_one by assumption.
      apply same_add_zero_r; [apply same_refl, finite_is_finite; assumption|].
      apply mul_zero_r; [apply finite_is_finite; assumption|reflexivity].
    + rewrite mul_one by assumption.
      apply same_add_zero_r; [apply same_refl, finite_is_finite; assumption|].
      apply mul_zero_r; [apply finite_is_finite; assumption|reflexivity].
    + rewrite mul_one by assumption.
      apply same_add_zero_l; [apply same_refl, finite_is_finite; assumption|].
      apply mul_zero_r; [apply finite_is_finite; assumption|reflexivity].
    + rewrite mul_one by assumption.
      apply same_add_zero_l; [apply same_refl, finite_is_finite; assumption|].
      apply mul_zero_r; [apply finite_is_finite; assumption|reflexivity].
    + rewrite mul_one by assumption.
      apply same_add_zero_l; [apply same_refl, finite_is_finite; assumption|].
      apply mul_zero_r; [apply finite_is_finite; assumption|reflexivity].
  - unfold Geom.quad_point, uv00, uv10, uv11, uv01, zero2. cbn [u_ v_].
    change (F32.leb (F32.add F32.zero F32.zero) F32.one) with true.
    change (F32.leb (F32.add F32.one F32.zero) F32.one) with true.
    change (F32.leb (F32.add F32.zero F32.one) F32.one) with true.
    change (F32.leb (F32.add F32.one F32.one) F32.one) with false.
    change (one_minus2 (mkvec2f F32.one F32.one)) with uv00.
    cbv iota. auto.
Qed.

Lemma interpolation_reaches_vertices_witness :
  Geom.vec3f_finite quad_p2 = true
  /\ veqb (Geom.quad_point quad_p0 quad_p1 quad_p2 quad_p3 uv11) quad_p2 = true.
Proof.
  split; [vm_compute; reflexivity|].
  apply (interpolation_reaches_vertices quad_p0 quad_p1 quad_p2 quad_p3);
    vm_compute; reflexivity.
Defined.

Lemma neqb_zero (a : float) : F32.is_zero a = true -> F32.neqb a F32.zero = false.
Proof. destruct a as [[]| | |]; try discriminate; reflexivity. Qed.

(** X20: with three equal texture coordinates (of finite components) the
    tangent frame cannot be derived: [triangle_tangents_fromuv] returns the
    fixed pair [(1,0,0)], [(0,1,0)] whatever the triangle is, and so does
    [quad_tangents_fromuv] with four equal coordinates, for either of its
    triangles. *)
Theorem equal_uv_fixed_tangents :
  forall (p0 p1 p2 p3 : vec3f) (uv current_uv : vec2f),
    F32.is_finite (u_ uv) = true -> F32.is_finite (v_ uv) = true ->
    Geom.triangle_tangents_fromuv p0 p1 p2 uv uv uv
    = (mkvec3f F32.one F32.zero F32.zero, mkvec3f F32.zero F32.one F32.zero)
    /\ Geom.quad_tangents_fromuv p0 p1 p2 p3 uv uv uv uv current_uv
       = (mkvec3f F32.one F32.zero F32.zero, mkvec3f F32.zero F32.one F32.zero).
Proof.
  intros p0 p1 p2 p3 uv current_uv Hu Hv.
  assert (T : forall q0 q1 q2,
             Geom.triangle_tangents_fromuv q0 q1 q2 uv uv uv
             = (mkvec3f F32.one F32.zero F32.zero, mkvec3f F32.zero F32.one F32.zero)).
  { intros. unfold Geom.triangle_tangents_fromuv. cbv zeta. cbn [u_ v_].
    pose proof (sub_diag _ Hu) as Zu. pose proof (sub_diag _ Hv) as Zv.
    rewrite neqb_zero; [reflexivity|].
    apply sub_zero_zero; apply mul_zero_r; try assumption;
      destruct (F32.sub (u_ uv) (u_ uv)); try discriminate; reflexivity. }
  split; [apply T|].
  unfold Geom.quad_tangents_fromuv. destruct (F32.leb _ _); apply T.
Qed.

Lemma equal_uv_fixed_tangents_witness :
  Geom.triangle_tangents_fromuv ahead_p0 ahead_p1 ahead_p2 uv00 uv00 uv00
  = (mkvec3f F32.one F32.zero F32.zero, mkvec3f F32.zero F32.one F32.zero).
Proof.
  apply (equal_uv_fixed_tangents ahead_p0 ahead_p1 ahead_p2 ahead_p2 uv00 uv00);
    reflexivity.
Defined.

Lemma zero_is_finite (a : float) : F32.is_zero a = true -> F32.is_finite a = true.
Proof. destruct a; try discriminate; reflexivity. Qed.





(** X22: [point_bounds(p, r)] is an ordered box for either sign of [r], and
    encloses [p - r] and [p + r], when these two have no NaN coordinate;
    [sphere_bounds] takes [p - r] and [p + r] as they come. *)
Theorem point_bounds_ordered :
  forall (p : vec3f) (r : float),
    BBox.vec3f_not_nan (vsubs p r) = true ->
    BBox.vec3f_not_nan (p +: r)%vec = true ->
    BBox.vleb (bmin (BBox.point_bounds_r p r)) (bmax (BBox.point_bounds_r p r)) = true
    /\ BBox.encloses (BBox.point_bounds_r p r) (vsubs p r) = true
    /\ BBox.encloses (BBox.point_bounds_r p r) (p +: r)%vec = true.
Proof.
  intros p r Hm Hp. unfold BBox.point_bounds_r. cbn [bmin bmax].
  destruct (vmin_le _ _ Hm Hp) as [L1 L2], (vmax_ge _ _ Hm Hp) as [U1 U2].
  split; [eapply vleb_trans; eassumption|].
  split; apply encloses_intro; assumption.
Qed.

Lemma point_bounds_ordered_witness :
  BBox.point_bounds_r origin3 (F32.of_int (-1)) = unit_box
  /\ BBox.vleb (bmin (BBox.point_bounds_r origin3 (F32.of_int (-1))))
               (bmax (BBox.point_bounds_r origin3 (F32.of_int (-1)))) = true.
Proof.
  split; [vm_compute; reflexivity|].
  apply (point_bounds_ordered origin3 (F32.of_int (-1))); vm_compute; reflexivity.
Defined.

(** With a negative radius [sphere_bounds] is a box whose corners are
    exchanged. *)
Lemma sphere_bounds_negative_radius :
  BBox.sphere_bounds origin3 (F32.of_int (-1)) = mkbbox3f (v3 1 1 1) (v3 (-1) (-1) (-1)).
Proof. vm_compute. reflexivity. Qed.

End GeomFacts.
